(** * Onboard backend: token lifecycle, onboarding tracker, document review

    A shallow embedding of the Express/Prisma controllers of the backend
    ([auth.controller], [onboarding.controller], [admin.controller]) together
    with the helpers they call ([utils/errors], [utils/jwt],
    [middleware/errorHandler]).

    - Every Prisma table is a list of rows, in insertion order.
    - A controller is a function in the monad [M]: it receives the database,
      returns the JSON body it would send or the exception it passes to
      [next], and the database it leaves behind.  There is no transaction in
      the source, so writes made before a [throw] stay.
    - [Date.now()], the primary keys the ORM generates, [crypto.randomBytes]
      and the bcrypt salt are inputs of a request, gathered in [Env].
    - The libraries [jsonwebtoken] and [bcryptjs] are parameters of the
      development (class [Runtime]). *)

From Stdlib Require Import ZArith List String Ascii Bool Lia DecimalString.
Import ListNotations.
Local Open Scope string_scope.
Local Open Scope Z_scope.

(** ** JSON values *)

Local Unset Elimination Schemes.
Inductive Json : Type :=
| JNull
| JBool (b : bool)
| JNum (n : Z)
| JStr (s : string)
| JArr (items : list Json)
| JObj (fields : list (string * Json)).
Local Set Elimination Schemes.

(** A JSON object as [z.record(z.unknown())] parses it. *)
Definition JsonRecord := list (string * Json).

(** [obj.key]: [None] stands for [undefined]. *)
Fixpoint prop (key : string) (obj : JsonRecord) : option Json :=
  match obj with
  | [] => None
  | (k, v) :: rest => if String.eqb k key then Some v else prop key rest
  end.

(** JavaScript truthiness of a value read from a JSON object. *)
Definition truthy (v : option Json) : bool :=
  match v with
  | None => false
  | Some JNull => false
  | Some (JBool b) => b
  | Some (JNum n) => negb (n =? 0)
  | Some (JStr s) => negb (String.eqb s "")
  | Some (JArr _) => true
  | Some (JObj _) => true
  end.

(** The name zod gives the type of a value it did not expect. *)
Definition receivedType (v : Json) : string :=
  match v with
  | JNull => "null"
  | JBool _ => "boolean"
  | JNum _ => "number"
  | JStr _ => "string"
  | JArr _ => "array"
  | JObj _ => "object"
  end.

(** Decimal rendering of an integer, as a template literal does. *)
Definition showZ (z : Z) : string := NilZero.string_of_int (Z.to_int z).

(** ** The schema (prisma migrations) *)

Module Role.
Inductive t := USER | ADMIN.
End Role.

Module OnboardingStatus.
Inductive t := PENDING | IN_PROGRESS | COMPLETED.
End OnboardingStatus.

Module StepStatus.
Inductive t := PENDING | IN_PROGRESS | COMPLETED | SKIPPED.
End StepStatus.

Module DocumentVerificationStatus.
Inductive t := PENDING | APPROVED | REJECTED.
Definition eqb (a b : t) : bool :=
    match a, b with
    | PENDING, PENDING | APPROVED, APPROVED | REJECTED, REJECTED => true
    | _, _ => false
    end.
End DocumentVerificationStatus.

Module DocumentCategory.
Inductive t := ID_DOCUMENT | BUSINESS_LICENSE | TAX_DOCUMENT | PROOF_OF_ADDRESS | OTHER.
End DocumentCategory.

Module Client.
Record t := mk {
    id : string;
    email : string;
    passwordHash : string;
    firstName : string;
    lastName : string;
    companyName : option string;
    phone : option string;
    avatarUrl : option string;
    emailVerified : bool;
    role : Role.t
  }.
End Client.

(** The three token tables share one shape: [refresh_tokens],
    [password_reset_tokens], [email_verification_tokens]. *)
Module TokenRow.
Record t := mk {
    id : string;
    token : string;
    clientId : string;
    expiresAt : Z
  }.
End TokenRow.

Module OnboardingStep.
Record t := mk {
    id : string;
    stepNumber : Z;
    name : string;
    title : string;
    description : string;
    isRequired : bool
  }.
End OnboardingStep.

Module OnboardingProgress.
Record t := mk {
    id : string;
    clientId : string;
    currentStep : Z;
    status : OnboardingStatus.t;
    completedAt : option Z
  }.
End OnboardingProgress.

Module StepProgress.
Record t := mk {
    id : string;
    onboardingProgressId : string;
    onboardingStepId : string;
    status : StepStatus.t;
    data : option JsonRecord;
    completedAt : option Z
  }.
End StepProgress.

Module Document.
Record t := mk {
    id : string;
    clientId : string;
    fileName : string;
    fileUrl : string;
    fileKey : string;
    fileType : string;
    fileSize : Z;
    category : DocumentCategory.t;
    verificationStatus : DocumentVerificationStatus.t;
    rejectionReason : option string;
    verifiedAt : option Z;
    uploadedAt : Z
  }.
End Document.

Module AdminActivityLog.
Record t := mk {
    id : string;
    adminId : string;
    action : string;
    targetType : string;
    targetId : string;
    details : option Json;
    createdAt : Z
  }.
End AdminActivityLog.

(** A message handed to the mail provider. *)
Module Email.
Inductive kind := Verification | PasswordReset.
Record t := mk { to : string; firstName : string; token : string; what : kind }.
End Email.

(** The database, plus the mails sent so far. *)
Record Db := mkDb {
  clients : list Client.t;
  refreshTokens : list TokenRow.t;
  passwordResetTokens : list TokenRow.t;
  emailVerificationTokens : list TokenRow.t;
  onboardingSteps : list OnboardingStep.t;
  onboardingProgress : list OnboardingProgress.t;
  stepProgress : list StepProgress.t;
  documents : list Document.t;
  adminActivityLogs : list AdminActivityLog.t;
  outbox : list Email.t
}.

Definition with_clients (f : list Client.t -> list Client.t) (db : Db) : Db :=
  mkDb (f (clients db)) (refreshTokens db) (passwordResetTokens db)
       (emailVerificationTokens db) (onboardingSteps db) (onboardingProgress db)
       (stepProgress db) (documents db) (adminActivityLogs db) (outbox db).

Definition with_refreshTokens (f : list TokenRow.t -> list TokenRow.t) (db : Db) : Db :=
  mkDb (clients db) (f (refreshTokens db)) (passwordResetTokens db)
       (emailVerificationTokens db) (onboardingSteps db) (onboardingProgress db)
       (stepProgress db) (documents db) (adminActivityLogs db) (outbox db).

Definition with_passwordResetTokens (f : list TokenRow.t -> list TokenRow.t) (db : Db) : Db :=
  mkDb (clients db) (refreshTokens db) (f (passwordResetTokens db))
       (emailVerificationTokens db) (onboardingSteps db) (onboardingProgress db)
       (stepProgress db) (documents db) (adminActivityLogs db) (outbox db).

Definition with_emailVerificationTokens (f : list TokenRow.t -> list TokenRow.t) (db : Db) : Db :=
  mkDb (clients db) (refreshTokens db) (passwordResetTokens db)
       (f (emailVerificationTokens db)) (onboardingSteps db) (onboardingProgress db)
       (stepProgress db) (documents db) (adminActivityLogs db) (outbox db).

Definition with_onboardingProgress
  (f : list OnboardingProgress.t -> list OnboardingProgress.t) (db : Db) : Db :=
  mkDb (clients db) (refreshTokens db) (passwordResetTokens db)
       (emailVerificationTokens db) (onboardingSteps db) (f (onboardingProgress db))
       (stepProgress db) (documents db) (adminActivityLogs db) (outbox db).

Definition with_stepProgress (f : list StepProgress.t -> list StepProgress.t) (db : Db) : Db :=
  mkDb (clients db) (refreshTokens db) (passwordResetTokens db)
       (emailVerificationTokens db) (onboardingSteps db) (onboardingProgress db)
       (f (stepProgress db)) (documents db) (adminActivityLogs db) (outbox db).

Definition with_documents (f : list Document.t -> list Document.t) (db : Db) : Db :=
  mkDb (clients db) (refreshTokens db) (passwordResetTokens db)
       (emailVerificationTokens db) (onboardingSteps db) (onboardingProgress db)
       (stepProgress db) (f (documents db)) (adminActivityLogs db) (outbox db).

Definition with_adminActivityLogs
  (f : list AdminActivityLog.t -> list AdminActivityLog.t) (db : Db) : Db :=
  mkDb (clients db) (refreshTokens db) (passwordResetTokens db)
       (emailVerificationTokens db) (onboardingSteps db) (onboardingProgress db)
       (stepProgress db) (documents db) (f (adminActivityLogs db)) (outbox db).

Definition with_outbox (f : list Email.t -> list Email.t) (db : Db) : Db :=
  mkDb (clients db) (refreshTokens db) (passwordResetTokens db)
       (emailVerificationTokens db) (onboardingSteps db) (onboardingProgress db)
       (stepProgress db) (documents db) (adminActivityLogs db) (f (outbox db)).

(** ** Exceptions and the error middleware (utils/errors.ts, errorHandler.ts) *)

Inductive Exn :=
| ApiError (statusCode : Z) (message : string) (code : string)
| JsonWebTokenError
| TokenExpiredError
| PrismaKnownRequestError (code : string) (target : option string) (message : string)
| OtherError (message : string).

Module errors.
Definition badRequest (message : string) : Exn := ApiError 400 message "BAD_REQUEST".
Definition unauthorized (message : string) : Exn := ApiError 401 message "UNAUTHORIZED".
Definition forbidden (message : string) : Exn := ApiError 403 message "FORBIDDEN".
Definition notFound (resource : string) : Exn :=
    ApiError 404 (resource ++ " not found") "NOT_FOUND".
Definition conflict (message : string) : Exn := ApiError 409 message "CONFLICT".
End errors.

(** The error envelope [{success: false, error: {code, message}}] and its
    HTTP status. *)
Record ErrorResponse := mkErrorResponse {
  httpStatus : Z;
  errorCode : string;
  errorMessage : string
}.

Definition errorHandler (production : bool) (err : Exn) : ErrorResponse :=
  match err with
  | ApiError statusCode message code => mkErrorResponse statusCode code message
  | JsonWebTokenError => mkErrorResponse 401 "INVALID_TOKEN" "Invalid token"
  | TokenExpiredError => mkErrorResponse 401 "TOKEN_EXPIRED" "Token has expired"
  | PrismaKnownRequestError code target message =>
      if String.eqb code "P2002" then
        mkErrorResponse 409 "DUPLICATE_ENTRY"
          ("A record with this "
             ++ match target with Some column => column | None => "value" end
             ++ " already exists")
      else if String.eqb code "P2025" then
        mkErrorResponse 404 "NOT_FOUND" "Record not found"
      else
        mkErrorResponse 500 "INTERNAL_ERROR"
          (if production then "Internal server error" else message)
  | OtherError message =>
      mkErrorResponse 500 "INTERNAL_ERROR"
        (if production then "Internal server error" else message)
  end.

(** ** The controller monad: database state and thrown exceptions *)

Inductive Outcome (A : Type) : Type :=
| Ok (a : A)
| Throw (e : Exn).
Arguments Ok {A} a.
Arguments Throw {A} e.

Definition M (A : Type) : Type := Db -> Outcome A * Db.

Definition ret {A} (a : A) : M A := fun db => (Ok a, db).
Definition throw {A} (e : Exn) : M A := fun db => (Throw e, db).
Definition bind {A B} (m : M A) (k : A -> M B) : M B :=
  fun db =>
    match m db with
    | (Ok a, db') => k a db'
    | (Throw e, db') => (Throw e, db')
    end.
Definition gets {A} (f : Db -> A) : M A := fun db => (Ok (f db), db).
Definition modify (f : Db -> Db) : M unit := fun db => (Ok tt, f db).
Definition when_ (b : bool) (m : M unit) : M unit := if b then m else ret tt.

Notation "x <- c ;; k" := (bind c (fun x => k))
  (at level 61, c at next level, right associativity).
Notation "c ;;; k" := (bind c (fun _ => k))
  (at level 61, right associativity).

(** What the caller of the HTTP route observes. *)
Definition failsWith {A} (status : Z) (r : Outcome A * Db) : Prop :=
  match fst r with
  | Ok _ => False
  | Throw e => forall production, httpStatus (errorHandler production e) = status
  end.

Definition failsBadRequest {A} (r : Outcome A * Db) : Prop :=
  exists message, fst r = Throw (errors.badRequest message).

Definition succeeds {A} (r : Outcome A * Db) : Prop :=
  exists a, fst r = Ok a.

(** What one request draws from its surroundings. *)
Record Env := mkEnv {
  now : Z;                    (* Date.now(), milliseconds *)
  freshId : nat -> string;    (* the k-th primary key the ORM generates *)
  randomHex : string;         (* crypto.randomBytes(32).toString('hex') *)
  bcryptSalt : string
}.

Definition orThrow {A} (o : option A) (e : Exn) : M A :=
  match o with
  | Some a => ret a
  | None => throw e
  end.

(** ** Onboarding tracker (onboarding.controller.ts) *)

Definition findStepByNumber (stepNumber : Z) (db : Db) : option OnboardingStep.t :=
  find (fun s => OnboardingStep.stepNumber s =? stepNumber) (onboardingSteps db).

Definition findProgressByClient (clientId : string) (db : Db) : option OnboardingProgress.t :=
  find (fun p => String.eqb (OnboardingProgress.clientId p) clientId) (onboardingProgress db).

Definition findClientById (id : string) (db : Db) : option Client.t :=
  find (fun c => String.eqb (Client.id c) id) (clients db).

(** The compound unique key [onboardingProgressId_onboardingStepId]. *)
Definition stepProgressKey (progressId stepId : string) (sp : StepProgress.t) : bool :=
  String.eqb (StepProgress.onboardingProgressId sp) progressId
  && String.eqb (StepProgress.onboardingStepId sp) stepId.

Definition findStepProgress (progressId stepId : string) (db : Db) : option StepProgress.t :=
  find (stepProgressKey progressId stepId) (stepProgress db).

(** [prisma.stepProgress.upsert]: [update] rewrites the row under the key,
    [create] is inserted when there is none. *)
Definition upsertStepProgress (progressId stepId : string)
  (update : StepProgress.t -> StepProgress.t) (create : StepProgress.t) : M unit :=
  existing <- gets (findStepProgress progressId stepId) ;;
  match existing with
  | Some _ =>
      modify (with_stepProgress
                (map (fun sp => if stepProgressKey progressId stepId sp then update sp else sp)))
  | None => modify (with_stepProgress (fun rows => (rows ++ [create])%list))
  end.

(** [prisma.onboardingProgress.update({ where: { id }, data })]. *)
Definition updateProgressById (id : string)
  (update : OnboardingProgress.t -> OnboardingProgress.t) : M unit :=
  modify (with_onboardingProgress
            (map (fun p => if String.eqb (OnboardingProgress.id p) id then update p else p))).

(** A value for a [String] column taken from the payload with
    [data.key || undefined]: a falsy value leaves the column alone, a string is
    written, and Prisma refuses any other value before it touches the row. *)
Definition stringColumn (v : option Json) : Outcome (option string) :=
  if truthy v then
    match v with
    | Some (JStr s) => Ok (Some s)
    | _ => Throw (OtherError "Invalid value provided. Expected String.")
    end
  else Ok None.

Definition liftOutcome {A} (o : Outcome A) : M A := fun db => (o, db).

(** [prisma.client.update({ where: { id }, data })]; an absent row is P2025. *)
Definition updateClientById (id : string) (update : Client.t -> Client.t) : M unit :=
  existing <- gets (findClientById id) ;;
  match existing with
  | None =>
      throw (PrismaKnownRequestError "P2025" None
               "An operation failed because it depends on one or more records that were required but not found.")
  | Some _ =>
      modify (with_clients
                (map (fun c => if String.eqb (Client.id c) id then update c else c)))
  end.

Definition setProfile (firstName lastName companyName phone : option string)
  (c : Client.t) : Client.t :=
  Client.mk (Client.id c) (Client.email c) (Client.passwordHash c)
    (match firstName with Some s => s | None => Client.firstName c end)
    (match lastName with Some s => s | None => Client.lastName c end)
    (match companyName with Some s => Some s | None => Client.companyName c end)
    (match phone with Some s => Some s | None => Client.phone c end)
    (Client.avatarUrl c) (Client.emailVerified c) (Client.role c).

(** The tail of [completeStep]: "If this is step 1 (personal info), update
    client profile", under [stepNumber === 1 && data]. *)
Definition syncClientProfile (clientId : string) (stepNumber : Z) (data : option JsonRecord)
  : M unit :=
  match data with
  | Some d =>
      when_ (stepNumber =? 1)
        (firstName <- liftOutcome (stringColumn (prop "firstName" d)) ;;
         lastName <- liftOutcome (stringColumn (prop "lastName" d)) ;;
         companyName <- liftOutcome (stringColumn (prop "companyName" d)) ;;
         phone <- liftOutcome (stringColumn (prop "phone" d)) ;;
         updateClientById clientId (setProfile firstName lastName companyName phone))
  | None => ret tt
  end.

Record CompleteStepResponse := mkCompleteStepResponse {
  cs_message : string;
  cs_currentStep : Z;
  cs_status : OnboardingStatus.t;
  cs_completedAt : option Z
}.

(** POST /api/v1/onboarding/steps/:stepNumber/complete.  [stepNumber] is the
    parsed route parameter, [data] the optional [data] object of the body
    ([stepDataSchema]); an object is truthy, so [data || undefined] is [data]. *)
Definition completeStep (clientId : string) (stepNumber : Z) (data : option JsonRecord)
  (env : Env) : M CompleteStepResponse :=
  found <- gets (findStepByNumber stepNumber) ;;
  step <- orThrow found (errors.notFound "Onboarding step") ;;
  existing <- gets (findProgressByClient clientId) ;;
  progress <-
    match existing with
    | Some p => ret p
    | None =>
        let created :=
          OnboardingProgress.mk (freshId env 0) clientId 1 OnboardingStatus.IN_PROGRESS None in
        modify (with_onboardingProgress (fun rows => (rows ++ [created])%list)) ;;;
        ret created
    end ;;
  when_ (stepNumber >? OnboardingProgress.currentStep progress)
    (throw (errors.badRequest "Cannot complete a step ahead of current progress")) ;;;
  upsertStepProgress (OnboardingProgress.id progress) (OnboardingStep.id step)
    (fun sp =>
       StepProgress.mk (StepProgress.id sp) (StepProgress.onboardingProgressId sp)
         (StepProgress.onboardingStepId sp) StepStatus.COMPLETED
         (match data with Some d => Some d | None => StepProgress.data sp end)
         (Some (now env)))
    (StepProgress.mk (freshId env 1) (OnboardingProgress.id progress) (OnboardingStep.id step)
       StepStatus.COMPLETED data (Some (now env))) ;;;
  totalSteps <- gets (fun db => Z.of_nat (List.length (onboardingSteps db))) ;;
  let isLastStep := stepNumber =? totalSteps in
  let nextStep := Z.min (stepNumber + 1) totalSteps in
  updateProgressById (OnboardingProgress.id progress)
    (fun p =>
       OnboardingProgress.mk (OnboardingProgress.id p) (OnboardingProgress.clientId p)
         (if isLastStep then stepNumber else nextStep)
         (if isLastStep then OnboardingStatus.COMPLETED else OnboardingStatus.IN_PROGRESS)
         (if isLastStep then Some (now env) else None)) ;;;
  syncClientProfile clientId stepNumber data ;;;
  updated <- gets (findProgressByClient clientId) ;;
  updatedProgress <- orThrow updated (OtherError "Cannot read properties of null") ;;
  ret (mkCompleteStepResponse
         (if isLastStep then "Onboarding completed!"
          else "Step " ++ showZ stepNumber ++ " completed. Proceed to step "
                 ++ showZ nextStep ++ ".")
         (OnboardingProgress.currentStep updatedProgress)
         (OnboardingProgress.status updatedProgress)
         (OnboardingProgress.completedAt updatedProgress)).

(** The payload's profile members are values the [clients] columns take. *)
Definition isStringColumn (v : option Json) : bool :=
  match stringColumn v with
  | Ok _ => true
  | Throw _ => false
  end.

Definition profileFieldsValid (data : option JsonRecord) : bool :=
  match data with
  | None => true
  | Some d =>
      isStringColumn (prop "firstName" d) && isStringColumn (prop "lastName" d)
      && isStringColumn (prop "companyName" d) && isStringColumn (prop "phone" d)
  end.

Definition stepNumbers (db : Db) : list Z :=
  map OnboardingStep.stepNumber (onboardingSteps db).

(** The catalog's final step number; an empty catalog has none. *)
Definition lastStepNumber (db : Db) : option Z :=
  match stepNumbers db with
  | [] => None
  | n :: rest => Some (fold_right Z.max n rest)
  end.

(** The catalog numbers its steps 1, 2, ..., as the seed does. *)
Definition catalogContiguous (db : Db) : Prop :=
  forall n, In n (stepNumbers db) <-> 1 <= n <= Z.of_nat (List.length (onboardingSteps db)).

(** ** Admin review workflow (admin.controller.ts) *)

Definition findDocumentById (id : string) (db : Db) : option Document.t :=
  find (fun d => String.eqb (Document.id d) id) (documents db).

(** [logAdminActivity]: one row appended to [admin_activity_logs].  The
    [details] column holds [JSON.stringify(details)]; the row keeps the JSON
    value that is serialised. *)
Definition logAdminActivity (rowId adminId action targetType targetId : string)
  (details : option Json) (createdAt : Z) : M unit :=
  modify (with_adminActivityLogs
            (fun rows =>
               (rows ++ [AdminActivityLog.mk rowId adminId action targetType targetId
                           details createdAt])%list)).

(** An object literal whose [undefined] members [JSON.stringify] drops. *)
Definition jsonObject (members : list (string * option Json)) : Json :=
  JObj (flat_map (fun m => match snd m with
                           | Some v => [(fst m, v)]
                           | None => []
                           end) members).

Record UpdateDocumentStatusInput := mkUpdateDocumentStatusInput {
  in_status : DocumentVerificationStatus.t;
  in_rejectionReason : option string
}.

(** [updateDocumentStatusSchema.safeParse(req.body)]: [status] is one of the
    two strings of [z.enum(['APPROVED', 'REJECTED'])], [rejectionReason] an
    optional string.  The failure carries the message of the first issue. *)
Definition updateDocumentStatusSchema (body : JsonRecord)
  : string + UpdateDocumentStatusInput :=
  match prop "status" body with
  | None => inl "Required"
  | Some (JStr s) =>
      let decided :=
        if String.eqb s "APPROVED" then Some DocumentVerificationStatus.APPROVED
        else if String.eqb s "REJECTED" then Some DocumentVerificationStatus.REJECTED
        else None in
      match decided with
      | None =>
          inl ("Invalid enum value. Expected 'APPROVED' | 'REJECTED', received '" ++ s ++ "'")
      | Some status =>
          match prop "rejectionReason" body with
          | None => inr (mkUpdateDocumentStatusInput status None)
          | Some (JStr reason) => inr (mkUpdateDocumentStatusInput status (Some reason))
          | Some other => inl ("Expected string, received " ++ receivedType other)
          end
      end
  | Some other => inl ("Expected 'APPROVED' | 'REJECTED', received " ++ receivedType other)
  end.

Definition isRejected (s : DocumentVerificationStatus.t) : bool :=
  DocumentVerificationStatus.eqb s DocumentVerificationStatus.REJECTED.

(** The [data] of the update: an [undefined] reason leaves the column as it
    is, [null] clears it. *)
Definition reviewDocument (input : UpdateDocumentStatusInput) (verifiedAt : Z)
  (d : Document.t) : Document.t :=
  Document.mk (Document.id d) (Document.clientId d) (Document.fileName d)
    (Document.fileUrl d) (Document.fileKey d) (Document.fileType d) (Document.fileSize d)
    (Document.category d)
    (in_status input)
    (if isRejected (in_status input) then
       match in_rejectionReason input with
       | Some reason => Some reason
       | None => Document.rejectionReason d
       end
     else None)
    (Some verifiedAt)
    (Document.uploadedAt d).

(** The [documents] table after the update [{ where: { id }, data }]. *)
Definition reviewRows (id : string) (input : UpdateDocumentStatusInput) (at_ : Z)
  (rows : list Document.t) : list Document.t :=
  map (fun d => if String.eqb (Document.id d) id then reviewDocument input at_ d else d) rows.

Definition updateDocumentsWhere (selected : Document.t -> bool)
  (update : Document.t -> Document.t) : M unit :=
  modify (with_documents (map (fun d => if selected d then update d else d))).

Record UpdateDocumentStatusResponse := mkUpdateDocumentStatusResponse {
  ud_data : Document.t;
  ud_message : string
}.

(** PATCH /api/v1/admin/documents/:id *)
Definition updateDocumentStatus (id adminId : string) (body : JsonRecord) (env : Env)
  : M UpdateDocumentStatusResponse :=
  match updateDocumentStatusSchema body with
  | inl message => throw (errors.badRequest message)
  | inr input =>
      found <- gets (findDocumentById id) ;;
      document <- orThrow found (errors.notFound "Document") ;;
      owner <- gets (findClientById (Document.clientId document)) ;;
      updateDocumentsWhere (fun d => String.eqb (Document.id d) id)
        (reviewDocument input (now env)) ;;;
      let updatedDoc := reviewDocument input (now env) document in
      client <- orThrow owner (OtherError "Cannot read properties of null (reading 'email')") ;;
      logAdminActivity (freshId env 0) adminId
        (if DocumentVerificationStatus.eqb (in_status input) DocumentVerificationStatus.APPROVED
         then "APPROVE_DOCUMENT" else "REJECT_DOCUMENT")
        "DOCUMENT" id
        (Some (jsonObject
                 [("fileName", Some (JStr (Document.fileName document)));
                  ("clientEmail", Some (JStr (Client.email client)));
                  ("rejectionReason",
                    if isRejected (in_status input)
                    then option_map JStr (in_rejectionReason input) else None)]))
        (now env) ;;;
      ret (mkUpdateDocumentStatusResponse updatedDoc
             (if isRejected (in_status input) then "Document rejected"
              else "Document approved"))
  end.

(** [bulkApproveSchema]: a non-empty array of strings under [documentIds]. *)
Fixpoint jsonStrings (items : list Json) : Json + list string :=
  match items with
  | [] => inr []
  | JStr s :: rest =>
      match jsonStrings rest with
      | inr strings => inr (s :: strings)
      | inl other => inl other
      end
  | other :: _ => inl other
  end.

Definition bulkApproveSchema (body : JsonRecord) : string + list string :=
  match prop "documentIds" body with
  | None => inl "Required"
  | Some (JArr items) =>
      match jsonStrings items with
      | inl other => inl ("Expected string, received " ++ receivedType other)
      | inr [] => inl "Array must contain at least 1 element(s)"
      | inr ids => inr ids
      end
  | Some other => inl ("Expected array, received " ++ receivedType other)
  end.

Definition isPending (d : Document.t) : bool :=
  DocumentVerificationStatus.eqb (Document.verificationStatus d)
    DocumentVerificationStatus.PENDING.

Definition idIn (ids : list string) (d : Document.t) : bool :=
  existsb (String.eqb (Document.id d)) ids.

Definition approveDocument (verifiedAt : Z) (d : Document.t) : Document.t :=
  Document.mk (Document.id d) (Document.clientId d) (Document.fileName d)
    (Document.fileUrl d) (Document.fileKey d) (Document.fileType d) (Document.fileSize d)
    (Document.category d)
    DocumentVerificationStatus.APPROVED
    (Document.rejectionReason d)
    (Some verifiedAt)
    (Document.uploadedAt d).

Record BulkApproveResponse := mkBulkApproveResponse {
  ba_message : string;
  ba_approvedCount : Z
}.

(** POST /api/v1/admin/documents/bulk-approve *)
Definition bulkApproveDocuments (adminId : string) (body : JsonRecord) (env : Env)
  : M BulkApproveResponse :=
  match bulkApproveSchema body with
  | inl message => throw (errors.badRequest message)
  | inr documentIds =>
      pending <- gets (fun db =>
                         filter (fun d => idIn documentIds d && isPending d) (documents db)) ;;
      when_ (Nat.eqb (List.length pending) 0)
        (throw (errors.badRequest "No pending documents found to approve")) ;;;
      updateDocumentsWhere (idIn (map Document.id pending)) (approveDocument (now env)) ;;;
      logAdminActivity (freshId env 0) adminId "BULK_APPROVE" "DOCUMENT" "bulk"
        (Some (jsonObject
                 [("count", Some (JNum (Z.of_nat (List.length pending))));
                  ("documentIds", Some (JArr (map JStr (map Document.id pending))))]))
        (now env) ;;;
      ret (mkBulkApproveResponse
             (showZ (Z.of_nat (List.length pending)) ++ " document(s) approved")
             (Z.of_nat (List.length pending)))
  end.

(** The request bodies [{ status }], [{ status, rejectionReason }] and
    [{ documentIds }]. *)
Definition statusBody (status : string) (rejectionReason : option string) : JsonRecord :=
  ("status", JStr status)
  :: match rejectionReason with
     | Some reason => [("rejectionReason", JStr reason)]
     | None => []
     end.

Definition bulkApproveBody (documentIds : list string) : JsonRecord :=
  [("documentIds", JArr (map JStr documentIds))].

(** A series of PATCH /api/v1/admin/documents/:id requests, served one after
    the other; the database after the last one. *)
Record StatusRequest := mkStatusRequest {
  rq_id : string;
  rq_adminId : string;
  rq_body : JsonRecord;
  rq_env : Env
}.

Fixpoint updateDocumentStatusAll (requests : list StatusRequest) (db : Db) : Db :=
  match requests with
  | [] => db
  | rq :: rest =>
      updateDocumentStatusAll rest
        (snd (updateDocumentStatus (rq_id rq) (rq_adminId rq) (rq_body rq) (rq_env rq) db))
  end.

(** ** Configuration and libraries (config/index.ts, jsonwebtoken, bcryptjs) *)

Record Config := mkConfig {
  production : bool;            (* config.env === 'production' *)
  accessSecret : string;
  refreshSecret : string;
  accessExpiresIn : string;
  refreshExpiresIn : string
}.

Module TokenPayload.
Record t := mk {
  clientId : string;
  email : string;
  type : string
}.
End TokenPayload.

(** The result of [jwt.verify]: the decoded payload, or one of the two errors
    the error middleware knows by name. *)
Inductive Verified :=
| Decoded (payload : TokenPayload.t)
| InvalidToken
| ExpiredToken.

(** The two libraries the controllers call.  [jwt_sign payload secret
    expiresIn clock] is [jwt.sign(payload, secret, { expiresIn })] run when
    [Date.now()] is [clock]; [jwt_verify token secret clock] is
    [jwt.verify(token, secret)]; [bcrypt_hash password rounds salt] is
    [bcrypt.hash(password, rounds)] with the salt it draws. *)
Class Runtime := {
  config : Config;
  jwt_sign : TokenPayload.t -> string -> string -> Z -> string;
  jwt_verify : string -> string -> Z -> Verified;
  bcrypt_hash : string -> Z -> string -> string;
  bcrypt_compare : string -> string -> bool
}.

(** jsonwebtoken stamps [iat] and [exp] in whole seconds and signs with a
    deterministic MAC: within one clock second, equal payloads give equal
    tokens. *)
Definition signsBySecond (R : Runtime) : Prop :=
  forall payload secret expiresIn clock1 clock2,
    clock1 / 1000 = clock2 / 1000 ->
    jwt_sign payload secret expiresIn clock1 = jwt_sign payload secret expiresIn clock2.

(** ** Token service (utils/jwt.ts, utils/hash.ts) *)

Definition SALT_ROUNDS : Z := 12.

Definition hashPassword {R : Runtime} (password salt : string) : string :=
  bcrypt_hash password SALT_ROUNDS salt.

Definition comparePassword {R : Runtime} (password hash : string) : bool :=
  bcrypt_compare password hash.

Definition generateAccessToken {R : Runtime} (clientId email : string) (clock : Z) : string :=
  jwt_sign (TokenPayload.mk clientId email "access") (accessSecret config)
    (accessExpiresIn config) clock.

Definition generateRefreshToken {R : Runtime} (clientId email : string) (clock : Z) : string :=
  jwt_sign (TokenPayload.mk clientId email "refresh") (refreshSecret config)
    (refreshExpiresIn config) clock.

Definition verifyRefreshToken {R : Runtime} (token : string) (clock : Z) : Verified :=
  jwt_verify token (refreshSecret config) clock.

Definition isDigit (c : ascii) : bool :=
  (48 <=? nat_of_ascii c)%nat && (nat_of_ascii c <=? 57)%nat.

Fixpoint allDigits (s : string) : bool :=
  match s with
  | EmptyString => true
  | String c rest => isDigit c && allDigits rest
  end.

(** The string without its last character, and that character. *)
Fixpoint splitLast (s : string) : option (string * ascii) :=
  match s with
  | EmptyString => None
  | String c EmptyString => Some (EmptyString, c)
  | String c rest =>
      match splitLast rest with
      | Some (front, last) => Some (String c front, last)
      | None => None
      end
  end.

(** [multipliers[unit]], in milliseconds. *)
Definition multiplier (unit : ascii) : option Z :=
  if Ascii.eqb unit "s" then Some 1000
  else if Ascii.eqb unit "m" then Some (60 * 1000)
  else if Ascii.eqb unit "h" then Some (60 * 60 * 1000)
  else if Ascii.eqb unit "d" then Some (24 * 60 * 60 * 1000)
  else None.

(** [expiresIn.match(/^(\d+)([smhd])$/)] followed by [parseInt]. *)
Definition matchExpiresIn (expiresIn : string) : option (Z * Z) :=
  match splitLast expiresIn with
  | Some (digits, unit) =>
      match digits, multiplier unit with
      | EmptyString, _ => None
      | _, None => None
      | _, Some m =>
          if allDigits digits then
            match NilZero.uint_of_string digits with
            | Some value => Some (Z.of_uint value, m)
            | None => None
            end
          else None
      end
  | None => None
  end.

Definition getRefreshTokenExpiry {R : Runtime} (clock : Z) : Z :=
  match matchExpiresIn (refreshExpiresIn config) with
  | None => clock + 7 * 24 * 60 * 60 * 1000
  | Some (value, m) => clock + value * m
  end.

(** ** Authentication (auth.controller.ts) *)

(** [String.prototype.toLowerCase] on the ASCII range; the e-mail addresses
    that pass [z.string().email()] are ASCII. *)
Definition lowerChar (c : ascii) : ascii :=
  if ((65 <=? nat_of_ascii c) && (nat_of_ascii c <=? 90))%nat
  then ascii_of_nat (nat_of_ascii c + 32)
  else c.

Fixpoint toLowerCase (s : string) : string :=
  match s with
  | EmptyString => EmptyString
  | String c rest => String (lowerChar c) (toLowerCase rest)
  end.

Definition findClientByEmail (email : string) (db : Db) : option Client.t :=
  find (fun c => String.eqb (Client.email c) email) (clients db).

(** The address of a stored client is in lower case. *)
Definition emailLowercased (c : Client.t) : Prop :=
  toLowerCase (Client.email c) = Client.email c.

Definition findTokenRow (token : string) (rows : list TokenRow.t) : option TokenRow.t :=
  find (fun r => String.eqb (TokenRow.token r) token) rows.

Definition hasId (id : string) (r : TokenRow.t) : bool := String.eqb (TokenRow.id r) id.
Definition ownedBy (clientId : string) (r : TokenRow.t) : bool :=
  String.eqb (TokenRow.clientId r) clientId.

(** [delete({ where: { id } })] and [deleteMany({ where: { clientId } })]. *)
Definition deleteById (id : string) (rows : list TokenRow.t) : list TokenRow.t :=
  filter (fun r => negb (hasId id r)) rows.
Definition deleteManyByClient (clientId : string) (rows : list TokenRow.t) : list TokenRow.t :=
  filter (fun r => negb (ownedBy clientId r)) rows.

(** [create] on a token table: the [token] column is unique, a second row with
    the same token is refused with P2002. *)
Definition createTokenRow (table : Db -> list TokenRow.t)
  (withTable : (list TokenRow.t -> list TokenRow.t) -> Db -> Db) (row : TokenRow.t) : M unit :=
  taken <- gets (fun db => findTokenRow (TokenRow.token row) (table db)) ;;
  match taken with
  | Some _ =>
      throw (PrismaKnownRequestError "P2002" (Some "token")
               "Unique constraint failed on the fields: (`token`)")
  | None => modify (withTable (fun rows => (rows ++ [row])%list))
  end.

Definition sendEmail (mail : Email.t) : M unit :=
  modify (with_outbox (fun sent => (sent ++ [mail])%list)).

Record Tokens := mkTokens {
  accessToken : string;
  refreshToken : string
}.

Record SignupResponse := mkSignupResponse {
  su_id : string;
  su_email : string;
  su_firstName : string;
  su_lastName : string;
  su_tokens : Tokens
}.

(** POST /api/v1/auth/signup *)
Definition signup {R : Runtime} (email password firstName lastName : string) (env : Env)
  : M SignupResponse :=
  existingClient <- gets (findClientByEmail (toLowerCase email)) ;;
  match existingClient with
  | Some _ => throw (errors.conflict "Email already registered")
  | None =>
      let passwordHash := hashPassword password (bcryptSalt env) in
      let client :=
        Client.mk (freshId env 0) (toLowerCase email) passwordHash firstName lastName
          None None None false Role.USER in
      modify (with_clients (fun rows => (rows ++ [client])%list)) ;;;
      modify (with_onboardingProgress
                (fun rows =>
                   (rows ++ [OnboardingProgress.mk (freshId env 1) (Client.id client) 1
                               OnboardingStatus.PENDING None])%list)) ;;;
      let accessToken := generateAccessToken (Client.id client) (Client.email client) (now env) in
      let refreshToken := generateRefreshToken (Client.id client) (Client.email client) (now env) in
      createTokenRow refreshTokens with_refreshTokens
        (TokenRow.mk (freshId env 2) refreshToken (Client.id client)
           (getRefreshTokenExpiry (now env))) ;;;
      let verificationToken := randomHex env in
      createTokenRow emailVerificationTokens with_emailVerificationTokens
        (TokenRow.mk (freshId env 3) verificationToken (Client.id client)
           (now env + 24 * 60 * 60 * 1000)) ;;;
      sendEmail (Email.mk (Client.email client) (Client.firstName client) verificationToken
                   Email.Verification) ;;;
      ret (mkSignupResponse (Client.id client) (Client.email client) (Client.firstName client)
             (Client.lastName client) (mkTokens accessToken refreshToken))
  end.

Record LoginResponse := mkLoginResponse {
  li_id : string;
  li_email : string;
  li_firstName : string;
  li_lastName : string;
  li_companyName : option string;
  li_avatarUrl : option string;
  li_tokens : Tokens
}.

(** POST /api/v1/auth/login *)
Definition login {R : Runtime} (email password : string) (env : Env) : M LoginResponse :=
  found <- gets (findClientByEmail (toLowerCase email)) ;;
  client <- orThrow found (errors.unauthorized "Invalid email or password") ;;
  let isValidPassword := comparePassword password (Client.passwordHash client) in
  when_ (negb isValidPassword) (throw (errors.unauthorized "Invalid email or password")) ;;;
  let accessToken := generateAccessToken (Client.id client) (Client.email client) (now env) in
  let refreshToken := generateRefreshToken (Client.id client) (Client.email client) (now env) in
  createTokenRow refreshTokens with_refreshTokens
    (TokenRow.mk (freshId env 0) refreshToken (Client.id client)
       (getRefreshTokenExpiry (now env))) ;;;
  ret (mkLoginResponse (Client.id client) (Client.email client) (Client.firstName client)
         (Client.lastName client) (Client.companyName client) (Client.avatarUrl client)
         (mkTokens accessToken refreshToken)).

(** POST /api/v1/auth/refresh *)
Definition refresh {R : Runtime} (refreshToken : string) (env : Env) : M Tokens :=
  payload <-
    match verifyRefreshToken refreshToken (now env) with
    | Decoded payload => ret payload
    | InvalidToken => throw JsonWebTokenError
    | ExpiredToken => throw TokenExpiredError
    end ;;
  when_ (negb (String.eqb (TokenPayload.type payload) "refresh"))
    (throw (errors.unauthorized "Invalid token type")) ;;;
  found <- gets (fun db => findTokenRow refreshToken (refreshTokens db)) ;;
  storedToken <- orThrow found (errors.unauthorized "Invalid refresh token") ;;
  owner <- gets (findClientById (TokenRow.clientId storedToken)) ;;
  when_ (TokenRow.expiresAt storedToken <? now env)
    (modify (with_refreshTokens (deleteById (TokenRow.id storedToken))) ;;;
     throw (errors.unauthorized "Refresh token expired")) ;;;
  modify (with_refreshTokens (deleteById (TokenRow.id storedToken))) ;;;
  client <- orThrow owner (OtherError "Cannot read properties of null (reading 'id')") ;;
  let newAccessToken := generateAccessToken (Client.id client) (Client.email client) (now env) in
  let newRefreshToken := generateRefreshToken (Client.id client) (Client.email client) (now env) in
  createTokenRow refreshTokens with_refreshTokens
    (TokenRow.mk (freshId env 0) newRefreshToken (Client.id client)
       (getRefreshTokenExpiry (now env))) ;;;
  ret (mkTokens newAccessToken newRefreshToken).

Record MessageResponse := mkMessageResponse {
  success : bool;
  message : string
}.

(** POST /api/v1/auth/forgot-password *)
Definition forgotPassword (email : string) (env : Env) : M MessageResponse :=
  found <- gets (findClientByEmail (toLowerCase email)) ;;
  match found with
  | None =>
      ret (mkMessageResponse true
             "If an account with that email exists, a password reset link has been sent.")
  | Some client =>
      modify (with_passwordResetTokens (deleteManyByClient (Client.id client))) ;;;
      let resetToken := randomHex env in
      createTokenRow passwordResetTokens with_passwordResetTokens
        (TokenRow.mk (freshId env 0) resetToken (Client.id client)
           (now env + 60 * 60 * 1000)) ;;;
      sendEmail (Email.mk (Client.email client) (Client.firstName client) resetToken
                   Email.PasswordReset) ;;;
      ret (mkMessageResponse true
             "If an account with that email exists, a password reset link has been sent.")
  end.

Definition setPasswordHash (passwordHash : string) (c : Client.t) : Client.t :=
  Client.mk (Client.id c) (Client.email c) passwordHash (Client.firstName c)
    (Client.lastName c) (Client.companyName c) (Client.phone c) (Client.avatarUrl c)
    (Client.emailVerified c) (Client.role c).

(** POST /api/v1/auth/reset-password *)
Definition resetPassword {R : Runtime} (token password : string) (env : Env)
  : M MessageResponse :=
  found <- gets (fun db => findTokenRow token (passwordResetTokens db)) ;;
  resetToken <- orThrow found (errors.badRequest "Invalid or expired reset token") ;;
  when_ (TokenRow.expiresAt resetToken <? now env)
    (modify (with_passwordResetTokens (deleteById (TokenRow.id resetToken))) ;;;
     throw (errors.badRequest "Reset token has expired")) ;;;
  let passwordHash := hashPassword password (bcryptSalt env) in
  updateClientById (TokenRow.clientId resetToken) (setPasswordHash passwordHash) ;;;
  modify (with_passwordResetTokens (deleteManyByClient (TokenRow.clientId resetToken))) ;;;
  modify (with_refreshTokens (deleteManyByClient (TokenRow.clientId resetToken))) ;;;
  ret (mkMessageResponse true
         "Password reset successfully. Please log in with your new password.").

(** ** A reference runtime and sample data

    [plainRuntime] stands in for the two libraries when the controllers are
    run on concrete requests: a token is its claims in clear text behind the
    signing secret, stamped in seconds as jsonwebtoken does; a password hash
    is the salt followed by the password. *)

Fixpoint splitAt (sep : ascii) (s : string) (limit : nat) {struct s} : list string :=
  match s with
  | EmptyString => [EmptyString]
  | String c rest =>
      match limit with
      | O => [s]
      | S limit' =>
          if Ascii.eqb c sep then EmptyString :: splitAt sep rest limit'
          else
            match splitAt sep rest limit with
            | head :: tail => String c head :: tail
            | [] => [String c EmptyString]
            end
      end
  end.

Definition spanSeconds (expiresIn : string) : Z :=
  match matchExpiresIn expiresIn with
  | Some (value, m) => value * m / 1000
  | None => 0
  end.

Definition plainSign (payload : TokenPayload.t) (secret expiresIn : string) (clock : Z)
  : string :=
  let iat := clock / 1000 in
  String.concat ":"
    [secret; showZ iat; showZ (iat + spanSeconds expiresIn); TokenPayload.type payload;
     TokenPayload.clientId payload; TokenPayload.email payload].

Definition plainVerify (token secret : string) (clock : Z) : Verified :=
  match splitAt ":" token 5 with
  | [key; _; exp; type; clientId; email] =>
      if String.eqb key secret then
        match NilZero.int_of_string exp with
        | Some e =>
            if Z.of_int e <=? clock / 1000 then ExpiredToken
            else Decoded (TokenPayload.mk clientId email type)
        | None => InvalidToken
        end
      else InvalidToken
  | _ => InvalidToken
  end.

Definition plainHash (password : string) (rounds : Z) (salt : string) : string :=
  String.concat "$" [""; "2a"; showZ rounds; salt; password].

Definition plainCompare (password hash : string) : bool :=
  match splitAt "$" hash 4 with
  | [_; _; _; _; stored] => String.eqb stored password
  | _ => false
  end.

Definition plainConfig : Config :=
  mkConfig false "fallback-access-secret" "fallback-refresh-secret" "15m" "7d".

Definition plainRuntime : Runtime :=
  {| config := plainConfig;
     jwt_sign := plainSign;
     jwt_verify := plainVerify;
     bcrypt_hash := plainHash;
     bcrypt_compare := plainCompare |}.

Module Sample.

(** The seeded catalog (prisma/seed.ts). *)
Definition steps : list OnboardingStep.t :=
  [OnboardingStep.mk "s1" 1 "personal_info" "Personal Information"
     "Tell us about yourself and your company" true;
   OnboardingStep.mk "s2" 2 "documents" "Document Upload"
     "Upload required verification documents" true;
   OnboardingStep.mk "s3" 3 "verification" "Verification"
     "Wait for document verification" true;
   OnboardingStep.mk "s4" 4 "setup" "Final Setup"
     "Configure your preferences and complete onboarding" true].

Definition empty : Db := mkDb [] [] [] [] steps [] [] [] [] [].

Definition envAt (clock : Z) (tag : string) : Env :=
  mkEnv clock (fun k => tag ++ "-" ++ showZ (Z.of_nat k)) (tag ++ "-random") (tag ++ "-salt").

Definition alice : Client.t :=
  Client.mk "c1" "a@b.com" (plainHash "Secure123" 12 "salt") "A" "B" None None None true
    Role.USER.

Definition admin : Client.t :=
  Client.mk "adm" "admin@onboard.com" (plainHash "Admin1234" 12 "salt") "Ad" "Min" None None
    None true Role.ADMIN.

Definition document (id : string) (status : DocumentVerificationStatus.t) : Document.t :=
  Document.mk id "c1" (id ++ ".pdf") ("https://files.example/" ++ id) id "application/pdf"
    1024 DocumentCategory.ID_DOCUMENT status None None 500.

(** Alice with her wizard at step [currentStep]. *)
Definition onboarding (currentStep : Z) (status : OnboardingStatus.t)
  (completedAt : option Z) (done : list StepProgress.t) : Db :=
  mkDb [alice; admin] [] [] [] steps
    [OnboardingProgress.mk "p1" "c1" currentStep status completedAt] done [] [] [].

Definition completed (rowId stepId : string) (at_ : Z) : StepProgress.t :=
  StepProgress.mk rowId "p1" stepId StepStatus.COMPLETED None (Some at_).

(** Alice after she finished the whole wizard at time 4000. *)
Definition finished : Db :=
  onboarding 4 OnboardingStatus.COMPLETED (Some 4000)
    [completed "sp1" "s1" 1000; completed "sp2" "s2" 2000; completed "sp3" "s3" 3000;
     completed "sp4" "s4" 4000].

(** Three uploads: A pending, B approved, C pending. *)
Definition review : Db :=
  mkDb [alice; admin] [] [] [] steps [] []
    [document "A" DocumentVerificationStatus.PENDING;
     document "B" DocumentVerificationStatus.APPROVED;
     document "C" DocumentVerificationStatus.PENDING] [] [].

(** Alice registered, not yet logged in. *)
Definition registered : Db := mkDb [alice; admin] [] [] [] steps
  [OnboardingProgress.mk "p1" "c1" 1 OnboardingStatus.PENDING None] [] [] [] [].

(** Alice logs in with a mixed-case address half a second past a full
    second; [aliceToken] is the refresh token that login returns. *)
Definition loginClock : Z := 1000000000500.

Definition aliceToken : string :=
  "fallback-refresh-secret:1000000000:1000604800:refresh:c1:a@b.com".

Definition session : Db :=
  snd (login (R := plainRuntime) "A@B.com" "Secure123" (envAt loginClock "r1")
         registered).

(** Alice holds two refresh tokens, the admin one; Alice asked for a
    password reset. *)
Definition resetting : Db :=
  mkDb [alice; admin]
    [TokenRow.mk "rt1" "alice-phone" "c1" 1000604800000;
     TokenRow.mk "rt2" "alice-laptop" "c1" 1000604800000;
     TokenRow.mk "rt3" "admin-desk" "adm" 1000604800000]
    [TokenRow.mk "pr1" "reset-1" "c1" 1000003600000]
    [] steps [] [] [] [] [].

End Sample.

(** * The rest of the backend

    The controllers, middleware and helpers that surround the ones above:
    logout and e-mail verification, the authentication middleware, the rest of
    the onboarding tracker, the remaining admin views, the client's document
    registry and the profile controller. *)

(** ** Authentication, continued (auth.controller.ts) *)

(** [req.client], as the authentication middleware attaches it. *)
Record AuthClient := mkAuthClient {
  ac_id : string;
  ac_email : string;
  ac_role : Role.t
}.

(** [deleteMany({ where: { token } })]. *)
Definition deleteManyByToken (token : string) (rows : list TokenRow.t) : list TokenRow.t :=
  filter (fun r => negb (String.eqb (TokenRow.token r) token)) rows.

(** POST /api/v1/auth/logout, behind [optionalAuth].  The body is not
    validated: [refreshToken] is whatever the JSON body holds under that key,
    used when truthy; [client] is [req.client]. *)
Definition logout (body : JsonRecord) (client : option AuthClient) : M MessageResponse :=
  presented <- liftOutcome (stringColumn (prop "refreshToken" body)) ;;
  match presented with
  | Some refreshToken => modify (with_refreshTokens (deleteManyByToken refreshToken))
  | None => ret tt
  end ;;;
  match client with
  | Some c => modify (with_refreshTokens (deleteManyByClient (ac_id c)))
  | None => ret tt
  end ;;;
  ret (mkMessageResponse true "Logged out successfully").

(** POST /api/v1/auth/send-verification, behind [authenticate]; [clientId] is
    [req.client!.id]. *)
Definition sendVerificationEmail (clientId : string) (env : Env) : M MessageResponse :=
  found <- gets (findClientById clientId) ;;
  client <- orThrow found (errors.notFound "Client") ;;
  when_ (Client.emailVerified client) (throw (errors.badRequest "Email is already verified")) ;;;
  modify (with_emailVerificationTokens (deleteManyByClient (Client.id client))) ;;;
  let verificationToken := randomHex env in
  createTokenRow emailVerificationTokens with_emailVerificationTokens
    (TokenRow.mk (freshId env 0) verificationToken (Client.id client)
       (now env + 24 * 60 * 60 * 1000)) ;;;
  sendEmail (Email.mk (Client.email client) (Client.firstName client) verificationToken
               Email.Verification) ;;;
  ret (mkMessageResponse true "Verification email sent successfully.").

Definition setEmailVerified (c : Client.t) : Client.t :=
  Client.mk (Client.id c) (Client.email c) (Client.passwordHash c) (Client.firstName c)
    (Client.lastName c) (Client.companyName c) (Client.phone c) (Client.avatarUrl c)
    true (Client.role c).

(** POST /api/v1/auth/verify-email *)
Definition verifyEmail (token : string) (env : Env) : M MessageResponse :=
  found <- gets (fun db => findTokenRow token (emailVerificationTokens db)) ;;
  verificationToken <-
    orThrow found (errors.badRequest "Invalid or expired verification token") ;;
  when_ (TokenRow.expiresAt verificationToken <? now env)
    (modify (with_emailVerificationTokens (deleteById (TokenRow.id verificationToken))) ;;;
     throw (errors.badRequest "Verification token has expired")) ;;;
  updateClientById (TokenRow.clientId verificationToken) setEmailVerified ;;;
  modify (with_emailVerificationTokens
            (deleteManyByClient (TokenRow.clientId verificationToken))) ;;;
  ret (mkMessageResponse true "Email verified successfully.").

(** The unique indexes on the [token] columns of the three token tables. *)
Definition uniqueTokens (db : Db) : Prop :=
  NoDup (map TokenRow.token (refreshTokens db))
  /\ NoDup (map TokenRow.token (passwordResetTokens db))
  /\ NoDup (map TokenRow.token (emailVerificationTokens db)).

(** A controller keeps an invariant of the database, whether it returns or
    throws. *)
Definition preserves {A} (inv : Db -> Prop) (m : M A) : Prop :=
  forall db, inv db -> inv (snd (m db)).

(** bcryptjs accepts the password a hash was made from. *)
Definition bcryptAccepts (R : Runtime) : Prop :=
  forall password rounds salt,
    bcrypt_compare password (bcrypt_hash password rounds salt) = true.

(** ** Authentication middleware (middleware/auth.ts) *)

(** [s.split(sep)] for a one-character separator. *)
Fixpoint splitOn (sep : ascii) (s : string) : list string :=
  match s with
  | EmptyString => [EmptyString]
  | String c rest =>
      if Ascii.eqb c sep then EmptyString :: splitOn sep rest
      else
        match splitOn sep rest with
        | head :: tail => String c head :: tail
        | [] => [String c EmptyString]
        end
  end.

Definition startsWith (s searchString : string) : bool := String.prefix searchString s.

(** [authHeader.split(' ')[1]]; the header starts with ["Bearer "], so the
    second piece is there. *)
Definition bearerToken (authHeader : string) : string :=
  nth 1 (splitOn " " authHeader) EmptyString.

Definition verifyAccessToken {R : Runtime} (token : string) (clock : Z) : Verified :=
  jwt_verify token (accessSecret config) clock.

Definition asAuthClient (c : Client.t) : AuthClient :=
  mkAuthClient (Client.id c) (Client.email c) (Client.role c).

(** [authenticate]: the value of the Authorization header in, [req.client]
    out. *)
Definition authenticate {R : Runtime} (authorization : option string) (env : Env)
  : M AuthClient :=
  match authorization with
  | None => throw (errors.unauthorized "No token provided")
  | Some authHeader =>
      when_ (negb (startsWith authHeader "Bearer "))
        (throw (errors.unauthorized "No token provided")) ;;;
      let token := bearerToken authHeader in
      payload <-
        match verifyAccessToken token (now env) with
        | Decoded payload => ret payload
        | InvalidToken => throw JsonWebTokenError
        | ExpiredToken => throw TokenExpiredError
        end ;;
      when_ (negb (String.eqb (TokenPayload.type payload) "access"))
        (throw (errors.unauthorized "Invalid token type")) ;;;
      found <- gets (findClientById (TokenPayload.clientId payload)) ;;
      client <- orThrow found (errors.unauthorized "Client not found") ;;
      ret (asAuthClient client)
  end.

(** [optionalAuth]: the same checks, but every failure is swallowed and the
    request goes on without [req.client]. *)
Definition optionalAuth {R : Runtime} (authorization : option string) (env : Env)
  : M (option AuthClient) :=
  match authorization with
  | None => ret None
  | Some authHeader =>
      if startsWith authHeader "Bearer " then
        match verifyAccessToken (bearerToken authHeader) (now env) with
        | Decoded payload =>
            if String.eqb (TokenPayload.type payload) "access" then
              found <- gets (findClientById (TokenPayload.clientId payload)) ;;
              ret (option_map asAuthClient found)
            else ret None
        | InvalidToken => ret None
        | ExpiredToken => ret None
        end
      else ret None
  end.

Definition isAdmin (role : Role.t) : bool :=
  match role with
  | Role.ADMIN => true
  | Role.USER => false
  end.

(** [requireAdmin], on the [req.client] left by the middleware before it. *)
Definition requireAdmin (client : option AuthClient) : M unit :=
  match client with
  | None => throw (errors.unauthorized "Authentication required")
  | Some c =>
      when_ (negb (isAdmin (ac_role c))) (throw (errors.forbidden "Admin access required"))
  end.

(** An admin route (admin.routes.ts): [authenticate], then [requireAdmin],
    then the controller, which reads the admin's id off [req.client]. *)
Definition adminRoute {R : Runtime} {A} (authorization : option string) (env : Env)
  (controller : string -> M A) : M A :=
  client <- authenticate authorization env ;;
  requireAdmin (Some client) ;;;
  controller (ac_id client).

(** The logout route: [optionalAuth], then [logout]. *)
Definition logoutRoute {R : Runtime} (authorization : option string) (body : JsonRecord)
  (env : Env) : M MessageResponse :=
  client <- optionalAuth authorization env ;;
  logout body client.

(** ** Onboarding tracker, continued (onboarding.controller.ts) *)

(** [orderBy ... 'asc'] as an insertion sort that keeps the table order of
    equal keys. *)
Fixpoint insertBy {A} (before : A -> A -> bool) (x : A) (sorted : list A) : list A :=
  match sorted with
  | [] => [x]
  | y :: rest => if before x y then x :: sorted else y :: insertBy before x rest
  end.

Definition sortBy {A} (before : A -> A -> bool) (rows : list A) : list A :=
  fold_right (insertBy before) [] rows.

Definition stepsInOrder (db : Db) : list OnboardingStep.t :=
  sortBy (fun a b => OnboardingStep.stepNumber a <=? OnboardingStep.stepNumber b)
    (onboardingSteps db).

(** GET /api/v1/onboarding/steps *)
Definition getOnboardingSteps : M (list OnboardingStep.t) := gets stepsInOrder.

Record StepWithProgress := mkStepWithProgress {
  sw_step : OnboardingStep.t;
  sw_status : StepStatus.t;
  sw_data : option JsonRecord;
  sw_completedAt : option Z
}.

Record OnboardingStatusResponse := mkOnboardingStatusResponse {
  os_currentStep : Z;
  os_status : OnboardingStatus.t;
  os_completedAt : option Z;
  os_steps : list StepWithProgress
}.

(** One entry of [stepsWithProgress]: the step, and the status, data and
    completion time of its record among [rows], defaulting to PENDING and
    null. *)
Definition withProgress (rows : list StepProgress.t) (step : OnboardingStep.t)
  : StepWithProgress :=
  match find (fun sp => String.eqb (StepProgress.onboardingStepId sp) (OnboardingStep.id step))
          rows with
  | Some sp =>
      mkStepWithProgress step (StepProgress.status sp) (StepProgress.data sp)
        (StepProgress.completedAt sp)
  | None => mkStepWithProgress step StepStatus.PENDING None None
  end.

(** The [stepProgress] relation of a progress row. *)
Definition stepProgressOf (progressId : string) (db : Db) : list StepProgress.t :=
  filter (fun sp => String.eqb (StepProgress.onboardingProgressId sp) progressId)
    (stepProgress db).

(** GET /api/v1/onboarding/status *)
Definition getOnboardingStatus (clientId : string) (env : Env) : M OnboardingStatusResponse :=
  existing <- gets (findProgressByClient clientId) ;;
  loaded <-
    match existing with
    | Some p => rows <- gets (stepProgressOf (OnboardingProgress.id p)) ;; ret (p, rows)
    | None =>
        let created :=
          OnboardingProgress.mk (freshId env 0) clientId 1 OnboardingStatus.PENDING None in
        modify (with_onboardingProgress (fun rows => (rows ++ [created])%list)) ;;;
        ret (created, [])
    end ;;
  allSteps <- gets stepsInOrder ;;
  let progress := fst loaded in
  ret (mkOnboardingStatusResponse
         (OnboardingProgress.currentStep progress)
         (OnboardingProgress.status progress)
         (OnboardingProgress.completedAt progress)
         (map (withProgress (snd loaded)) allSteps)).

Definition isPendingOnboarding (s : OnboardingStatus.t) : bool :=
  match s with
  | OnboardingStatus.PENDING => true
  | _ => false
  end.

(** PUT /api/v1/onboarding/steps/:stepNumber/data.  The response is the row
    the upsert returns. *)
Definition saveStepData (clientId : string) (stepNumber : Z) (data : option JsonRecord)
  (env : Env) : M StepProgress.t :=
  found <- gets (findStepByNumber stepNumber) ;;
  step <- orThrow found (errors.notFound "Onboarding step") ;;
  existing <- gets (findProgressByClient clientId) ;;
  progress <-
    match existing with
    | Some p => ret p
    | None =>
        let created :=
          OnboardingProgress.mk (freshId env 0) clientId 1 OnboardingStatus.IN_PROGRESS None in
        modify (with_onboardingProgress (fun rows => (rows ++ [created])%list)) ;;;
        ret created
    end ;;
  let update := fun sp =>
    StepProgress.mk (StepProgress.id sp) (StepProgress.onboardingProgressId sp)
      (StepProgress.onboardingStepId sp) StepStatus.IN_PROGRESS
      (match data with Some d => Some d | None => StepProgress.data sp end)
      (StepProgress.completedAt sp) in
  let create :=
    StepProgress.mk (freshId env 1) (OnboardingProgress.id progress) (OnboardingStep.id step)
      StepStatus.IN_PROGRESS data None in
  stored <- gets (findStepProgress (OnboardingProgress.id progress) (OnboardingStep.id step)) ;;
  upsertStepProgress (OnboardingProgress.id progress) (OnboardingStep.id step) update create ;;;
  when_ (isPendingOnboarding (OnboardingProgress.status progress))
    (updateProgressById (OnboardingProgress.id progress)
       (fun p =>
          OnboardingProgress.mk (OnboardingProgress.id p) (OnboardingProgress.clientId p)
            (OnboardingProgress.currentStep p) OnboardingStatus.IN_PROGRESS
            (OnboardingProgress.completedAt p))) ;;;
  ret (match stored with
       | Some old => update old
       | None => create
       end).

(** A series of requests against the tracker, each by the client named with
    it, served one after the other. *)
Inductive OnboardingRequest :=
| CompleteStep (stepNumber : Z) (data : option JsonRecord) (env : Env)
| SaveStepData (stepNumber : Z) (data : option JsonRecord) (env : Env)
| GetOnboardingStatus (env : Env).

Definition serveOnboarding (rq : string * OnboardingRequest) (db : Db) : Db :=
  match rq with
  | (clientId, CompleteStep stepNumber data env) =>
      snd (completeStep clientId stepNumber data env db)
  | (clientId, SaveStepData stepNumber data env) =>
      snd (saveStepData clientId stepNumber data env db)
  | (clientId, GetOnboardingStatus env) => snd (getOnboardingStatus clientId env db)
  end.

Definition serveOnboardingAll (requests : list (string * OnboardingRequest)) (db : Db) : Db :=
  fold_left (fun db rq => serveOnboarding rq db) requests db.

(** A pointer within a catalog of [total] steps; a row is created pointing at
    step 1 whatever the catalog holds. *)
Definition pointerInRange (total : Z) (p : OnboardingProgress.t) : Prop :=
  1 <= OnboardingProgress.currentStep p <= Z.max 1 total.

(** Every progress row points at a step of the catalog's range. *)
Definition pointersInRange (db : Db) : Prop :=
  Forall (pointerInRange (Z.of_nat (List.length (onboardingSteps db))))
    (onboardingProgress db).

(** The tracker's tables over a given catalog. *)
Definition trackerOver (catalog : list OnboardingStep.t) (db : Db) : Prop :=
  onboardingSteps db = catalog
  /\ Forall (pointerInRange (Z.of_nat (List.length catalog))) (onboardingProgress db).

(** ** Admin views, continued (admin.controller.ts) *)

Definition ownsDocument (clientId : string) (d : Document.t) : bool :=
  String.eqb (Document.clientId d) clientId.

(** POST /api/v1/admin/clients/:clientId/approve-all *)
Definition approveAllForClient (clientId adminId : string) (env : Env)
  : M BulkApproveResponse :=
  found <- gets (findClientById clientId) ;;
  client <- orThrow found (errors.notFound "Client") ;;
  pendingDocs <- gets (fun db =>
                         filter (fun d => ownsDocument clientId d && isPending d)
                           (documents db)) ;;
  when_ (Nat.eqb (List.length pendingDocs) 0)
    (throw (errors.badRequest "No pending documents found for this client")) ;;;
  updateDocumentsWhere (fun d => ownsDocument clientId d && isPending d)
    (approveDocument (now env)) ;;;
  logAdminActivity (freshId env 0) adminId "APPROVE_ALL_FOR_CLIENT" "CLIENT" clientId
    (Some (jsonObject
             [("clientEmail", Some (JStr (Client.email client)));
              ("count", Some (JNum (Z.of_nat (List.length pendingDocs))))]))
    (now env) ;;;
  ret (mkBulkApproveResponse
         (showZ (Z.of_nat (List.length pendingDocs)) ++ " document(s) approved for "
            ++ Client.firstName client ++ " " ++ Client.lastName client)
         (Z.of_nat (List.length pendingDocs))).

Definition count {A} (selected : A -> bool) (rows : list A) : Z :=
  Z.of_nat (List.length (filter selected rows)).

Definition hasStatus (s : DocumentVerificationStatus.t) (d : Document.t) : bool :=
  DocumentVerificationStatus.eqb (Document.verificationStatus d) s.

Definition isCompletedOnboarding (p : OnboardingProgress.t) : bool :=
  match OnboardingProgress.status p with
  | OnboardingStatus.COMPLETED => true
  | _ => false
  end.

Record Stats := mkStats {
  totalClients : Z;
  pendingDocuments : Z;
  approvedDocuments : Z;
  rejectedDocuments : Z;
  completedOnboarding : Z
}.

(** GET /api/v1/admin/stats *)
Definition getStats : M Stats :=
  gets (fun db =>
          mkStats
            (count (fun c => negb (isAdmin (Client.role c))) (clients db))
            (count (hasStatus DocumentVerificationStatus.PENDING) (documents db))
            (count (hasStatus DocumentVerificationStatus.APPROVED) (documents db))
            (count (hasStatus DocumentVerificationStatus.REJECTED) (documents db))
            (count isCompletedOnboarding (onboardingProgress db))).

(** *** Paging *)

(** The ASCII range of the white space [parseInt] and [trim] skip. *)
Definition isWhiteSpace (c : ascii) : bool :=
  let n := nat_of_ascii c in
  ((9 <=? n) && (n <=? 13) || (n =? 32))%nat.

Fixpoint trimStart (s : string) : string :=
  match s with
  | EmptyString => EmptyString
  | String c rest => if isWhiteSpace c then trimStart rest else s
  end.

Definition digitValue (c : ascii) : Z := Z.of_nat (nat_of_ascii c - 48).

(** The value of the longest prefix of decimal digits, continuing [acc];
    [None] while no digit has been read. *)
Fixpoint leadingDigits (s : string) (acc : option Z) : option Z :=
  match s with
  | EmptyString => acc
  | String c rest =>
      if isDigit c then
        leadingDigits rest
          (Some (10 * match acc with Some n => n | None => 0 end + digitValue c))
      else acc
  end.

(** The integers that are IEEE doubles one and all: up to [2 ^ 53] in
    magnitude. *)
Definition exactInteger (n : Z) : Prop := Z.abs n <= 2 ^ 53.

(** [parseInt(s, 10)]; [None] is NaN.  The code's result is the double
    nearest the integer that the digits denote; the model gives that integer,
    which is the code's result wherever it is an [exactInteger]. *)
Definition parseInt (s : string) : option Z :=
  match trimStart s with
  | String c rest =>
      if Ascii.eqb c "-" then option_map Z.opp (leadingDigits rest None)
      else if Ascii.eqb c "+" then leadingDigits rest None
      else leadingDigits (String c rest) None
  | EmptyString => None
  end.

(** [parsed || fallback]: NaN and 0 are falsy. *)
Definition orElse (parsed : option Z) (fallback : Z) : Z :=
  match parsed with
  | None => fallback
  | Some n => if n =? 0 then fallback else n
  end.

Record Paging := mkPaging {
  pageNum : Z;
  limitNum : Z;
  skip : Z
}.

(** The three lines that open every paged view; [page] and [limit] are the
    query parameters, ['1'] and ['20'] when absent, and [maxLimit] is 100 for
    documents and 50 for the activity log and the clients. *)
Definition paging (maxLimit : Z) (page limit : option string) : Paging :=
  let page := match page with Some p => p | None => "1" end in
  let limit := match limit with Some l => l | None => "20" end in
  let pageNum := Z.max 1 (orElse (parseInt page) 1) in
  let limitNum := Z.min maxLimit (Z.max 1 (orElse (parseInt limit) 20)) in
  mkPaging pageNum limitNum ((pageNum - 1) * limitNum).

(** [Math.ceil(total / limitNum)]. *)
Definition totalPagesOf (total limitNum : Z) : Z := - ((- total) / limitNum).

Record Pagination := mkPagination {
  pg_page : Z;
  pg_limit : Z;
  pg_total : Z;
  pg_totalPages : Z
}.

(** [skip] and [take]. *)
Definition pageOf {A} (p : Paging) (rows : list A) : list A :=
  firstn (Z.to_nat (limitNum p)) (skipn (Z.to_nat (skip p)) rows).

Definition paginationOf (p : Paging) (total : Z) : Pagination :=
  mkPagination (pageNum p) (limitNum p) total (totalPagesOf total (limitNum p)).

Record AdminView := mkAdminView {
  av_id : string;
  av_email : string;
  av_firstName : string;
  av_lastName : string
}.

Definition asAdminView (c : Client.t) : AdminView :=
  mkAdminView (Client.id c) (Client.email c) (Client.firstName c) (Client.lastName c).

Record ActivityLogResponse := mkActivityLogResponse {
  al_logs : list (AdminActivityLog.t * option AdminView);
  al_pagination : Pagination
}.

(** GET /api/v1/admin/activity: newest first. *)
Definition getActivityLog (page limit : option string) : M ActivityLogResponse :=
  let p := paging 50 page limit in
  logs <- gets (fun db =>
                  map (fun l => (l, option_map asAdminView
                                      (findClientById (AdminActivityLog.adminId l) db)))
                    (pageOf p
                       (sortBy (fun a b => AdminActivityLog.createdAt b
                                           <=? AdminActivityLog.createdAt a)
                          (adminActivityLogs db)))) ;;
  total <- gets (fun db => Z.of_nat (List.length (adminActivityLogs db))) ;;
  ret (mkActivityLogResponse logs (paginationOf p total)).

(** *** Clients *)



(** [s.includes(searchString)]. *)
Fixpoint includes (s searchString : string) : bool :=
  String.prefix searchString s
  || match s with
     | EmptyString => false
     | String _ rest => includes rest searchString
     end.







(** ** The client's documents (document.controller.ts) *)

(** A number as [z.number().positive()] lets it through: whole, or with a
    fractional part (of which only the whole part is kept here). *)
Inductive JsonNumber :=
| Whole (n : Z)
| Fractional (wholePart : Z).

Record UploadDocumentInput := mkUploadDocumentInput {
  ui_fileName : string;
  ui_fileUrl : string;
  ui_fileKey : string;
  ui_fileType : string;
  ui_fileSize : JsonNumber;
  ui_category : DocumentCategory.t
}.

(** The values of an [INTEGER] column ([fileSize], migration.sql). *)
Definition fitsInteger (n : Z) : bool := (- 2 ^ 31 <=? n) && (n <? 2 ^ 31).

(** A number written to an [Int] field: Prisma refuses a value with a
    fractional part and one outside the column's 32 bits, before any row is
    written. *)
Definition intColumn (x : JsonNumber) : Outcome Z :=
  match x with
  | Whole n =>
      if fitsInteger n then Ok n
      else Throw (OtherError "Unable to fit integer value into an INT4")
  | Fractional _ => Throw (OtherError "Invalid value provided. Expected Int, provided Float.")
  end.

(** POST /api/v1/documents, behind [authenticate] and [uploadDocumentSchema];
    the status, reason and verification time take their column defaults.
    [clientId] is [req.client!.id], the id of a row [authenticate] has just
    read, so the foreign key holds. *)
Definition addDocument (clientId : string) (input : UploadDocumentInput) (env : Env)
  : M Document.t :=
  fileSize <- liftOutcome (intColumn (ui_fileSize input)) ;;
  let document :=
    Document.mk (freshId env 0) clientId (ui_fileName input) (ui_fileUrl input)
      (ui_fileKey input) (ui_fileType input) fileSize (ui_category input)
      DocumentVerificationStatus.PENDING None None (now env) in
  modify (with_documents (fun rows => (rows ++ [document])%list)) ;;;
  ret document.

Definition categoryOfString (s : string) : option DocumentCategory.t :=
  if String.eqb s "ID_DOCUMENT" then Some DocumentCategory.ID_DOCUMENT
  else if String.eqb s "BUSINESS_LICENSE" then Some DocumentCategory.BUSINESS_LICENSE
  else if String.eqb s "TAX_DOCUMENT" then Some DocumentCategory.TAX_DOCUMENT
  else if String.eqb s "PROOF_OF_ADDRESS" then Some DocumentCategory.PROOF_OF_ADDRESS
  else if String.eqb s "OTHER" then Some DocumentCategory.OTHER
  else None.

Definition sameCategory (a b : DocumentCategory.t) : bool :=
  match a, b with
  | DocumentCategory.ID_DOCUMENT, DocumentCategory.ID_DOCUMENT
  | DocumentCategory.BUSINESS_LICENSE, DocumentCategory.BUSINESS_LICENSE
  | DocumentCategory.TAX_DOCUMENT, DocumentCategory.TAX_DOCUMENT
  | DocumentCategory.PROOF_OF_ADDRESS, DocumentCategory.PROOF_OF_ADDRESS
  | DocumentCategory.OTHER, DocumentCategory.OTHER => true
  | _, _ => false
  end.

Definition newestFirst (rows : list Document.t) : list Document.t :=
  sortBy (fun a b => Document.uploadedAt b <=? Document.uploadedAt a) rows.

(** GET /api/v1/documents.  [category] is the query parameter, spread into
    the [where] clause when truthy; a string outside the enum is refused by
    Prisma. *)
Definition getDocuments (clientId : string) (category : option string) : M (list Document.t) :=
  filterCategory <-
    match category with
    | None => ret None
    | Some EmptyString => ret None
    | Some c =>
        match categoryOfString c with
        | Some parsed => ret (Some parsed)
        | None => throw (OtherError "Invalid value for argument `category`. Expected DocumentCategory.")
        end
    end ;;
  gets (fun db =>
          newestFirst
            (filter (fun d => ownsDocument clientId d
                              && match filterCategory with
                                 | Some c => sameCategory (Document.category d) c
                                 | None => true
                                 end)
               (documents db))).

(** DELETE /api/v1/documents/:id *)
Definition deleteDocument (clientId id : string) : M MessageResponse :=
  found <- gets (fun db =>
                   find (fun d => String.eqb (Document.id d) id && ownsDocument clientId d)
                     (documents db)) ;;
  _ <- orThrow found (errors.notFound "Document") ;;
  modify (with_documents (filter (fun d => negb (String.eqb (Document.id d) id)))) ;;;
  ret (mkMessageResponse true "Document deleted successfully").

(** ** Profile (profile.controller.ts) *)

(** [UpdateProfileInput] after [updateProfileSchema]: an absent member is
    [None]; the nullable members carry [Some None] for [null]. *)
Record UpdateProfileInput := mkUpdateProfileInput {
  up_firstName : option string;
  up_lastName : option string;
  up_companyName : option (option string);
  up_phone : option (option string);
  up_avatarUrl : option (option string)
}.

(** The update [{ where: { id }, data }]: an undefined member leaves its
    column alone. *)
Definition applyProfile (input : UpdateProfileInput) (c : Client.t) : Client.t :=
  Client.mk (Client.id c) (Client.email c) (Client.passwordHash c)
    (match up_firstName input with Some s => s | None => Client.firstName c end)
    (match up_lastName input with Some s => s | None => Client.lastName c end)
    (match up_companyName input with Some v => v | None => Client.companyName c end)
    (match up_phone input with Some v => v | None => Client.phone c end)
    (match up_avatarUrl input with Some v => v | None => Client.avatarUrl c end)
    (Client.emailVerified c) (Client.role c).

Record ProfileView := mkProfileView {
  pv_id : string;
  pv_email : string;
  pv_firstName : string;
  pv_lastName : string;
  pv_companyName : option string;
  pv_phone : option string;
  pv_avatarUrl : option string;
  pv_emailVerified : bool
}.

Definition asProfileView (c : Client.t) : ProfileView :=
  mkProfileView (Client.id c) (Client.email c) (Client.firstName c) (Client.lastName c)
    (Client.companyName c) (Client.phone c) (Client.avatarUrl c) (Client.emailVerified c).

(** [prisma.client.update({ where: { id }, data })] with the row it returns. *)
Definition updateClientReturning (id : string) (update : Client.t -> Client.t)
  : M Client.t :=
  found <- gets (findClientById id) ;;
  updateClientById id update ;;;
  match found with
  | Some client => ret (update client)
  | None =>
      throw (PrismaKnownRequestError "P2025" None
               "An operation failed because it depends on one or more records that were required but not found.")
  end.

(** PUT /api/v1/profile *)
Definition updateProfile (clientId : string) (updateData : UpdateProfileInput)
  : M ProfileView :=
  client <- updateClientReturning clientId (applyProfile updateData) ;;
  ret (asProfileView client).

(** [Object.keys(filteredData).length === 0]. *)
Definition noFields (input : UpdateProfileInput) : bool :=
  match up_firstName input, up_lastName input, up_companyName input, up_phone input,
        up_avatarUrl input with
  | None, None, None, None, None => true
  | _, _, _, _, _ => false
  end.

(** PATCH /api/v1/profile *)
Definition patchProfile (clientId : string) (updateData : UpdateProfileInput)
  : M ProfileView :=
  when_ (noFields updateData) (throw (errors.badRequest "No valid fields to update")) ;;;
  client <- updateClientReturning clientId (applyProfile updateData) ;;
  ret (asProfileView client).

(** POST /api/v1/profile/change-password *)
Definition changePassword {R : Runtime} (clientId currentPassword newPassword : string)
  (env : Env) : M MessageResponse :=
  found <- gets (findClientById clientId) ;;
  client <- orThrow found (errors.notFound "Client") ;;
  let isValidPassword := comparePassword currentPassword (Client.passwordHash client) in
  when_ (negb isValidPassword) (throw (errors.unauthorized "Current password is incorrect")) ;;;
  let newPasswordHash := hashPassword newPassword (bcryptSalt env) in
  updateClientById clientId (setPasswordHash newPasswordHash) ;;;
  ret (mkMessageResponse true "Password changed successfully").

(** [extractFileKeyFromUrl] (utils/uploadthing.ts).  [pathname url] is
    [new URL(url).pathname], [None] when the constructor throws. *)
Fixpoint splitFirst (sep s : string) : option (string * string) :=
  if String.prefix sep s then
    Some (EmptyString, substring (String.length sep) (String.length s - String.length sep) s)
  else
    match s with
    | EmptyString => None
    | String c rest =>
        match splitFirst sep rest with
        | Some (before, after) => Some (String c before, after)
        | None => None
        end
    end.

Definition extractFileKeyFromUrl (pathname : string -> option string) (url : string)
  : option string :=
  match url with
  | EmptyString => None
  | _ =>
      match pathname url with
      | None => None
      | Some path =>
          if startsWith path "/f/" then
            Some (substring 3 (String.length path - 3) path)
          else
            match splitFirst "/f/" path with
            | None => None
            | Some (_, after) =>
                let second := match splitFirst "/f/" after with
                              | Some (piece, _) => piece
                              | None => after
                              end in
                match second with
                | EmptyString => None
                | key => Some key
                end
            end
      end
  end.

(** The rows that go with a client row: every foreign key to [clients] and
    to [onboarding_progress] is ON DELETE CASCADE (prisma migrations). *)
Definition deleteClientCascade (clientId : string) (db : Db) : Db :=
  let progressIds :=
    map OnboardingProgress.id
      (filter (fun p => String.eqb (OnboardingProgress.clientId p) clientId)
         (onboardingProgress db)) in
  mkDb
    (filter (fun c => negb (String.eqb (Client.id c) clientId)) (clients db))
    (deleteManyByClient clientId (refreshTokens db))
    (deleteManyByClient clientId (passwordResetTokens db))
    (deleteManyByClient clientId (emailVerificationTokens db))
    (onboardingSteps db)
    (filter (fun p => negb (String.eqb (OnboardingProgress.clientId p) clientId))
       (onboardingProgress db))
    (filter (fun sp => negb (existsb (String.eqb (StepProgress.onboardingProgressId sp))
                               progressIds))
       (stepProgress db))
    (filter (fun d => negb (ownsDocument clientId d)) (documents db))
    (filter (fun l => negb (String.eqb (AdminActivityLog.adminId l) clientId))
       (adminActivityLogs db))
    (outbox db).

Record DeleteAccountResult := mkDeleteAccountResult {
  da_response : MessageResponse;
  da_deletedFiles : list string    (* the keys handed to UploadThing's deleteFiles *)
}.

(** DELETE /api/v1/profile/account.  [deleteFiles] catches its own errors,
    so the storage call cannot fail the request. *)
Definition deleteAccount (pathname : string -> option string) (clientId : string)
  : M DeleteAccountResult :=
  found <- gets (findClientById clientId) ;;
  fileKeys <-
    match found with
    | None => ret []
    | Some client =>
        documentKeys <- gets (fun db =>
                                filter (fun key => negb (String.eqb key EmptyString))
                                  (map Document.fileKey
                                     (filter (ownsDocument clientId) (documents db)))) ;;
        let avatarKey :=
          match Client.avatarUrl client with
          | Some url =>
              match extractFileKeyFromUrl pathname url with
              | Some EmptyString => []
              | Some key => [key]
              | None => []
              end
          | None => []
          end in
        ret (documentKeys ++ avatarKey)%list
    end ;;
  match found with
  | None =>
      throw (PrismaKnownRequestError "P2025" None
               "An operation failed because it depends on one or more records that were required but not found.")
  | Some _ => modify (deleteClientCascade clientId)
  end ;;;
  ret (mkDeleteAccountResult (mkMessageResponse true "Account deleted successfully") fileKeys).

(** ** A second scenario: two clients and an administrator *)

Module Office.

(** A runtime whose hashes are transparent: the password behind a fixed
    prefix.  Tokens are signed as in [plainRuntime]. *)
Definition hashOf (password : string) (rounds : Z) (salt : string) : string :=
  "$2a$" ++ password.

Definition runtime : Runtime :=
  {| config := plainConfig;
     jwt_sign := plainSign;
     jwt_verify := plainVerify;
     bcrypt_hash := hashOf;
     bcrypt_compare := fun password hash => String.eqb hash (hashOf password 12 EmptyString) |}.

(** Bob has not verified his address yet. *)
Definition bob : Client.t :=
  Client.mk "c2" "bob@x.io" (hashOf "Hunter2000" 12 "salt") "Bob" "Builder"
    (Some "Bricks Ltd") None (Some "https://utfs.io/f/bob-avatar") false Role.USER.

Definition bobDocument (id : string) (status : DocumentVerificationStatus.t)
  (uploadedAt : Z) : Document.t :=
  Document.mk id "c2" (id ++ ".png") ("https://utfs.io/f/" ++ id) id "image/png" 2048
    DocumentCategory.TAX_DOCUMENT status None None uploadedAt.

Definition logged (id action targetId : string) (createdAt : Z) : AdminActivityLog.t :=
  AdminActivityLog.mk id "adm" action "DOCUMENT" targetId None createdAt.

Definition db : Db :=
  mkDb [Sample.alice; bob; Sample.admin]
    [TokenRow.mk "rt1" "alice-phone" "c1" 1000604800000;
     TokenRow.mk "rt2" "alice-laptop" "c1" 1000604800000;
     TokenRow.mk "rt3" "bob-phone" "c2" 1000604800000]
    []
    [TokenRow.mk "ev1" "old-verify" "c2" 5000]
    Sample.steps
    [OnboardingProgress.mk "p1" "c1" 2 OnboardingStatus.IN_PROGRESS None;
     OnboardingProgress.mk "p2" "c2" 1 OnboardingStatus.PENDING None]
    [Sample.completed "sp1" "s1" 1000;
     StepProgress.mk "sp2" "p2" "s1" StepStatus.IN_PROGRESS None None]
    [Sample.document "A" DocumentVerificationStatus.PENDING;
     Sample.document "B" DocumentVerificationStatus.APPROVED;
     bobDocument "D" DocumentVerificationStatus.PENDING 800;
     bobDocument "E" DocumentVerificationStatus.REJECTED 600]
    [logged "l1" "APPROVE_DOCUMENT" "B" 700; logged "l2" "REJECT_DOCUMENT" "E" 900]
    [].

(** The path of an absolute URL that has neither query nor fragment. *)
Definition pathname (url : string) : option string :=
  match splitFirst "://" url with
  | Some (_, rest) =>
      match splitFirst "/" rest with
      | Some (_, path) => Some ("/" ++ path)
      | None => Some "/"
      end
  | None => None
  end.

End Office.
(** * Properties *)

(** Unfolding of the monad's plumbing. *)
Ltac monad := cbv beta iota delta [bind gets ret throw modify when_ liftOutcome orThrow].

(** ** Lists as tables *)

Section Tables.
Context {A : Type}.
Variables (key selected : A -> bool) (update : A -> A).
Hypothesis update_keeps_key : forall row, key (update row) = key row.

Lemma find_update rows row :
  find key rows = Some row ->
  find key (map (fun r => if selected r then update r else r) rows)
  = Some (if selected row then update row else row).
Proof.
  induction rows as [| r rows IH]; simpl; [discriminate |].
  assert (Hk : key (if selected r then update r else r) = key r)
    by (destruct (selected r); auto).
  rewrite Hk. destruct (key r).
  - intros [= ->]. reflexivity.
  - exact IH.
Qed.

Lemma find_append_new rows row :
  find key rows = None -> key row = true -> find key (rows ++ [row]) = Some row.
Proof.
  induction rows as [| r rows IH]; simpl; intros Hnone Hrow.
  - now rewrite Hrow.
  - destruct (key r); [discriminate | auto].
Qed.
End Tables.

(** ** Running [completeStep] *)

(** The profile update goes through for an existing client and, at step 1,
    a payload whose profile members are strings; it touches [clients] only. *)
Lemma syncClientProfile_ok clientId stepNumber data db client :
  findClientById clientId db = Some client ->
  (stepNumber = 1 -> profileFieldsValid data = true) ->
  exists change,
    syncClientProfile clientId stepNumber data db = (Ok tt, with_clients change db)
    /\ exists client', findClientById clientId (with_clients change db) = Some client'.
Proof.
  intros Hclient Hvalid. unfold syncClientProfile.
  destruct data as [d |].
  2:{ exists (fun rows => rows). destruct db; simpl. eauto. }
  destruct (stepNumber =? 1) eqn:Hfirst; simpl.
  2:{ exists (fun rows => rows). destruct db; simpl. eauto. }
  apply Z.eqb_eq in Hfirst. specialize (Hvalid Hfirst).
  simpl in Hvalid. unfold isStringColumn in Hvalid.
  destruct (stringColumn (prop "firstName" d)) as [fn |] eqn:E1; [| discriminate].
  destruct (stringColumn (prop "lastName" d)) as [ln |] eqn:E2; [| discriminate].
  destruct (stringColumn (prop "companyName" d)) as [cn |] eqn:E3; [| discriminate].
  destruct (stringColumn (prop "phone" d)) as [ph |] eqn:E4; [| discriminate].
  unfold updateClientById. monad. rewrite Hclient.
  eexists. split; [reflexivity |].
  unfold findClientById, with_clients; simpl.
  unfold findClientById in Hclient.
  erewrite find_update; eauto.
Qed.

(** After the upsert the row under the key is the updated old row, or the
    created one. *)
Lemma upsertStepProgress_ok progressId stepId update create db :
  (forall sp, stepProgressKey progressId stepId (update sp)
              = stepProgressKey progressId stepId sp) ->
  stepProgressKey progressId stepId create = true ->
  exists change,
    upsertStepProgress progressId stepId update create db
    = (Ok tt, with_stepProgress change db)
    /\ findStepProgress progressId stepId (with_stepProgress change db)
       = Some match findStepProgress progressId stepId db with
              | Some old => update old
              | None => create
              end.
Proof.
  intros Hkeep Hcreate. unfold upsertStepProgress. monad.
  destruct (findStepProgress progressId stepId db) as [old |] eqn:Hold.
  - eexists. split; [reflexivity |].
    unfold findStepProgress in *. simpl.
    erewrite find_update by eauto.
    apply find_some in Hold. destruct Hold as [_ ->]. reflexivity.
  - eexists. split; [reflexivity |].
    unfold findStepProgress in *. simpl.
    now apply find_append_new.
Qed.

(** A request for a catalog step at or before the pointer is served; the
    lemma gives the response and the rows the claims look at afterwards. *)
Lemma completeStep_runs db clientId stepNumber data env step progress client :
  findStepByNumber stepNumber db = Some step ->
  findProgressByClient clientId db = Some progress ->
  stepNumber <= OnboardingProgress.currentStep progress ->
  findClientById clientId db = Some client ->
  (stepNumber = 1 -> profileFieldsValid data = true) ->
  let total := Z.of_nat (List.length (onboardingSteps db)) in
  let last := stepNumber =? total in
  let progress' :=
    OnboardingProgress.mk (OnboardingProgress.id progress)
      (OnboardingProgress.clientId progress)
      (if last then stepNumber else Z.min (stepNumber + 1) total)
      (if last then OnboardingStatus.COMPLETED else OnboardingStatus.IN_PROGRESS)
      (if last then Some (now env) else None) in
  exists db' text,
    completeStep clientId stepNumber data env db
    = (Ok (mkCompleteStepResponse text (OnboardingProgress.currentStep progress')
             (OnboardingProgress.status progress')
             (OnboardingProgress.completedAt progress')), db')
    /\ onboardingSteps db' = onboardingSteps db
    /\ findProgressByClient clientId db' = Some progress'
    /\ (exists client', findClientById clientId db' = Some client')
    /\ (exists sp,
          findStepProgress (OnboardingProgress.id progress) (OnboardingStep.id step) db'
          = Some sp
          /\ StepProgress.status sp = StepStatus.COMPLETED
          /\ StepProgress.completedAt sp = Some (now env)
          /\ StepProgress.data sp
             = match data with
               | Some d => Some d
               | None =>
                   match findStepProgress (OnboardingProgress.id progress)
                           (OnboardingStep.id step) db with
                   | Some old => StepProgress.data old
                   | None => None
                   end
               end).
Proof.
  intros Hstep Hprogress Hle Hclient Hvalid total last progress'.
  unfold completeStep. monad. rewrite Hstep, Hprogress.
  replace (stepNumber >? OnboardingProgress.currentStep progress) with false
    by (symmetry; rewrite Z.gtb_ltb; apply Z.ltb_ge; lia).
  match goal with
  | |- context [upsertStepProgress ?p ?s ?u ?c db] =>
      destruct (upsertStepProgress_ok p s u c db) as (change & -> & Hsp)
  end.
  { intros sp. reflexivity. }
  { unfold stepProgressKey; simpl. now rewrite !String.eqb_refl. }
  unfold updateProgressById. monad.
  match goal with
  | |- context [syncClientProfile clientId stepNumber data ?d] =>
      destruct (syncClientProfile_ok clientId stepNumber data d client Hclient Hvalid)
        as (edit & -> & client' & Hclient')
  end.
  assert (Hfound :
    findProgressByClient clientId
      (with_clients edit
         (with_onboardingProgress
            (map (fun p =>
                    if String.eqb (OnboardingProgress.id p) (OnboardingProgress.id progress)
                    then OnboardingProgress.mk (OnboardingProgress.id p)
                           (OnboardingProgress.clientId p)
                           (if last then stepNumber else Z.min (stepNumber + 1) total)
                           (if last then OnboardingStatus.COMPLETED
                            else OnboardingStatus.IN_PROGRESS)
                           (if last then Some (now env) else None)
                    else p))
            (with_stepProgress change db)))
    = Some progress').
  { unfold findProgressByClient in *. simpl.
    erewrite find_update by (eauto; reflexivity).
    now rewrite String.eqb_refl. }
  change (Z.of_nat (List.length (onboardingSteps (with_stepProgress change db))))
    with total.
  fold last. rewrite Hfound.
  eexists. eexists. split; [reflexivity |].
  split; [reflexivity |]. split; [exact Hfound |]. split; [eauto |].
  eexists. split; [exact Hsp |].
  destruct (findStepProgress _ _ db) as [old |]; simpl; destruct data; auto.
Qed.

(** A payload member that is truthy and no string: Prisma's one refusal. *)
Lemma stringColumn_outcome v :
  (exists column, stringColumn v = Ok column)
  \/ stringColumn v = Throw (OtherError "Invalid value provided. Expected String.").
Proof.
  unfold stringColumn. destruct (truthy v); [| left; eauto].
  destruct v as [[| | | s | |] |]; auto; left; eauto.
Qed.

(** At step 1 a payload with such a member stops the profile update before
    it writes. *)
Lemma syncClientProfile_refused clientId data db :
  profileFieldsValid data = false ->
  syncClientProfile clientId 1 data db
  = (Throw (OtherError "Invalid value provided. Expected String."), db).
Proof.
  intros Hinvalid. unfold syncClientProfile.
  destruct data as [d |]; [| discriminate]. cbn [Z.eqb Pos.eqb when_].
  cbn [profileFieldsValid] in Hinvalid. unfold isStringColumn in Hinvalid. monad.
  destruct (stringColumn_outcome (prop "firstName" d)) as [[fn E1] | E1];
    rewrite E1 in *; [| reflexivity].
  destruct (stringColumn_outcome (prop "lastName" d)) as [[ln E2] | E2];
    rewrite E2 in *; [| reflexivity].
  destruct (stringColumn_outcome (prop "companyName" d)) as [[cn E3] | E3];
    rewrite E3 in *; [| reflexivity].
  destruct (stringColumn_outcome (prop "phone" d)) as [[ph E4] | E4];
    rewrite E4 in *; [| reflexivity].
  discriminate.
Qed.

(** Step 1 with such a payload, at or before the pointer: the step record
    and the pointer are written, and then the profile update throws. *)
Lemma completeStep_profile_refused db clientId data env step progress :
  findStepByNumber 1 db = Some step ->
  findProgressByClient clientId db = Some progress ->
  1 <= OnboardingProgress.currentStep progress ->
  profileFieldsValid data = false ->
  let total := Z.of_nat (List.length (onboardingSteps db)) in
  let last := 1 =? total in
  let progress' :=
    OnboardingProgress.mk (OnboardingProgress.id progress)
      (OnboardingProgress.clientId progress)
      (if last then 1 else Z.min (1 + 1) total)
      (if last then OnboardingStatus.COMPLETED else OnboardingStatus.IN_PROGRESS)
      (if last then Some (now env) else None) in
  exists db',
    completeStep clientId 1 data env db
    = (Throw (OtherError "Invalid value provided. Expected String."), db')
    /\ clients db' = clients db
    /\ findProgressByClient clientId db' = Some progress'
    /\ (exists sp,
          findStepProgress (OnboardingProgress.id progress) (OnboardingStep.id step) db'
          = Some sp
          /\ StepProgress.status sp = StepStatus.COMPLETED
          /\ StepProgress.completedAt sp = Some (now env)).
Proof.
  intros Hstep Hprogress Hle Hinvalid total last progress'.
  unfold completeStep. monad. rewrite Hstep, Hprogress.
  replace (1 >? OnboardingProgress.currentStep progress) with false
    by (symmetry; rewrite Z.gtb_ltb; apply Z.ltb_ge; lia).
  match goal with
  | |- context [upsertStepProgress ?p ?s ?u ?c db] =>
      destruct (upsertStepProgress_ok p s u c db) as (change & -> & Hsp)
  end.
  { intros sp. reflexivity. }
  { unfold stepProgressKey; simpl. now rewrite !String.eqb_refl. }
  unfold updateProgressById. monad.
  rewrite syncClientProfile_refused by exact Hinvalid.
  eexists. split; [reflexivity |].
  split; [destruct db; reflexivity |].
  split.
  { unfold findProgressByClient in *. simpl.
    erewrite find_update by (eauto; reflexivity).
    now rewrite String.eqb_refl. }
  eexists. split; [exact Hsp |].
  destruct (findStepProgress _ _ db) as [old |]; simpl; auto.
Qed.

(** ** The step catalog *)

Lemma findStepByNumber_in n db step :
  findStepByNumber n db = Some step -> In n (stepNumbers db).
Proof.
  unfold findStepByNumber, stepNumbers. intros H.
  apply find_some in H. destruct H as [Hin Heq].
  apply Z.eqb_eq in Heq. subst n. now apply in_map.
Qed.

Lemma in_findStepByNumber n db :
  In n (stepNumbers db) -> exists step, findStepByNumber n db = Some step.
Proof.
  unfold findStepByNumber, stepNumbers. intros H.
  apply in_map_iff in H. destruct H as (step & Hn & Hin).
  destruct (find _ (onboardingSteps db)) as [s |] eqn:E; [eauto |].
  apply (find_none _ _ E) in Hin. rewrite Hn, Z.eqb_refl in Hin. discriminate.
Qed.

Lemma fold_max_in n rest : In (fold_right Z.max n rest) (n :: rest).
Proof.
  induction rest as [| m rest IH]; simpl; [auto |].
  destruct (Z.max_spec m (fold_right Z.max n rest)) as [[_ ->] | [_ ->]].
  - destruct IH; simpl; auto.
  - auto.
Qed.

Lemma fold_max_upper n rest x : In x (n :: rest) -> x <= fold_right Z.max n rest.
Proof.
  induction rest as [| m rest IH]; simpl.
  - intros [-> | []]. lia.
  - intros [-> | [-> | H]].
    + specialize (IH (or_introl eq_refl)). lia.
    + lia.
    + specialize (IH (or_intror H)). lia.
Qed.

Lemma lastStepNumber_total db N :
  catalogContiguous db -> lastStepNumber db = Some N ->
  N = Z.of_nat (List.length (onboardingSteps db)).
Proof.
  unfold lastStepNumber. intros Hc HN.
  destruct (stepNumbers db) as [| n rest] eqn:E; [discriminate |].
  injection HN as <-.
  assert (Hin : In (fold_right Z.max n rest) (stepNumbers db))
    by (rewrite E; apply fold_max_in).
  apply Hc in Hin.
  assert (Htotal : In (Z.of_nat (List.length (onboardingSteps db))) (stepNumbers db)).
  { apply Hc. unfold stepNumbers in E.
    destruct (onboardingSteps db); [discriminate | simpl; lia]. }
  rewrite E in Htotal. apply fold_max_upper in Htotal. lia.
Qed.

Lemma lastStepNumber_in db N : lastStepNumber db = Some N -> In N (stepNumbers db).
Proof.
  unfold lastStepNumber.
  destruct (stepNumbers db) as [| n rest]; [discriminate |].
  intros [= <-]. apply fold_max_in.
Qed.

(** ** Onboarding: C2, C3, C4 *)

(** C4.  With the pointer at [k]: completing a catalog step beyond [k] is
    refused with 400 BAD_REQUEST and nothing is written; completing step [k]
    itself, when [k] is not the final step, succeeds, leaves that step's
    record COMPLETED with the time of the request and the payload sent, and
    moves the pointer to [k + 1] with status IN_PROGRESS, provided that at
    step 1 the profile members of the payload are strings.  At step 1 with a
    profile member that is truthy and no string the request does not succeed:
    the step's record is left COMPLETED and the pointer moved to 2 all the
    same, the profile is not written, and the answer is 500. *)
Theorem completeStep_step_ordering db clientId progress s step data env :
  findProgressByClient clientId db = Some progress ->
  findStepByNumber s db = Some step ->
  (OnboardingProgress.currentStep progress < s ->
   completeStep clientId s data env db
   = (Throw (errors.badRequest "Cannot complete a step ahead of current progress"), db))
  /\ (s = OnboardingProgress.currentStep progress ->
      forall N client,
        catalogContiguous db -> lastStepNumber db = Some N -> s <> N ->
        findClientById clientId db = Some client ->
        (s = 1 -> profileFieldsValid data = true) ->
        exists db' response stepRow,
          completeStep clientId s data env db = (Ok response, db')
          /\ cs_currentStep response = s + 1
          /\ cs_status response = OnboardingStatus.IN_PROGRESS
          /\ findProgressByClient clientId db'
             = Some (OnboardingProgress.mk (OnboardingProgress.id progress)
                       (OnboardingProgress.clientId progress) (s + 1)
                       OnboardingStatus.IN_PROGRESS None)
          /\ findStepProgress (OnboardingProgress.id progress) (OnboardingStep.id step) db'
             = Some stepRow
          /\ StepProgress.status stepRow = StepStatus.COMPLETED
          /\ StepProgress.completedAt stepRow = Some (now env)
          /\ (forall d, data = Some d -> StepProgress.data stepRow = Some d))
  /\ (s = OnboardingProgress.currentStep progress ->
      forall N,
        catalogContiguous db -> lastStepNumber db = Some N -> s <> N ->
        s = 1 -> profileFieldsValid data = false ->
        exists db' stepRow,
          completeStep clientId s data env db
          = (Throw (OtherError "Invalid value provided. Expected String."), db')
          /\ failsWith 500 (completeStep clientId s data env db)
          /\ clients db' = clients db
          /\ findProgressByClient clientId db'
             = Some (OnboardingProgress.mk (OnboardingProgress.id progress)
                       (OnboardingProgress.clientId progress) (s + 1)
                       OnboardingStatus.IN_PROGRESS None)
          /\ findStepProgress (OnboardingProgress.id progress) (OnboardingStep.id step) db'
             = Some stepRow
          /\ StepProgress.status stepRow = StepStatus.COMPLETED
          /\ StepProgress.completedAt stepRow = Some (now env)).
Proof.
  intros Hprogress Hstep. split; [| split].
  - intros Hahead. unfold completeStep. monad. rewrite Hstep, Hprogress.
    replace (s >? OnboardingProgress.currentStep progress) with true
      by (symmetry; apply Z.gtb_lt; lia).
    reflexivity.
  - intros Hcur N client Hcat HN HnotLast Hclient Hvalid.
    pose proof (lastStepNumber_total db N Hcat HN) as Htotal.
    pose proof (proj1 (Hcat s) (findStepByNumber_in s db step Hstep)) as Hrange.
    destruct (completeStep_runs db clientId s data env step progress client
                Hstep Hprogress ltac:(lia) Hclient Hvalid)
      as (db' & text & Hrun & _ & Hfound & _ & sp & Hsp & Hst & Hat & Hdata).
    replace (s =? Z.of_nat (List.length (onboardingSteps db))) with false in *
      by (symmetry; apply Z.eqb_neq; lia).
    replace (Z.min (s + 1) (Z.of_nat (List.length (onboardingSteps db)))) with (s + 1) in *
      by lia.
    simpl in Hrun.
    exists db'. eexists. exists sp.
    split; [exact Hrun |]. simpl.
    repeat split; auto.
    intros d ->. exact Hdata.
  - intros Hcur N Hcat HN HnotLast Hfirst Hinvalid. rewrite Hfirst in *. clear Hfirst.
    pose proof (lastStepNumber_total db N Hcat HN) as Htotal.
    pose proof (proj1 (Hcat 1) (findStepByNumber_in 1 db step Hstep)) as Hrange.
    destruct (completeStep_profile_refused db clientId data env step progress
                Hstep Hprogress ltac:(lia) Hinvalid)
      as (db' & Hrun & Hclients & Hfound & sp & Hsp & Hst & Hat).
    replace (1 =? Z.of_nat (List.length (onboardingSteps db))) with false in *
      by (symmetry; apply Z.eqb_neq; lia).
    replace (Z.min (1 + 1) (Z.of_nat (List.length (onboardingSteps db)))) with (1 + 1) in *
      by lia.
    exists db', sp. split; [exact Hrun |].
    split; [unfold failsWith; rewrite Hrun; intros production; reflexivity |].
    auto.
Qed.

(** C3.  With the pointer on the catalog's final step [N], completing step
    [N] sets the overall status to COMPLETED, records the time of the request
    and keeps the pointer at [N]; completing step [N] once more succeeds and
    leaves status COMPLETED and the pointer at [N]. *)
Theorem completeStep_final_step db clientId progress client N data env data2 env2 :
  catalogContiguous db -> lastStepNumber db = Some N ->
  findProgressByClient clientId db = Some progress ->
  OnboardingProgress.currentStep progress = N ->
  findClientById clientId db = Some client ->
  (N = 1 -> profileFieldsValid data = true) ->
  (N = 1 -> profileFieldsValid data2 = true) ->
  exists db1 response1 db2 response2,
    completeStep clientId N data env db = (Ok response1, db1)
    /\ cs_status response1 = OnboardingStatus.COMPLETED
    /\ cs_currentStep response1 = N
    /\ cs_completedAt response1 = Some (now env)
    /\ findProgressByClient clientId db1
       = Some (OnboardingProgress.mk (OnboardingProgress.id progress)
                 (OnboardingProgress.clientId progress) N
                 OnboardingStatus.COMPLETED (Some (now env)))
    /\ completeStep clientId N data2 env2 db1 = (Ok response2, db2)
    /\ cs_status response2 = OnboardingStatus.COMPLETED
    /\ cs_currentStep response2 = N
    /\ option_map OnboardingProgress.status (findProgressByClient clientId db2)
       = Some OnboardingStatus.COMPLETED
    /\ option_map OnboardingProgress.currentStep (findProgressByClient clientId db2)
       = Some N.
Proof.
  intros Hcat HN Hprogress Hcur Hclient Hvalid Hvalid2.
  pose proof (lastStepNumber_total db N Hcat HN) as Htotal.
  destruct (in_findStepByNumber N db (lastStepNumber_in db N HN)) as (step & Hstep).
  destruct (completeStep_runs db clientId N data env step progress client
              Hstep Hprogress ltac:(lia) Hclient Hvalid)
    as (db1 & text1 & Hrun1 & Hsteps1 & Hfound1 & (client1 & Hclient1) & _).
  rewrite <- Htotal, Z.eqb_refl in Hrun1, Hfound1. simpl in Hrun1.
  assert (Hstep1 : findStepByNumber N db1 = Some step)
    by (unfold findStepByNumber in *; now rewrite Hsteps1).
  destruct (completeStep_runs db1 clientId N data2 env2 step _ client1
              Hstep1 Hfound1 ltac:(simpl; lia) Hclient1 Hvalid2)
    as (db2 & text2 & Hrun2 & _ & Hfound2 & _).
  rewrite Hsteps1, <- Htotal, Z.eqb_refl in Hrun2, Hfound2. simpl in Hrun2, Hfound2.
  exists db1. eexists. exists db2. eexists.
  split; [exact Hrun1 |]. simpl.
  do 4 (split; [auto |]).
  split; [exact Hrun2 |]. simpl.
  rewrite Hfound2. auto.
Qed.

(** C2, as the code has it.  Completing again a catalog step [j] that lies
    before the pointer, with a payload whose profile members are strings
    when [j] is step 1, succeeds and overwrites that step's record
    (COMPLETED, stamped with the time of the request), and it moves the
    pointer to [j + 1], sets the overall status to IN_PROGRESS and clears
    the overall completion time. *)
Theorem completeStep_earlier_step_rewinds db clientId progress client N j step data env :
  catalogContiguous db -> lastStepNumber db = Some N ->
  findProgressByClient clientId db = Some progress ->
  OnboardingProgress.currentStep progress <= N ->
  findStepByNumber j db = Some step ->
  j < OnboardingProgress.currentStep progress ->
  findClientById clientId db = Some client ->
  (j = 1 -> profileFieldsValid data = true) ->
  exists db' response stepRow,
    completeStep clientId j data env db = (Ok response, db')
    /\ findProgressByClient clientId db'
       = Some (OnboardingProgress.mk (OnboardingProgress.id progress)
                 (OnboardingProgress.clientId progress) (j + 1)
                 OnboardingStatus.IN_PROGRESS None)
    /\ findStepProgress (OnboardingProgress.id progress) (OnboardingStep.id step) db'
       = Some stepRow
    /\ StepProgress.status stepRow = StepStatus.COMPLETED
    /\ StepProgress.completedAt stepRow = Some (now env).
Proof.
  intros Hcat HN Hprogress Hbound Hstep Hbefore Hclient Hvalid.
  pose proof (lastStepNumber_total db N Hcat HN) as Htotal.
  destruct (completeStep_runs db clientId j data env step progress client
              Hstep Hprogress ltac:(lia) Hclient Hvalid)
    as (db' & text & Hrun & _ & Hfound & _ & sp & Hsp & Hst & Hat & _).
  replace (j =? Z.of_nat (List.length (onboardingSteps db))) with false in *
    by (symmetry; apply Z.eqb_neq; lia).
  replace (Z.min (j + 1) (Z.of_nat (List.length (onboardingSteps db)))) with (j + 1) in *
    by lia.
  exists db'. eexists. exists sp. split; [exact Hrun |]. auto.
Qed.

Lemma seeded_catalog_contiguous db :
  onboardingSteps db = Sample.steps -> catalogContiguous db.
Proof.
  intros Hsteps n. unfold stepNumbers. rewrite Hsteps. simpl. lia.
Qed.

(** C2 fails as stated: Alice has finished the wizard (pointer 4, status
    COMPLETED, completion time 4000) and step 1 is COMPLETED; completing
    step 1 again succeeds, and afterwards the pointer is 2, the status
    IN_PROGRESS and the completion time gone. *)
Lemma completeStep_earlier_step_regresses :
  let before := findProgressByClient "c1" Sample.finished in
  let run := completeStep "c1" 1 None (Sample.envAt 5000 "r") Sample.finished in
  let after := findProgressByClient "c1" (snd run) in
  option_map StepProgress.status (findStepProgress "p1" "s1" Sample.finished)
  = Some StepStatus.COMPLETED
  /\ option_map OnboardingProgress.currentStep before = Some 4
  /\ option_map OnboardingProgress.status before = Some OnboardingStatus.COMPLETED
  /\ option_map OnboardingProgress.completedAt before = Some (Some 4000)
  /\ succeeds run
  /\ option_map OnboardingProgress.currentStep after = Some 2
  /\ option_map OnboardingProgress.status after = Some OnboardingStatus.IN_PROGRESS
  /\ option_map OnboardingProgress.completedAt after = Some None
  /\ after <> before.
Proof.
  repeat split; try reflexivity.
  - eexists. vm_compute. reflexivity.
  - vm_compute. discriminate.
Qed.

Lemma completeStep_earlier_step_rewinds_witness :
  exists db' response stepRow,
    completeStep "c1" 1 None (Sample.envAt 5000 "r") Sample.finished = (Ok response, db')
    /\ findProgressByClient "c1" db'
       = Some (OnboardingProgress.mk "p1" "c1" (1 + 1) OnboardingStatus.IN_PROGRESS None)
    /\ findStepProgress "p1" "s1" db' = Some stepRow
    /\ StepProgress.status stepRow = StepStatus.COMPLETED
    /\ StepProgress.completedAt stepRow = Some 5000.
Proof.
  apply (completeStep_earlier_step_rewinds Sample.finished "c1"
           (OnboardingProgress.mk "p1" "c1" 4 OnboardingStatus.COMPLETED (Some 4000))
           Sample.alice 4 1
           (OnboardingStep.mk "s1" 1 "personal_info" "Personal Information"
              "Tell us about yourself and your company" true)
           None (Sample.envAt 5000 "r")).
  - apply seeded_catalog_contiguous. reflexivity.
  - reflexivity.
  - reflexivity.
  - simpl. lia.
  - reflexivity.
  - simpl. lia.
  - reflexivity.
  - intros _. reflexivity.
Defined.

Lemma completeStep_final_step_witness :
  let db := Sample.onboarding 4 OnboardingStatus.IN_PROGRESS None
              [Sample.completed "sp1" "s1" 1000; Sample.completed "sp2" "s2" 2000;
               Sample.completed "sp3" "s3" 3000] in
  exists db1 response1 db2 response2,
    completeStep "c1" 4 None (Sample.envAt 4000 "r") db = (Ok response1, db1)
    /\ cs_status response1 = OnboardingStatus.COMPLETED
    /\ cs_currentStep response1 = 4
    /\ cs_completedAt response1 = Some 4000
    /\ findProgressByClient "c1" db1
       = Some (OnboardingProgress.mk "p1" "c1" 4 OnboardingStatus.COMPLETED (Some 4000))
    /\ completeStep "c1" 4 None (Sample.envAt 5000 "q") db1 = (Ok response2, db2)
    /\ cs_status response2 = OnboardingStatus.COMPLETED
    /\ cs_currentStep response2 = 4
    /\ option_map OnboardingProgress.status (findProgressByClient "c1" db2)
       = Some OnboardingStatus.COMPLETED
    /\ option_map OnboardingProgress.currentStep (findProgressByClient "c1" db2) = Some 4.
Proof.
  apply (completeStep_final_step
           (Sample.onboarding 4 OnboardingStatus.IN_PROGRESS None
              [Sample.completed "sp1" "s1" 1000; Sample.completed "sp2" "s2" 2000;
               Sample.completed "sp3" "s3" 3000])
           "c1" (OnboardingProgress.mk "p1" "c1" 4 OnboardingStatus.IN_PROGRESS None)
           Sample.alice 4 None (Sample.envAt 4000 "r") None (Sample.envAt 5000 "q")).
  - apply seeded_catalog_contiguous. reflexivity.
  - reflexivity.
  - reflexivity.
  - reflexivity.
  - reflexivity.
  - intros _. reflexivity.
  - intros _. reflexivity.
Defined.

Lemma completeStep_step_ordering_witness :
  let db := Sample.onboarding 2 OnboardingStatus.IN_PROGRESS None
              [Sample.completed "sp1" "s1" 1000] in
  let note := [("note", JStr "passport attached")] in
  let five := Some [("firstName", JNum 5)] in
  (completeStep "c1" 4 None (Sample.envAt 2000 "r") db
   = (Throw (errors.badRequest "Cannot complete a step ahead of current progress"), db)
   /\ exists db' response stepRow,
        completeStep "c1" 2 (Some note) (Sample.envAt 2000 "r") db = (Ok response, db')
        /\ cs_currentStep response = 2 + 1
        /\ cs_status response = OnboardingStatus.IN_PROGRESS
        /\ findProgressByClient "c1" db'
           = Some (OnboardingProgress.mk "p1" "c1" (2 + 1) OnboardingStatus.IN_PROGRESS None)
        /\ findStepProgress "p1" "s2" db' = Some stepRow
        /\ StepProgress.status stepRow = StepStatus.COMPLETED
        /\ StepProgress.completedAt stepRow = Some 2000
        /\ (forall d, Some note = Some d -> StepProgress.data stepRow = Some d))
  /\ exists db' stepRow,
       completeStep "c1" 1 five (Sample.envAt 2000 "r") Sample.registered
       = (Throw (OtherError "Invalid value provided. Expected String."), db')
       /\ failsWith 500 (completeStep "c1" 1 five (Sample.envAt 2000 "r") Sample.registered)
       /\ clients db' = clients Sample.registered
       /\ findProgressByClient "c1" db'
          = Some (OnboardingProgress.mk "p1" "c1" (1 + 1) OnboardingStatus.IN_PROGRESS None)
       /\ findStepProgress "p1" "s1" db' = Some stepRow
       /\ StepProgress.status stepRow = StepStatus.COMPLETED
       /\ StepProgress.completedAt stepRow = Some 2000.
Proof.
  split; [split |].
  - apply (proj1 (completeStep_step_ordering
                    (Sample.onboarding 2 OnboardingStatus.IN_PROGRESS None
                       [Sample.completed "sp1" "s1" 1000])
                    "c1" (OnboardingProgress.mk "p1" "c1" 2 OnboardingStatus.IN_PROGRESS None)
                    4 (OnboardingStep.mk "s4" 4 "setup" "Final Setup"
                         "Configure your preferences and complete onboarding" true)
                    None (Sample.envAt 2000 "r") eq_refl eq_refl)).
    simpl. lia.
  - apply (proj1 (proj2 (completeStep_step_ordering
                           (Sample.onboarding 2 OnboardingStatus.IN_PROGRESS None
                              [Sample.completed "sp1" "s1" 1000])
                           "c1"
                           (OnboardingProgress.mk "p1" "c1" 2 OnboardingStatus.IN_PROGRESS
                              None)
                           2 (OnboardingStep.mk "s2" 2 "documents" "Document Upload"
                                "Upload required verification documents" true)
                           (Some [("note", JStr "passport attached")])
                           (Sample.envAt 2000 "r") eq_refl eq_refl))
             eq_refl 4 Sample.alice).
    + apply seeded_catalog_contiguous. reflexivity.
    + reflexivity.
    + lia.
    + reflexivity.
    + intros _. reflexivity.
  - apply (proj2 (proj2 (completeStep_step_ordering Sample.registered "c1"
                           (OnboardingProgress.mk "p1" "c1" 1 OnboardingStatus.PENDING None)
                           1 (OnboardingStep.mk "s1" 1 "personal_info" "Personal Information"
                                "Tell us about yourself and your company" true)
                           (Some [("firstName", JNum 5)])
                           (Sample.envAt 2000 "r") eq_refl eq_refl))
             eq_refl 4).
    + apply seeded_catalog_contiguous. reflexivity.
    + reflexivity.
    + lia.
    + reflexivity.
    + reflexivity.
Defined.

(** ** Admin review: C5, C6, C7 *)

Lemma updateDocumentStatusSchema_status body input :
  updateDocumentStatusSchema body = inr input ->
  in_status input = DocumentVerificationStatus.APPROVED
  \/ in_status input = DocumentVerificationStatus.REJECTED.
Proof.
  unfold updateDocumentStatusSchema.
  destruct (prop "status" body) as [[| | | s | |] |]; try discriminate.
  destruct (String.eqb s "APPROVED").
  - destruct (prop "rejectionReason" body) as [[| | | r | |] |];
      try discriminate; intros [= <-]; auto.
  - destruct (String.eqb s "REJECTED"); [| discriminate].
    destruct (prop "rejectionReason" body) as [[| | | r | |] |];
      try discriminate; intros [= <-]; auto.
Qed.

Lemma statusBody_parses status rejectionReason :
  status = "APPROVED" \/ status = "REJECTED" ->
  updateDocumentStatusSchema (statusBody status rejectionReason)
  = inr (mkUpdateDocumentStatusInput
           (if String.eqb status "APPROVED" then DocumentVerificationStatus.APPROVED
            else DocumentVerificationStatus.REJECTED)
           rejectionReason).
Proof.
  intros [-> | ->]; destruct rejectionReason; reflexivity.
Qed.

Lemma findDocumentById_reviewed id input at_ db d id0 :
  findDocumentById id0 db = Some d ->
  findDocumentById id0 (with_documents (reviewRows id input at_) db)
  = Some (if String.eqb (Document.id d) id then reviewDocument input at_ d else d).
Proof.
  unfold findDocumentById, reviewRows. simpl. intros H.
  now apply (find_update (fun r => String.eqb (Document.id r) id0)
               (fun r => String.eqb (Document.id r) id) (reviewDocument input at_)).
Qed.

(** What one status request does to the tables, when the document and its
    owner exist and the body is well-formed. *)
Lemma updateDocumentStatus_runs db id adminId body env input d owner :
  updateDocumentStatusSchema body = inr input ->
  findDocumentById id db = Some d ->
  findClientById (Document.clientId d) db = Some owner ->
  exists text entry,
    updateDocumentStatus id adminId body env db
    = (Ok (mkUpdateDocumentStatusResponse (reviewDocument input (now env) d) text),
       with_adminActivityLogs (fun rows => (rows ++ [entry])%list)
         (with_documents (reviewRows id input (now env)) db))
    /\ AdminActivityLog.adminId entry = adminId
    /\ AdminActivityLog.targetId entry = id
    /\ AdminActivityLog.action entry
       = (if DocumentVerificationStatus.eqb (in_status input)
               DocumentVerificationStatus.APPROVED
          then "APPROVE_DOCUMENT" else "REJECT_DOCUMENT").
Proof.
  intros Hbody Hdoc Howner. unfold updateDocumentStatus. rewrite Hbody.
  unfold updateDocumentsWhere, logAdminActivity. monad. rewrite Hdoc, Howner.
  eexists. eexists. split; [reflexivity |]. simpl. auto.
Qed.

(** Whatever a status request does, the [documents] table is either left as
    it was or rewritten with a parsed verdict. *)
Lemma updateDocumentStatus_documents db id adminId body env :
  let db' := snd (updateDocumentStatus id adminId body env db) in
  documents db' = documents db
  \/ exists input,
       updateDocumentStatusSchema body = inr input
       /\ documents db' = reviewRows id input (now env) (documents db).
Proof.
  unfold updateDocumentStatus.
  destruct (updateDocumentStatusSchema body) as [text | input] eqn:Hbody; [now left |].
  unfold updateDocumentsWhere, logAdminActivity. monad.
  destruct (findDocumentById id db) as [d |]; [| now left].
  destruct (findClientById (Document.clientId d) db) as [owner |];
    right; exists input; split; reflexivity.
Qed.

Lemma reviewed_not_pending body input at_ d :
  updateDocumentStatusSchema body = inr input ->
  Document.verificationStatus (reviewDocument input at_ d)
  <> DocumentVerificationStatus.PENDING.
Proof.
  intros H. simpl.
  destruct (updateDocumentStatusSchema_status _ _ H) as [-> | ->]; discriminate.
Qed.

Lemma updateDocumentStatus_keeps_reviewed db id adminId body env id0 d :
  findDocumentById id0 db = Some d ->
  Document.verificationStatus d <> DocumentVerificationStatus.PENDING ->
  exists d',
    findDocumentById id0 (snd (updateDocumentStatus id adminId body env db)) = Some d'
    /\ Document.verificationStatus d' <> DocumentVerificationStatus.PENDING.
Proof.
  intros Hdoc Hstatus.
  destruct (updateDocumentStatus_documents db id adminId body env)
    as [Hsame | (input & Hbody & Hrows)]; unfold findDocumentById in *.
  - rewrite Hsame. eauto.
  - rewrite Hrows. unfold reviewRows.
    rewrite (find_update (fun r => String.eqb (Document.id r) id0)
               (fun r => String.eqb (Document.id r) id) (reviewDocument input (now env))
               (fun _ => eq_refl) _ _ Hdoc).
    eexists. split; [reflexivity |].
    destruct (String.eqb (Document.id d) id); [| assumption].
    eapply reviewed_not_pending; eauto.
Qed.

(** C5, as the code has it.  No series of status requests brings a document
    that has left PENDING back to PENDING; but a verdict is not final: a
    request for the other verdict is served whatever the document's current
    status, so APPROVED becomes REJECTED and REJECTED becomes APPROVED. *)
Theorem document_status_transitions :
  (forall requests db id d,
      findDocumentById id db = Some d ->
      Document.verificationStatus d <> DocumentVerificationStatus.PENDING ->
      exists d',
        findDocumentById id (updateDocumentStatusAll requests db) = Some d'
        /\ Document.verificationStatus d' <> DocumentVerificationStatus.PENDING)
  /\ (forall db id adminId env d owner verdict reason,
         findDocumentById id db = Some d ->
         findClientById (Document.clientId d) db = Some owner ->
         verdict = "APPROVED" \/ verdict = "REJECTED" ->
         let run := updateDocumentStatus id adminId (statusBody verdict reason) env db in
         succeeds run
         /\ option_map Document.verificationStatus (findDocumentById id (snd run))
            = Some (if String.eqb verdict "APPROVED"
                    then DocumentVerificationStatus.APPROVED
                    else DocumentVerificationStatus.REJECTED)).
Proof.
  split.
  - induction requests as [| rq rest IH]; intros db id d Hdoc Hstatus; simpl.
    + eauto.
    + destruct (updateDocumentStatus_keeps_reviewed db (rq_id rq) (rq_adminId rq)
                  (rq_body rq) (rq_env rq) id d Hdoc Hstatus) as (d1 & Hdoc1 & Hstatus1).
      eapply IH; eauto.
  - intros db id adminId env d owner verdict reason Hdoc Howner Hverdict run.
    destruct (updateDocumentStatus_runs db id adminId (statusBody verdict reason) env _ d owner
                (statusBody_parses verdict reason Hverdict) Hdoc Howner)
      as (text & entry & Hrun & _).
    subst run. rewrite Hrun. split; [eexists; reflexivity |].
    cbn [snd]. unfold findDocumentById in *.
    change (documents (with_adminActivityLogs _ ?x)) with (documents x).
    cbn [documents with_documents]. unfold reviewRows.
    rewrite (find_update (fun r => String.eqb (Document.id r) id)
               (fun r => String.eqb (Document.id r) id) (reviewDocument _ (now env))
               (fun _ => eq_refl) _ _ Hdoc).
    apply find_some in Hdoc. destruct Hdoc as [_ ->]. reflexivity.
Qed.

(** C7.  A status request on an existing document stores the verdict and the
    time of the request, keeps a rejection reason only under REJECTED (and
    clears it otherwise), and appends one audit row; approving twice is no
    error, leaves the document APPROVED and appends two audit rows. *)
Theorem updateDocumentStatus_effect db id adminId body env input d owner :
  updateDocumentStatusSchema body = inr input ->
  findDocumentById id db = Some d ->
  findClientById (Document.clientId d) db = Some owner ->
  (let run := updateDocumentStatus id adminId body env db in
   exists d' entry,
     succeeds run
     /\ findDocumentById id (snd run) = Some d'
     /\ Document.verificationStatus d' = in_status input
     /\ Document.verifiedAt d' = Some (now env)
     /\ Document.rejectionReason d'
        = (if isRejected (in_status input)
           then match in_rejectionReason input with
                | Some reason => Some reason
                | None => Document.rejectionReason d
                end
           else None)
     /\ adminActivityLogs (snd run) = (adminActivityLogs db ++ [entry])%list
     /\ AdminActivityLog.action entry
        = (if isRejected (in_status input) then "REJECT_DOCUMENT" else "APPROVE_DOCUMENT"))
  /\ (forall adminId2 env2,
         let run1 := updateDocumentStatus id adminId (statusBody "APPROVED" None) env db in
         let run2 :=
           updateDocumentStatus id adminId2 (statusBody "APPROVED" None) env2 (snd run1) in
         exists entry1 entry2,
           succeeds run1 /\ succeeds run2
           /\ option_map Document.verificationStatus (findDocumentById id (snd run2))
              = Some DocumentVerificationStatus.APPROVED
           /\ adminActivityLogs (snd run2)
              = (adminActivityLogs db ++ [entry1; entry2])%list
           /\ AdminActivityLog.action entry1 = "APPROVE_DOCUMENT"
           /\ AdminActivityLog.action entry2 = "APPROVE_DOCUMENT").
Proof.
  intros Hbody Hdoc Howner. split.
  - intros run.
    destruct (updateDocumentStatus_runs db id adminId body env input d owner
                Hbody Hdoc Howner) as (text & entry & Hrun & _ & _ & Haction).
    subst run. rewrite Hrun. cbn [snd].
    exists (reviewDocument input (now env) d), entry.
    split; [eexists; reflexivity |].
    split.
    { change (findDocumentById id (with_adminActivityLogs ?f ?x))
        with (findDocumentById id x).
      rewrite (findDocumentById_reviewed id input (now env) db d id Hdoc).
      apply find_some in Hdoc. destruct Hdoc as [_ ->]. reflexivity. }
    repeat split; try reflexivity.
    rewrite Haction.
    destruct (updateDocumentStatusSchema_status _ _ Hbody) as [-> | ->]; reflexivity.
  - intros adminId2 env2 run1 run2.
    destruct (updateDocumentStatus_runs db id adminId (statusBody "APPROVED" None) env _ d owner
                eq_refl Hdoc Howner) as (text1 & entry1 & Hrun1 & _ & _ & Haction1).
    subst run2 run1. rewrite Hrun1. cbn [snd].
    set (approve := mkUpdateDocumentStatusInput DocumentVerificationStatus.APPROVED None) in *.
    set (db1 := with_adminActivityLogs _ _).
    assert (Hdoc1 : findDocumentById id db1 = Some (reviewDocument approve (now env) d)).
    { subst db1.
      change (findDocumentById id (with_adminActivityLogs ?f ?x))
        with (findDocumentById id x).
      rewrite (findDocumentById_reviewed id approve (now env) db d id Hdoc).
      apply find_some in Hdoc. destruct Hdoc as [_ ->]. reflexivity. }
    destruct (updateDocumentStatus_runs db1 id adminId2 (statusBody "APPROVED" None) env2 _
                _ owner eq_refl Hdoc1 Howner) as (text2 & entry2 & Hrun2 & _ & _ & Haction2).
    rewrite Hrun2. cbn [snd].
    exists entry1, entry2.
    split; [eexists; reflexivity |]. split; [eexists; reflexivity |].
    split.
    { change (findDocumentById id (with_adminActivityLogs ?f ?x))
        with (findDocumentById id x).
      rewrite (findDocumentById_reviewed id _ (now env2) db1 _ id Hdoc1).
      apply find_some in Hdoc. destruct Hdoc as [_ Hid].
      cbn [reviewDocument Document.id]. rewrite Hid. reflexivity. }
    split; [| auto].
    subst db1. cbn. now rewrite <- app_assoc.
Qed.

Lemma jsonStrings_strings ids : jsonStrings (map JStr ids) = inr ids.
Proof.
  induction ids as [| id ids IH]; simpl; [reflexivity |]. now rewrite IH.
Qed.

Lemma bulkApproveBody_parses ids :
  bulkApproveSchema (bulkApproveBody ids)
  = match ids with
    | [] => inl "Array must contain at least 1 element(s)"
    | _ :: _ => inr ids
    end.
Proof.
  unfold bulkApproveSchema, bulkApproveBody. cbn [prop].
  rewrite String.eqb_refl, jsonStrings_strings. now destruct ids.
Qed.

Lemma unique_id_same_row (rows : list Document.t) a b :
  NoDup (map Document.id rows) -> In a rows -> In b rows ->
  Document.id a = Document.id b -> a = b.
Proof.
  induction rows as [| r rows IH]; simpl; [tauto |].
  intros Hnodup Ha Hb Hid. inversion Hnodup as [| ? ? Hfresh Hrest]; subst.
  destruct Ha as [-> | Ha], Hb as [-> | Hb]; auto.
  - exfalso. apply Hfresh. rewrite Hid. now apply in_map.
  - exfalso. apply Hfresh. rewrite <- Hid. now apply in_map.
Qed.

Lemma idIn_spec ids d : idIn ids d = true <-> In (Document.id d) ids.
Proof.
  unfold idIn. rewrite existsb_exists. split.
  - intros (x & Hin & Heq). apply String.eqb_eq in Heq. now subst.
  - intros Hin. exists (Document.id d). split; [assumption | apply String.eqb_refl].
Qed.

(** Under the primary key, re-selecting by the ids of the pending matches
    selects those matches and nothing else. *)
Lemma idIn_pending_ids rows ids d :
  NoDup (map Document.id rows) -> In d rows ->
  idIn (map Document.id (filter (fun r => idIn ids r && isPending r) rows)) d
  = idIn ids d && isPending d.
Proof.
  intros Hnodup Hin.
  destruct (idIn ids d && isPending d) eqn:Hsel.
  - apply idIn_spec. apply in_map. apply filter_In. auto.
  - destruct (idIn (map Document.id _) d) eqn:Hre; [| reflexivity].
    apply idIn_spec, in_map_iff in Hre. destruct Hre as (r & Hid & Hr).
    apply filter_In in Hr. destruct Hr as [Hr Hrsel].
    assert (r = d) by (eapply unique_id_same_row; eauto).
    subst r. congruence.
Qed.

(** C6.  For a list of ids, bulk approval rewrites exactly the documents
    that are listed and PENDING: each of them gets status APPROVED and the
    time of the request as its verification time and keeps every other
    column; every other row stays as it was.  It reports the number of
    documents approved and appends one BULK_APPROVE audit row carrying that
    number and their ids; when no listed document is PENDING it answers 400
    BAD_REQUEST and writes nothing. *)
Theorem bulkApproveDocuments_selection db adminId ids env :
  NoDup (map Document.id (documents db)) ->
  let chosen := fun d => idIn ids d && isPending d in
  let pending := filter chosen (documents db) in
  let run := bulkApproveDocuments adminId (bulkApproveBody ids) env db in
  (pending = [] -> failsBadRequest run /\ snd run = db)
  /\ (pending <> [] ->
      exists response entry,
        fst run = Ok response
        /\ ba_approvedCount response = Z.of_nat (List.length pending)
        /\ Forall2
             (fun d d' =>
                if chosen d
                then Document.verificationStatus d' = DocumentVerificationStatus.APPROVED
                     /\ Document.verifiedAt d' = Some (now env)
                     /\ Document.id d' = Document.id d
                     /\ Document.clientId d' = Document.clientId d
                     /\ Document.fileName d' = Document.fileName d
                     /\ Document.fileUrl d' = Document.fileUrl d
                     /\ Document.fileKey d' = Document.fileKey d
                     /\ Document.fileType d' = Document.fileType d
                     /\ Document.fileSize d' = Document.fileSize d
                     /\ Document.category d' = Document.category d
                     /\ Document.rejectionReason d' = Document.rejectionReason d
                     /\ Document.uploadedAt d' = Document.uploadedAt d
                else d' = d)
             (documents db) (documents (snd run))
        /\ adminActivityLogs (snd run) = (adminActivityLogs db ++ [entry])%list
        /\ AdminActivityLog.adminId entry = adminId
        /\ AdminActivityLog.action entry = "BULK_APPROVE"
        /\ AdminActivityLog.details entry
           = Some (JObj [("count", JNum (Z.of_nat (List.length pending)));
                         ("documentIds", JArr (map JStr (map Document.id pending)))])).
Proof.
  intros Hnodup chosen pending run. subst run.
  unfold bulkApproveDocuments. rewrite bulkApproveBody_parses.
  destruct ids as [| id0 ids'].
  { split; [intros _; split; [eexists |]; reflexivity |].
    intros Hne. exfalso. apply Hne. subst pending chosen. clear.
    induction (documents db) as [| d rows IH]; simpl; auto. }
  set (ids := id0 :: ids') in *.
  unfold updateDocumentsWhere, logAdminActivity. monad. fold chosen. fold pending.
  split.
  - intros Hempty. rewrite Hempty. simpl. split; [eexists |]; reflexivity.
  - intros Hne.
    assert (Hlen : Nat.eqb (List.length pending) 0 = false)
      by (destruct pending; [congruence | reflexivity]).
    rewrite Hlen. cbn [fst snd].
    eexists. eexists. split; [reflexivity |].
    split; [reflexivity |]. split.
    { cbn [documents with_adminActivityLogs with_documents].
      assert (Hrows : forall rows,
                 (forall d, In d rows -> In d (documents db)) ->
                 Forall2
                   (fun d d' =>
                      if chosen d
                      then Document.verificationStatus d'
                           = DocumentVerificationStatus.APPROVED
                           /\ Document.verifiedAt d' = Some (now env)
                           /\ Document.id d' = Document.id d
                           /\ Document.clientId d' = Document.clientId d
                           /\ Document.fileName d' = Document.fileName d
                           /\ Document.fileUrl d' = Document.fileUrl d
                           /\ Document.fileKey d' = Document.fileKey d
                           /\ Document.fileType d' = Document.fileType d
                           /\ Document.fileSize d' = Document.fileSize d
                           /\ Document.category d' = Document.category d
                           /\ Document.rejectionReason d' = Document.rejectionReason d
                           /\ Document.uploadedAt d' = Document.uploadedAt d
                      else d' = d)
                   rows
                   (map (fun d => if idIn (map Document.id pending) d
                                  then approveDocument (now env) d else d) rows)).
      { induction rows as [| d rows IH]; intros Hsub; cbn [map]; constructor.
        - cbv beta. unfold pending, chosen.
          rewrite (idIn_pending_ids (documents db) ids d Hnodup)
            by (apply Hsub; now left).
          destruct (idIn ids d && isPending d); [| reflexivity].
          cbn. repeat split; reflexivity.
        - apply IH. intros d' Hd'. apply Hsub. now right. }
      apply Hrows. auto. }
    split; [reflexivity |]. split; [reflexivity |]. split; reflexivity.
Qed.

(** C5 fails as stated: document B is APPROVED; a REJECTED request on it
    succeeds and leaves it REJECTED. *)
Lemma approved_document_becomes_rejected :
  let run := updateDocumentStatus "B" "adm" (statusBody "REJECTED" (Some "blurred scan"))
               (Sample.envAt 9000 "r") Sample.review in
  option_map Document.verificationStatus (findDocumentById "B" Sample.review)
  = Some DocumentVerificationStatus.APPROVED
  /\ succeeds run
  /\ option_map Document.verificationStatus (findDocumentById "B" (snd run))
     = Some DocumentVerificationStatus.REJECTED.
Proof.
  split; [reflexivity |]. split; [eexists |]; vm_compute; reflexivity.
Qed.

Lemma document_status_transitions_witness :
  (exists d',
      findDocumentById "B"
        (updateDocumentStatusAll
           [mkStatusRequest "B" "adm" (statusBody "PENDING" None) (Sample.envAt 9000 "r");
            mkStatusRequest "B" "adm" (statusBody "REJECTED" None) (Sample.envAt 9100 "q")]
           Sample.review) = Some d'
      /\ Document.verificationStatus d' <> DocumentVerificationStatus.PENDING)
  /\ (let run := updateDocumentStatus "B" "adm" (statusBody "REJECTED" None)
                   (Sample.envAt 9000 "r") Sample.review in
      succeeds run
      /\ option_map Document.verificationStatus (findDocumentById "B" (snd run))
         = Some (if String.eqb "REJECTED" "APPROVED"
                 then DocumentVerificationStatus.APPROVED
                 else DocumentVerificationStatus.REJECTED)).
Proof.
  split.
  - apply (proj1 document_status_transitions _ Sample.review "B"
             (Sample.document "B" DocumentVerificationStatus.APPROVED)).
    + reflexivity.
    + simpl. discriminate.
  - apply (proj2 document_status_transitions Sample.review "B" "adm" (Sample.envAt 9000 "r")
             (Sample.document "B" DocumentVerificationStatus.APPROVED) Sample.alice
             "REJECTED" None).
    + reflexivity.
    + reflexivity.
    + right. reflexivity.
Defined.

Lemma updateDocumentStatus_effect_witness :
  exists d' entry,
    succeeds (updateDocumentStatus "A" "adm" (statusBody "REJECTED" (Some "blurred scan"))
                (Sample.envAt 9000 "r") Sample.review)
    /\ findDocumentById "A"
         (snd (updateDocumentStatus "A" "adm" (statusBody "REJECTED" (Some "blurred scan"))
                 (Sample.envAt 9000 "r") Sample.review)) = Some d'
    /\ Document.verificationStatus d' = DocumentVerificationStatus.REJECTED
    /\ Document.verifiedAt d' = Some 9000
    /\ Document.rejectionReason d' = Some "blurred scan"
    /\ adminActivityLogs
         (snd (updateDocumentStatus "A" "adm" (statusBody "REJECTED" (Some "blurred scan"))
                 (Sample.envAt 9000 "r") Sample.review)) = [entry]
    /\ AdminActivityLog.action entry = "REJECT_DOCUMENT".
Proof.
  apply (proj1 (updateDocumentStatus_effect Sample.review "A" "adm"
                  (statusBody "REJECTED" (Some "blurred scan")) (Sample.envAt 9000 "r")
                  (mkUpdateDocumentStatusInput DocumentVerificationStatus.REJECTED
                     (Some "blurred scan"))
                  (Sample.document "A" DocumentVerificationStatus.PENDING) Sample.alice
                  eq_refl eq_refl eq_refl)).
Defined.

Lemma bulkApproveDocuments_selection_witness :
  (let run := bulkApproveDocuments "adm" (bulkApproveBody ["A"; "B"; "C"])
                (Sample.envAt 9000 "r") Sample.review in
   (exists response entry,
       fst run = Ok response
       /\ ba_approvedCount response = 2
       /\ Forall2
            (fun d d' =>
               if idIn ["A"; "B"; "C"] d && isPending d
               then Document.verificationStatus d' = DocumentVerificationStatus.APPROVED
                    /\ Document.verifiedAt d' = Some 9000
                    /\ Document.id d' = Document.id d
                    /\ Document.clientId d' = Document.clientId d
                    /\ Document.fileName d' = Document.fileName d
                    /\ Document.fileUrl d' = Document.fileUrl d
                    /\ Document.fileKey d' = Document.fileKey d
                    /\ Document.fileType d' = Document.fileType d
                    /\ Document.fileSize d' = Document.fileSize d
                    /\ Document.category d' = Document.category d
                    /\ Document.rejectionReason d' = Document.rejectionReason d
                    /\ Document.uploadedAt d' = Document.uploadedAt d
               else d' = d)
            (documents Sample.review) (documents (snd run))
       /\ adminActivityLogs (snd run) = [entry]
       /\ AdminActivityLog.adminId entry = "adm"
       /\ AdminActivityLog.action entry = "BULK_APPROVE"
       /\ AdminActivityLog.details entry
          = Some (JObj [("count", JNum 2); ("documentIds", JArr [JStr "A"; JStr "C"])]))
   /\ map (fun d => (Document.id d, Document.verificationStatus d, Document.verifiedAt d))
        (documents (snd run))
      = [("A", DocumentVerificationStatus.APPROVED, Some 9000);
         ("B", DocumentVerificationStatus.APPROVED, None);
         ("C", DocumentVerificationStatus.APPROVED, Some 9000)])
  /\ (let run := bulkApproveDocuments "adm" (bulkApproveBody ["B"; "Z"])
                   (Sample.envAt 9000 "r") Sample.review in
      failsBadRequest run /\ snd run = Sample.review).
Proof.
  split; [split |].
  - apply (proj2 (bulkApproveDocuments_selection Sample.review "adm" ["A"; "B"; "C"]
                    (Sample.envAt 9000 "r")
                    ltac:(repeat constructor; simpl; intuition discriminate))).
    simpl. discriminate.
  - reflexivity.
  - apply (proj1 (bulkApproveDocuments_selection Sample.review "adm" ["B"; "Z"]
                    (Sample.envAt 9000 "r")
                    ltac:(repeat constructor; simpl; intuition discriminate))).
    reflexivity.
Defined.

(** ** Authentication: C1, C8, C9, C10 *)

Lemma lowerChar_idempotent c : lowerChar (lowerChar c) = lowerChar c.
Proof.
  destruct c as [[] [] [] [] [] [] [] []]; reflexivity.
Qed.

Lemma toLowerCase_idempotent s : toLowerCase (toLowerCase s) = toLowerCase s.
Proof.
  induction s as [| c s IH]; simpl; [reflexivity |].
  now rewrite lowerChar_idempotent, IH.
Qed.

Section TokenTables.
Variable table : Db -> list TokenRow.t.
Variable withTable : (list TokenRow.t -> list TokenRow.t) -> Db -> Db.

Lemma createTokenRow_fresh row db :
  findTokenRow (TokenRow.token row) (table db) = None ->
  createTokenRow table withTable row db
  = (Ok tt, withTable (fun rows => (rows ++ [row])%list) db).
Proof.
  intros Hfresh. unfold createTokenRow. monad. now rewrite Hfresh.
Qed.

Lemma createTokenRow_outcome row db :
  createTokenRow table withTable row db
  = (Ok tt, withTable (fun rows => (rows ++ [row])%list) db)
  \/ createTokenRow table withTable row db
     = (Throw (PrismaKnownRequestError "P2002" (Some "token")
                 "Unique constraint failed on the fields: (`token`)"), db).
Proof.
  unfold createTokenRow. monad.
  destruct (findTokenRow _ _); auto.
Qed.
End TokenTables.

Lemma findTokenRow_filter_none token keep rows :
  findTokenRow token rows = None -> findTokenRow token (filter keep rows) = None.
Proof.
  unfold findTokenRow. induction rows as [| r rows IH]; simpl; [reflexivity |].
  destruct (String.eqb (TokenRow.token r) token) eqn:E; [discriminate |].
  intros H. destruct (keep r); simpl; [rewrite E |]; auto.
Qed.

(** C8.  A forgot-password request for a registered address and one for an
    unknown address are answered with the same body: both succeed (the
    first as long as the random reset token is not already stored), with
    the same success flag and the same message. *)
Theorem forgotPassword_same_response db1 db2 known unknown env1 env2 client :
  findClientByEmail (toLowerCase known) db1 = Some client ->
  findClientByEmail (toLowerCase unknown) db2 = None ->
  findTokenRow (randomHex env1) (passwordResetTokens db1) = None ->
  exists response,
    fst (forgotPassword known env1 db1) = Ok response
    /\ fst (forgotPassword unknown env2 db2) = Ok response
    /\ success response = true.
Proof.
  intros Hknown Hunknown Hfresh. unfold forgotPassword. monad.
  rewrite Hknown, Hunknown.
  rewrite (createTokenRow_fresh passwordResetTokens with_passwordResetTokens).
  - unfold sendEmail. monad. eexists. repeat split; reflexivity.
  - cbn. now apply findTokenRow_filter_none.
Qed.

Ltac createTokenRow_cases :=
  match goal with
  | |- context [createTokenRow ?t ?w ?row ?db] =>
      let E := fresh "Hcreate" in
      destruct (createTokenRow_outcome t w row db) as [E | E]; rewrite E; clear E
  end.

(** What a signup request does to the [clients] table. *)
Lemma signup_clients {R : Runtime} db email password firstName lastName env :
  let run := signup email password firstName lastName env db in
  (clients (snd run) = clients db /\ forall response, fst run <> Ok response)
  \/ exists client,
       clients (snd run) = (clients db ++ [client])%list
       /\ Client.email client = toLowerCase email
       /\ forall response, fst run = Ok response -> su_email response = toLowerCase email.
Proof.
  unfold signup. monad.
  destruct (findClientByEmail (toLowerCase email) db) as [taken |].
  { left. split; [reflexivity | discriminate]. }
  right. eexists. createTokenRow_cases.
  - createTokenRow_cases.
    + unfold sendEmail. monad. cbn. split; [reflexivity |]. split; [reflexivity |].
      now intros response [= <-].
    + cbn. split; [reflexivity |]. split; [reflexivity | discriminate].
  - cbn. split; [reflexivity |]. split; [reflexivity | discriminate].
Qed.

(** A signup for an address that is not registered, when the refresh token
    it signs and the verification token it draws are new. *)
Lemma signup_runs {R : Runtime} db email password firstName lastName env :
  findClientByEmail (toLowerCase email) db = None ->
  findTokenRow (generateRefreshToken (freshId env 0) (toLowerCase email) (now env))
    (refreshTokens db) = None ->
  findTokenRow (randomHex env) (emailVerificationTokens db) = None ->
  let client :=
    Client.mk (freshId env 0) (toLowerCase email) (hashPassword password (bcryptSalt env))
      firstName lastName None None None false Role.USER in
  signup email password firstName lastName env db
  = (Ok (mkSignupResponse (freshId env 0) (toLowerCase email) firstName lastName
           (mkTokens (generateAccessToken (freshId env 0) (toLowerCase email) (now env))
              (generateRefreshToken (freshId env 0) (toLowerCase email) (now env)))),
     mkDb (clients db ++ [client])
       (refreshTokens db
          ++ [TokenRow.mk (freshId env 2)
                (generateRefreshToken (freshId env 0) (toLowerCase email) (now env))
                (freshId env 0) (getRefreshTokenExpiry (now env))])
       (passwordResetTokens db)
       (emailVerificationTokens db
          ++ [TokenRow.mk (freshId env 3) (randomHex env) (freshId env 0)
                (now env + 24 * 60 * 60 * 1000)])
       (onboardingSteps db)
       (onboardingProgress db
          ++ [OnboardingProgress.mk (freshId env 1) (freshId env 0) 1
                OnboardingStatus.PENDING None])
       (stepProgress db) (documents db) (adminActivityLogs db)
       (outbox db ++ [Email.mk (toLowerCase email) firstName (randomHex env)
                        Email.Verification]))%list.
Proof.
  intros Hnew Hrefresh Hrandom client. unfold signup. monad. rewrite Hnew.
  rewrite (createTokenRow_fresh refreshTokens with_refreshTokens) by exact Hrefresh.
  rewrite (createTokenRow_fresh emailVerificationTokens with_emailVerificationTokens)
    by exact Hrandom.
  unfold sendEmail. monad. reflexivity.
Qed.

(** C10.  Signup stores the address in lower case: a signup for an address
    that is not registered yet succeeds (the tokens it signs and draws
    being new), answers with the lower-cased address and adds one client
    whose email is the lower-cased input, found afterwards under that
    address; no signup, served or refused, stores anything else, and a table
    of lower-case addresses stays one.  Login looks the address up in lower
    case, so a login with an address and a login with its lower-cased form
    are the same request: one succeeds exactly when the other does. *)
Theorem email_case_insensitive {R : Runtime} :
  (forall db email password firstName lastName env,
      findClientByEmail (toLowerCase email) db = None ->
      findTokenRow (generateRefreshToken (freshId env 0) (toLowerCase email) (now env))
        (refreshTokens db) = None ->
      findTokenRow (randomHex env) (emailVerificationTokens db) = None ->
      let run := signup email password firstName lastName env db in
      exists response client,
        fst run = Ok response
        /\ su_email response = toLowerCase email
        /\ clients (snd run) = (clients db ++ [client])%list
        /\ Client.email client = toLowerCase email
        /\ findClientByEmail (toLowerCase email) (snd run) = Some client)
  /\ (forall db email password firstName lastName env,
         let run := signup email password firstName lastName env db in
         (forall response,
             fst run = Ok response ->
             su_email response = toLowerCase email
             /\ exists client,
                  clients (snd run) = (clients db ++ [client])%list
                  /\ Client.email client = toLowerCase email)
         /\ (Forall emailLowercased (clients db) ->
             Forall emailLowercased (clients (snd run))))
  /\ (forall db email password env,
         login email password env db = login (toLowerCase email) password env db
         /\ (succeeds (login email password env db)
             <-> succeeds (login (toLowerCase email) password env db))).
Proof.
  split; [| split].
  - intros db email password firstName lastName env Hnew Hrefresh Hrandom run.
    subst run.
    rewrite (signup_runs db email password firstName lastName env Hnew Hrefresh Hrandom).
    cbn [fst snd clients su_email].
    eexists. eexists. split; [reflexivity |]. split; [reflexivity |].
    split; [reflexivity |]. split; [reflexivity |].
    unfold findClientByEmail in *. cbn [clients].
    apply find_append_new; [exact Hnew | apply String.eqb_refl].
  - intros db email password firstName lastName env run.
    destruct (signup_clients db email password firstName lastName env)
      as [[Hsame Hfails] | (client & Hrows & Hemail & Hresponse)].
    + split; [intros response Hok; now apply Hfails in Hok |].
      subst run. now rewrite Hsame.
    + subst run. split.
      * intros response Hok. split; [auto | eauto].
      * intros Hall. rewrite Hrows. apply Forall_app. split; [assumption |].
        constructor; [| constructor].
        unfold emailLowercased. rewrite Hemail. apply toLowerCase_idempotent.
  - intros db email password env.
    assert (Heq : login email password env db
                  = login (toLowerCase email) password env db)
      by (unfold login; now rewrite toLowerCase_idempotent).
    split; [exact Heq | now rewrite Heq].
Qed.

Lemma unique_token_same_row (rows : list TokenRow.t) a b :
  NoDup (map TokenRow.token rows) -> In a rows -> In b rows ->
  TokenRow.token a = TokenRow.token b -> a = b.
Proof.
  induction rows as [| r rows IH]; simpl; [tauto |].
  intros Hnodup Ha Hb Htoken. inversion Hnodup as [| ? ? Hfresh Hrest]; subst.
  destruct Ha as [-> | Ha], Hb as [-> | Hb]; auto.
  - exfalso. apply Hfresh. rewrite Htoken. now apply in_map.
  - exfalso. apply Hfresh. rewrite <- Htoken. now apply in_map.
Qed.

Lemma findTokenRow_some token rows row :
  findTokenRow token rows = Some row -> In row rows /\ TokenRow.token row = token.
Proof.
  unfold findTokenRow. intros H. apply find_some in H.
  now rewrite String.eqb_eq in H.
Qed.

(** Under the unique index on [token], a client's token is gone once the
    client's rows are deleted. *)
Lemma findTokenRow_deleteManyByClient rows row :
  NoDup (map TokenRow.token rows) -> In row rows ->
  findTokenRow (TokenRow.token row) (deleteManyByClient (TokenRow.clientId row) rows) = None.
Proof.
  intros Hnodup Hin.
  destruct (findTokenRow _ _) as [other |] eqn:Hfound; [| reflexivity].
  apply findTokenRow_some in Hfound. destruct Hfound as [Hother Htoken].
  unfold deleteManyByClient in Hother. apply filter_In in Hother.
  destruct Hother as [Hother Hkept].
  assert (other = row) by (eapply unique_token_same_row; eauto). subst other.
  unfold ownedBy in Hkept. now rewrite String.eqb_refl in Hkept.
Qed.

(** A refresh request with a token that has no row is answered 401, and
    nothing is written. *)
Lemma refresh_unknown_token {R : Runtime} token env db :
  findTokenRow token (refreshTokens db) = None ->
  failsWith 401 (refresh token env db) /\ snd (refresh token env db) = db.
Proof.
  intros Hnone. unfold refresh, failsWith. monad.
  destruct (verifyRefreshToken token (now env)) as [payload | |];
    [| split; [intros ?|]; reflexivity ..].
  destruct (String.eqb (TokenPayload.type payload) "refresh"); cbn [negb].
  - rewrite Hnone. split; [intros ? |]; reflexivity.
  - split; [intros ? |]; reflexivity.
Qed.

(** C9.  After a successful password reset no refresh token and no reset
    token of that client is left, so every refresh token the client held
    before the reset is answered 401 when presented to [refresh]. *)
Theorem resetPassword_revokes_sessions {R : Runtime} db token password env response db' :
  resetPassword token password env db = (Ok response, db') ->
  exists resetRow,
    findTokenRow token (passwordResetTokens db) = Some resetRow
    /\ (forall r, In r (refreshTokens db') ->
                  TokenRow.clientId r <> TokenRow.clientId resetRow)
    /\ (forall r, In r (passwordResetTokens db') ->
                  TokenRow.clientId r <> TokenRow.clientId resetRow)
    /\ (NoDup (map TokenRow.token (refreshTokens db)) ->
        forall held env2,
          In held (refreshTokens db) ->
          TokenRow.clientId held = TokenRow.clientId resetRow ->
          failsWith 401 (refresh (TokenRow.token held) env2 db')).
Proof.
  unfold resetPassword, updateClientById. monad.
  destruct (findTokenRow token (passwordResetTokens db)) as [resetRow |];
    [| discriminate].
  destruct (TokenRow.expiresAt resetRow <? now env); [discriminate |].
  destruct (findClientById (TokenRow.clientId resetRow) db) as [client |];
    [| discriminate].
  intros [= _ <-]. exists resetRow. split; [reflexivity |].
  assert (Hkept : forall rows r,
             In r (deleteManyByClient (TokenRow.clientId resetRow) rows) ->
             TokenRow.clientId r <> TokenRow.clientId resetRow).
  { intros rows r Hr Heq. unfold deleteManyByClient in Hr.
    apply filter_In in Hr. destruct Hr as [_ Hr].
    unfold ownedBy in Hr. rewrite Heq, String.eqb_refl in Hr. discriminate. }
  split; [apply Hkept |]. split; [apply Hkept |].
  intros Hnodup held env2 Hheld Howner.
  apply refresh_unknown_token. cbn. rewrite <- Howner.
  now apply findTokenRow_deleteManyByClient.
Qed.

Lemma findTokenRow_deleteById rows token row :
  NoDup (map TokenRow.token rows) ->
  findTokenRow token rows = Some row ->
  findTokenRow token (deleteById (TokenRow.id row) rows) = None.
Proof.
  intros Hnodup Hrow. apply findTokenRow_some in Hrow. destruct Hrow as [Hin Htoken].
  destruct (findTokenRow token (deleteById _ rows)) as [other |] eqn:Hfound; [| reflexivity].
  apply findTokenRow_some in Hfound. destruct Hfound as [Hother Htoken'].
  unfold deleteById in Hother. apply filter_In in Hother. destruct Hother as [Hother Hkept].
  assert (other = row) by (eapply unique_token_same_row; eauto; congruence). subst other.
  unfold hasId in Hkept. now rewrite String.eqb_refl in Hkept.
Qed.

Lemma findTokenRow_append token rows row :
  findTokenRow token (rows ++ [row])
  = match findTokenRow token rows with
    | Some found => Some found
    | None => if String.eqb (TokenRow.token row) token then Some row else None
    end.
Proof.
  unfold findTokenRow. induction rows as [| r rows IH]; simpl; [reflexivity |].
  destruct (String.eqb (TokenRow.token r) token); auto.
Qed.

(** One served refresh request: the presented row is deleted and a row for
    the newly signed token is appended. *)
Lemma refresh_runs {R : Runtime} db env token row owner payload :
  verifyRefreshToken token (now env) = Decoded payload ->
  TokenPayload.type payload = "refresh" ->
  findTokenRow token (refreshTokens db) = Some row ->
  now env <= TokenRow.expiresAt row ->
  findClientById (TokenRow.clientId row) db = Some owner ->
  let issued := generateRefreshToken (Client.id owner) (Client.email owner) (now env) in
  findTokenRow issued (deleteById (TokenRow.id row) (refreshTokens db)) = None ->
  refresh token env db
  = (Ok (mkTokens (generateAccessToken (Client.id owner) (Client.email owner) (now env))
           issued),
     with_refreshTokens
       (fun rows =>
          (deleteById (TokenRow.id row) rows
             ++ [TokenRow.mk (freshId env 0) issued (Client.id owner)
                   (getRefreshTokenExpiry (now env))])%list)
       db).
Proof.
  intros Hverify Htype Hrow Hlive Howner issued Hfresh.
  unfold refresh. monad. rewrite Hverify, Htype, String.eqb_refl.
  cbn [negb]. rewrite Hrow, Howner.
  replace (TokenRow.expiresAt row <? now env) with false
    by (symmetry; apply Z.ltb_ge; lia).
  rewrite (createTokenRow_fresh refreshTokens with_refreshTokens) by exact Hfresh.
  destruct db; reflexivity.
Qed.

(** A refresh request with an expired row deletes the row and is answered
    401. *)
Lemma refresh_expired_token {R : Runtime} db env token row payload :
  verifyRefreshToken token (now env) = Decoded payload ->
  TokenPayload.type payload = "refresh" ->
  findTokenRow token (refreshTokens db) = Some row ->
  TokenRow.expiresAt row < now env ->
  failsWith 401 (refresh token env db)
  /\ refreshTokens (snd (refresh token env db))
     = deleteById (TokenRow.id row) (refreshTokens db).
Proof.
  intros Hverify Htype Hrow Hexpired.
  unfold refresh, failsWith. monad. rewrite Hverify, Htype, String.eqb_refl.
  cbn [negb]. rewrite Hrow.
  replace (TokenRow.expiresAt row <? now env) with true
    by (symmetry; apply Z.ltb_lt; lia).
  split; [intros ? |]; reflexivity.
Qed.

(** Rotation: when the newly signed token differs from the presented one,
    the presented token is consumed, the new one is stored, and a replay of
    the presented token is answered 401. *)
Lemma refresh_rotates {R : Runtime} db env token row owner payload :
  NoDup (map TokenRow.token (refreshTokens db)) ->
  verifyRefreshToken token (now env) = Decoded payload ->
  TokenPayload.type payload = "refresh" ->
  findTokenRow token (refreshTokens db) = Some row ->
  now env <= TokenRow.expiresAt row ->
  findClientById (TokenRow.clientId row) db = Some owner ->
  let issued := generateRefreshToken (Client.id owner) (Client.email owner) (now env) in
  issued <> token ->
  findTokenRow issued (refreshTokens db) = None ->
  exists tokens db',
    refresh token env db = (Ok tokens, db')
    /\ refreshToken tokens = issued
    /\ findTokenRow token (refreshTokens db') = None
    /\ (exists stored, findTokenRow issued (refreshTokens db') = Some stored)
    /\ forall env2, failsWith 401 (refresh token env2 db').
Proof.
  intros Hnodup Hverify Htype Hrow Hlive Howner issued Hnew Hfree.
  assert (Hfresh : findTokenRow issued (deleteById (TokenRow.id row) (refreshTokens db))
                   = None) by now apply findTokenRow_filter_none.
  pose proof (refresh_runs db env token row owner payload Hverify Htype Hrow Hlive Howner
                Hfresh) as Hrun.
  fold issued in Hrun. eexists. eexists. split; [exact Hrun |].
  cbn [refreshTokens with_refreshTokens refreshToken].
  assert (Hgone : findTokenRow token
                    (deleteById (TokenRow.id row) (refreshTokens db)
                       ++ [TokenRow.mk (freshId env 0) issued (Client.id owner)
                             (getRefreshTokenExpiry (now env))]) = None).
  { rewrite findTokenRow_append, (findTokenRow_deleteById _ _ _ Hnodup Hrow).
    cbn [TokenRow.token].
    destruct (String.eqb issued token) eqn:E; [| reflexivity].
    apply String.eqb_eq in E. contradiction. }
  split; [reflexivity |]. split; [exact Hgone |]. split.
  - rewrite findTokenRow_append, Hfresh. cbn [TokenRow.token].
    rewrite String.eqb_refl. eauto.
  - intros env2. now apply refresh_unknown_token.
Qed.

(** C1 fails on the code.  jsonwebtoken stamps tokens in whole seconds, and
    [refresh] signs the same payload again: a refresh request served within
    the clock second in which the presented token was issued returns that
    very token and stores it again, so the presented token is not consumed. *)
Theorem refresh_within_issuing_second `{R : Runtime} db env token row owner payload issuedAt :
  signsBySecond R ->
  NoDup (map TokenRow.token (refreshTokens db)) ->
  findTokenRow token (refreshTokens db) = Some row ->
  findClientById (TokenRow.clientId row) db = Some owner ->
  token = generateRefreshToken (Client.id owner) (Client.email owner) issuedAt ->
  issuedAt / 1000 = now env / 1000 ->
  now env <= TokenRow.expiresAt row ->
  verifyRefreshToken token (now env) = Decoded payload ->
  TokenPayload.type payload = "refresh" ->
  exists tokens db' again,
    refresh token env db = (Ok tokens, db')
    /\ refreshToken tokens = token
    /\ findTokenRow token (refreshTokens db') = Some again.
Proof.
  intros Hsign Hnodup Hrow Howner Hissued Hsecond Hlive Hverify Htype.
  assert (Hsame : generateRefreshToken (Client.id owner) (Client.email owner) (now env)
                  = token).
  { rewrite Hissued. unfold generateRefreshToken. symmetry. now apply Hsign. }
  assert (Hfresh : findTokenRow
                     (generateRefreshToken (Client.id owner) (Client.email owner) (now env))
                     (deleteById (TokenRow.id row) (refreshTokens db)) = None)
    by (rewrite Hsame; now apply findTokenRow_deleteById).
  pose proof (refresh_runs db env token row owner payload Hverify Htype Hrow Hlive Howner
                Hfresh) as Hrun.
  rewrite Hsame in Hrun. rewrite Hsame in Hfresh.
  eexists. eexists. eexists. split; [exact Hrun |]. split; [reflexivity |].
  cbn [refreshTokens with_refreshTokens].
  rewrite findTokenRow_append, Hfresh. cbn [TokenRow.token]. now rewrite String.eqb_refl.
Qed.

Lemma plainRuntime_signsBySecond : signsBySecond plainRuntime.
Proof.
  intros payload secret expiresIn clock1 clock2 Hsecond. cbn. unfold plainSign.
  now rewrite Hsecond.
Qed.

Lemma refresh_within_issuing_second_witness :
  exists tokens db' again,
    refresh (R := plainRuntime) Sample.aliceToken
      (Sample.envAt (Sample.loginClock + 400) "r2") Sample.session = (Ok tokens, db')
    /\ refreshToken tokens = Sample.aliceToken
    /\ findTokenRow Sample.aliceToken (refreshTokens db') = Some again.
Proof.
  apply (refresh_within_issuing_second (R := plainRuntime) Sample.session
           (Sample.envAt (Sample.loginClock + 400) "r2") Sample.aliceToken
           (TokenRow.mk "r1-0" Sample.aliceToken "c1" 1000604800500) Sample.alice
           (TokenPayload.mk "c1" "a@b.com" "refresh") Sample.loginClock
           plainRuntime_signsBySecond).
  - repeat constructor. simpl. tauto.
  - reflexivity.
  - reflexivity.
  - reflexivity.
  - reflexivity.
  - vm_compute. discriminate.
  - reflexivity.
  - reflexivity.
Defined.

(** The scenario of C1 run to its end: login, a refresh within the same
    second, and a replay of the first token a minute later.  Both refresh
    requests succeed, and the first returns the token it was given. *)
Example refresh_replay_is_served :
  let first := refresh (R := plainRuntime) Sample.aliceToken
                 (Sample.envAt (Sample.loginClock + 400) "r2") Sample.session in
  let replay := refresh (R := plainRuntime) Sample.aliceToken
                  (Sample.envAt (Sample.loginClock + 60000) "r3") (snd first) in
  findTokenRow Sample.aliceToken (refreshTokens Sample.session)
  = Some (TokenRow.mk "r1-0" Sample.aliceToken "c1" 1000604800500)
  /\ (exists tokens, fst first = Ok tokens /\ refreshToken tokens = Sample.aliceToken)
  /\ succeeds replay.
Proof.
  split; [reflexivity |]. split; eexists; [split |]; vm_compute; reflexivity.
Qed.

Lemma forgotPassword_same_response_witness :
  exists response,
    fst (forgotPassword "A@B.com" (Sample.envAt 2000 "r1") Sample.registered) = Ok response
    /\ fst (forgotPassword "nobody@b.com" (Sample.envAt 3000 "r2") Sample.registered)
       = Ok response
    /\ success response = true.
Proof.
  apply (forgotPassword_same_response Sample.registered Sample.registered "A@B.com"
           "nobody@b.com" (Sample.envAt 2000 "r1") (Sample.envAt 3000 "r2") Sample.alice).
  - reflexivity.
  - reflexivity.
  - reflexivity.
Defined.

Lemma resetPassword_revokes_sessions_witness :
  let run := resetPassword (R := plainRuntime) "reset-1" "NewPass123"
               (Sample.envAt 1000000000000 "r1") Sample.resetting in
  exists resetRow,
    findTokenRow "reset-1" (passwordResetTokens Sample.resetting) = Some resetRow
    /\ (forall r, In r (refreshTokens (snd run)) ->
                  TokenRow.clientId r <> TokenRow.clientId resetRow)
    /\ (forall r, In r (passwordResetTokens (snd run)) ->
                  TokenRow.clientId r <> TokenRow.clientId resetRow)
    /\ (NoDup (map TokenRow.token (refreshTokens Sample.resetting)) ->
        forall held env2,
          In held (refreshTokens Sample.resetting) ->
          TokenRow.clientId held = TokenRow.clientId resetRow ->
          failsWith 401 (refresh (R := plainRuntime) (TokenRow.token held) env2
                           (snd run))).
Proof.
  apply (resetPassword_revokes_sessions (R := plainRuntime) Sample.resetting "reset-1"
           "NewPass123" (Sample.envAt 1000000000000 "r1")
           (mkMessageResponse true
              "Password reset successfully. Please log in with your new password.")).
  vm_compute. reflexivity.
Defined.

Lemma email_case_insensitive_witness :
  (let run := signup (R := plainRuntime) "A@B.com" "Secure123" "A" "B"
                (Sample.envAt 1000 "r1") Sample.empty in
   (exists response client,
       fst run = Ok response
       /\ su_email response = toLowerCase "A@B.com"
       /\ clients (snd run) = (clients Sample.empty ++ [client])%list
       /\ Client.email client = toLowerCase "A@B.com"
       /\ findClientByEmail (toLowerCase "A@B.com") (snd run) = Some client)
   /\ map Client.email (clients (snd run)) = ["a@b.com"]
   /\ (forall response,
          fst run = Ok response ->
          su_email response = "a@b.com"
          /\ exists client,
               clients (snd run) = [client] /\ Client.email client = "a@b.com")
   /\ (Forall emailLowercased (clients Sample.empty) ->
       Forall emailLowercased (clients (snd run))))
  /\ (login (R := plainRuntime) "A@B.com" "Secure123" (Sample.envAt 2000 "r2")
        Sample.registered
      = login (R := plainRuntime) "a@b.com" "Secure123" (Sample.envAt 2000 "r2")
          Sample.registered
      /\ (succeeds (login (R := plainRuntime) "A@B.com" "Secure123"
                      (Sample.envAt 2000 "r2") Sample.registered)
          <-> succeeds (login (R := plainRuntime) "a@b.com" "Secure123"
                          (Sample.envAt 2000 "r2") Sample.registered))).
Proof.
  split; [split; [| split] |].
  - apply (proj1 (email_case_insensitive (R := plainRuntime)) Sample.empty "A@B.com"
             "Secure123" "A" "B" (Sample.envAt 1000 "r1")); reflexivity.
  - reflexivity.
  - apply (proj1 (proj2 (email_case_insensitive (R := plainRuntime))) Sample.empty
             "A@B.com" "Secure123" "A" "B" (Sample.envAt 1000 "r1")).
  - apply (proj2 (proj2 (email_case_insensitive (R := plainRuntime))) Sample.registered
             "A@B.com" "Secure123" (Sample.envAt 2000 "r2")).
Defined.

(** * Properties of the rest of the backend *)

From Stdlib Require Import Permutation Sorted DecimalPos.

(** ** Logout and e-mail verification *)

Lemma findTokenRow_filter_some token keep rows row :
  findTokenRow token (filter keep rows) = Some row ->
  In row rows /\ keep row = true /\ TokenRow.token row = token.
Proof.
  intros H. apply findTokenRow_some in H. destruct H as [Hin Htoken].
  apply filter_In in Hin. tauto.
Qed.

Lemma stringColumn_string s : s <> EmptyString -> stringColumn (Some (JStr s)) = Ok (Some s).
Proof.
  intros Hs. unfold stringColumn. cbn [truthy].
  destruct (String.eqb s EmptyString) eqn:E; [apply String.eqb_eq in E; contradiction | reflexivity].
Qed.

(** The refresh tokens a logout leaves. *)
Lemma logout_runs body client db presented :
  stringColumn (prop "refreshToken" body) = Ok presented ->
  logout body client db
  = (Ok (mkMessageResponse true "Logged out successfully"),
     with_refreshTokens
       (fun rows =>
          filter (fun r => match client with
                           | Some c => negb (ownedBy (ac_id c) r)
                           | None => true
                           end)
            (filter (fun r => match presented with
                              | Some token => negb (String.eqb (TokenRow.token r) token)
                              | None => true
                              end) rows))
       db).
Proof.
  intros Hbody. unfold logout. monad. rewrite Hbody.
  assert (Hid : forall rows : list TokenRow.t, filter (fun _ => true) rows = rows).
  { induction rows as [| r rows IH]; simpl; congruence. }
  destruct db, presented as [token |], client as [c |];
    unfold with_refreshTokens, deleteManyByToken, deleteManyByClient; cbn -[filter];
    rewrite ?Hid; reflexivity.
Qed.

(** X1.  Logout with a refresh token in the body succeeds and leaves no row
    for that token, so presenting it to [refresh] afterwards is answered 401;
    an authenticated logout also leaves no refresh token of that client, so
    (under the unique index) every token the client held is answered 401;
    a token of another client that was not presented stays stored. *)
Theorem logout_revokes {R : Runtime} body client db token :
  prop "refreshToken" body = Some (JStr token) -> token <> EmptyString ->
  let run := logout body client db in
  succeeds run
  /\ findTokenRow token (refreshTokens (snd run)) = None
  /\ (forall env, failsWith 401 (refresh token env (snd run)))
  /\ (forall c, client = Some c ->
        (forall r, In r (refreshTokens (snd run)) -> TokenRow.clientId r <> ac_id c)
        /\ (NoDup (map TokenRow.token (refreshTokens db)) ->
            forall held env,
              In held (refreshTokens db) -> TokenRow.clientId held = ac_id c ->
              failsWith 401 (refresh (TokenRow.token held) env (snd run))))
  /\ (forall other,
        In other (refreshTokens db) -> TokenRow.token other <> token ->
        (forall c, client = Some c -> TokenRow.clientId other <> ac_id c) ->
        In other (refreshTokens (snd run))).
Proof.
  intros Hbody Htoken run. subst run.
  rewrite (logout_runs body client db (Some token))
    by (rewrite Hbody; now apply stringColumn_string).
  cbn [fst snd refreshTokens with_refreshTokens].
  assert (Hgone : findTokenRow token
                    (filter (fun r => match client with
                                      | Some c => negb (ownedBy (ac_id c) r)
                                      | None => true
                                      end)
                       (filter (fun r => negb (String.eqb (TokenRow.token r) token))
                          (refreshTokens db))) = None).
  { destruct (findTokenRow token _) as [row |] eqn:Hfound; [| reflexivity].
    apply findTokenRow_filter_some in Hfound. destruct Hfound as (Hin & _ & Hrow).
    apply filter_In in Hin. destruct Hin as [_ Hkept].
    rewrite Hrow, String.eqb_refl in Hkept. discriminate. }
  split; [eexists; reflexivity |]. split; [exact Hgone |]. split.
  { intros env. apply refresh_unknown_token. exact Hgone. }
  split.
  - intros c ->. split.
    + intros r Hr. apply filter_In in Hr. destruct Hr as [_ Hkept].
      intros Heq. unfold ownedBy in Hkept. rewrite Heq, String.eqb_refl in Hkept.
      discriminate.
    + intros Hnodup held env Hheld Howner. apply refresh_unknown_token.
      cbn [refreshTokens with_refreshTokens].
      destruct (findTokenRow (TokenRow.token held) _) as [row |] eqn:Hfound; [| reflexivity].
      apply findTokenRow_filter_some in Hfound. destruct Hfound as (Hin & Hkept & Hrow).
      apply filter_In in Hin. destruct Hin as [Hin _].
      assert (row = held) by (eapply unique_token_same_row; eauto). subst row.
      unfold ownedBy in Hkept. rewrite Howner, String.eqb_refl in Hkept. discriminate.
  - intros other Hother Hdiff Hforeign. apply filter_In. split.
    + apply filter_In. split; [assumption |].
      apply negb_true_iff, String.eqb_neq. assumption.
    + destruct client as [c |]; [| reflexivity].
      apply negb_true_iff, String.eqb_neq. now apply Hforeign.
Qed.

Lemma findClientById_id id db client :
  findClientById id db = Some client -> Client.id client = id.
Proof.
  unfold findClientById. intros H. apply find_some in H.
  now apply String.eqb_eq.
Qed.

Lemma filter_ownedBy_deleteManyByClient clientId rows :
  filter (ownedBy clientId) (deleteManyByClient clientId rows) = [].
Proof.
  unfold deleteManyByClient. induction rows as [| r rows IH]; simpl; [reflexivity |].
  destruct (ownedBy clientId r) eqn:E; simpl; [| rewrite E]; exact IH.
Qed.

(** A verification mail goes out to an unverified client: the client's
    older tokens are dropped and one new token is stored and mailed. *)
Lemma sendVerificationEmail_runs db clientId client env :
  findClientById clientId db = Some client ->
  Client.emailVerified client = false ->
  findTokenRow (randomHex env) (emailVerificationTokens db) = None ->
  sendVerificationEmail clientId env db
  = (Ok (mkMessageResponse true "Verification email sent successfully."),
     with_outbox
       (fun sent =>
          (sent ++ [Email.mk (Client.email client) (Client.firstName client) (randomHex env)
                      Email.Verification])%list)
       (with_emailVerificationTokens
          (fun rows =>
             (deleteManyByClient clientId rows
                ++ [TokenRow.mk (freshId env 0) (randomHex env) clientId
                      (now env + 24 * 60 * 60 * 1000)])%list)
          db)).
Proof.
  intros Hclient Hunverified Hfresh.
  pose proof (findClientById_id _ _ _ Hclient) as Hid.
  unfold sendVerificationEmail. monad. rewrite Hclient, Hunverified, Hid.
  rewrite (createTokenRow_fresh emailVerificationTokens with_emailVerificationTokens)
    by (cbn; now apply findTokenRow_filter_none).
  unfold sendEmail. monad. destruct db; reflexivity.
Qed.

(** A stored, unexpired verification token of an existing client is
    consumed. *)
Lemma verifyEmail_runs db token row owner env :
  findTokenRow token (emailVerificationTokens db) = Some row ->
  now env <= TokenRow.expiresAt row ->
  findClientById (TokenRow.clientId row) db = Some owner ->
  verifyEmail token env db
  = (Ok (mkMessageResponse true "Email verified successfully."),
     with_emailVerificationTokens (deleteManyByClient (TokenRow.clientId row))
       (with_clients
          (map (fun c => if String.eqb (Client.id c) (TokenRow.clientId row)
                         then setEmailVerified c else c))
          db)).
Proof.
  intros Hrow Hlive Howner. unfold verifyEmail, updateClientById. monad.
  rewrite Hrow.
  replace (TokenRow.expiresAt row <? now env) with false
    by (symmetry; apply Z.ltb_ge; lia).
  rewrite Howner. reflexivity.
Qed.

(** X2.  The verification round trip: for an unverified client a
    verification mail is sent carrying a fresh token, which replaces every
    older token of the client; presenting that token within 24 hours marks
    the client verified and consumes the token, so presenting it again is
    answered 400, and so is a further request for a verification mail. *)
Theorem email_verification_round_trip db clientId client env env2 :
  findClientById clientId db = Some client ->
  Client.emailVerified client = false ->
  findTokenRow (randomHex env) (emailVerificationTokens db) = None ->
  now env2 <= now env + 24 * 60 * 60 * 1000 ->
  let sent := sendVerificationEmail clientId env db in
  let verified := verifyEmail (randomHex env) env2 (snd sent) in
  succeeds sent
  /\ filter (ownedBy clientId) (emailVerificationTokens (snd sent))
     = [TokenRow.mk (freshId env 0) (randomHex env) clientId (now env + 24 * 60 * 60 * 1000)]
  /\ outbox (snd sent)
     = (outbox db ++ [Email.mk (Client.email client) (Client.firstName client)
                        (randomHex env) Email.Verification])%list
  /\ succeeds verified
  /\ option_map Client.emailVerified (findClientById clientId (snd verified)) = Some true
  /\ filter (ownedBy clientId) (emailVerificationTokens (snd verified)) = []
  /\ (forall env3, failsBadRequest (verifyEmail (randomHex env) env3 (snd verified)))
  /\ (forall env4, failsBadRequest (sendVerificationEmail clientId env4 (snd verified))).
Proof.
  intros Hclient Hunverified Hfresh Hlive sent verified.
  pose proof (findClientById_id _ _ _ Hclient) as Hid.
  set (row := TokenRow.mk (freshId env 0) (randomHex env) clientId
                (now env + 24 * 60 * 60 * 1000)).
  assert (Hsent : sent = _) by exact (sendVerificationEmail_runs db clientId client env
                                        Hclient Hunverified Hfresh).
  set (db1 := snd sent).
  assert (Hrows1 : emailVerificationTokens db1
                   = (deleteManyByClient clientId (emailVerificationTokens db) ++ [row])%list)
    by (subst db1; rewrite Hsent; reflexivity).
  assert (Hclient1 : findClientById clientId db1 = Some client)
    by (subst db1; rewrite Hsent; exact Hclient).
  assert (Hfound1 : findTokenRow (randomHex env) (emailVerificationTokens db1) = Some row).
  { rewrite Hrows1, findTokenRow_append.
    unfold deleteManyByClient.
    rewrite (findTokenRow_filter_none _ _ _ Hfresh). cbn. now rewrite String.eqb_refl. }
  assert (Hverified : verified = _)
    by exact (verifyEmail_runs db1 (randomHex env) row client env2 Hfound1 Hlive Hclient1).
  cbn [TokenRow.clientId row] in Hverified.
  set (db2 := snd verified).
  assert (Hrows2 : emailVerificationTokens db2
                   = deleteManyByClient clientId (emailVerificationTokens db1))
    by (subst db2; rewrite Hverified; reflexivity).
  assert (Hclient2 : findClientById clientId db2 = Some (setEmailVerified client)).
  { subst db2. rewrite Hverified. unfold findClientById in *. cbn.
    rewrite (find_update (fun c => String.eqb (Client.id c) clientId)
               (fun c => String.eqb (Client.id c) clientId) setEmailVerified
               (fun _ => eq_refl) _ _ Hclient1).
    now rewrite Hid, String.eqb_refl. }
  split; [rewrite Hsent; eexists; reflexivity |].
  split.
  { rewrite Hrows1, filter_app, filter_ownedBy_deleteManyByClient. cbn.
    unfold ownedBy. cbn. now rewrite String.eqb_refl. }
  split; [subst db1; rewrite Hsent; reflexivity |].
  split; [rewrite Hverified; eexists; reflexivity |].
  split; [now rewrite Hclient2 |].
  split; [rewrite Hrows2; apply filter_ownedBy_deleteManyByClient |].
  split.
  - intros env3. unfold failsBadRequest, verifyEmail. monad.
    assert (Hgone : findTokenRow (randomHex env) (emailVerificationTokens db2) = None).
    { rewrite Hrows2.
      destruct (findTokenRow (randomHex env)
                  (deleteManyByClient clientId (emailVerificationTokens db1)))
        as [other |] eqn:Hother; [| reflexivity].
      apply findTokenRow_filter_some in Hother. destruct Hother as (Hin & Hkept & Htoken).
      rewrite Hrows1 in Hin. apply in_app_or in Hin. destruct Hin as [Hin | [<- | []]].
      - apply filter_In in Hin. destruct Hin as [Hin _].
        unfold findTokenRow in Hfresh. apply (find_none _ _ Hfresh) in Hin.
        rewrite Htoken, String.eqb_refl in Hin. discriminate.
      - unfold ownedBy in Hkept. cbn in Hkept. rewrite String.eqb_refl in Hkept.
        discriminate. }
    rewrite Hgone. eexists. reflexivity.
  - intros env4. unfold failsBadRequest, sendVerificationEmail. monad.
    rewrite Hclient2. cbn. eexists. reflexivity.
Qed.

(** X3.  An expired verification token is refused with 400 and its row is
    deleted; the client is not marked verified and no other row is touched. *)
Theorem verifyEmail_expired db token row env :
  findTokenRow token (emailVerificationTokens db) = Some row ->
  TokenRow.expiresAt row < now env ->
  let run := verifyEmail token env db in
  fst run = Throw (errors.badRequest "Verification token has expired")
  /\ snd run = with_emailVerificationTokens (deleteById (TokenRow.id row)) db
  /\ clients (snd run) = clients db
  /\ (NoDup (map TokenRow.token (emailVerificationTokens db)) ->
      forall env2, failsBadRequest (verifyEmail token env2 (snd run))).
Proof.
  intros Hrow Hexpired run. subst run. unfold verifyEmail. monad. rewrite Hrow.
  replace (TokenRow.expiresAt row <? now env) with true
    by (symmetry; apply Z.ltb_lt; lia).
  cbn [fst snd]. repeat split.
  intros Hnodup env2. unfold failsBadRequest. monad. cbn [emailVerificationTokens
    with_emailVerificationTokens].
  rewrite (findTokenRow_deleteById _ _ _ Hnodup Hrow). eexists. reflexivity.
Qed.

(** ** Password reset, login and signup *)

Lemma in_findClientById c db :
  In c (clients db) -> exists found, findClientById (Client.id c) db = Some found.
Proof.
  unfold findClientById. intros Hin.
  destruct (find _ (clients db)) as [found |] eqn:E; [eauto |].
  apply (find_none _ _ E) in Hin. now rewrite String.eqb_refl in Hin.
Qed.

Lemma findClientByEmail_in email db c :
  findClientByEmail email db = Some c -> In c (clients db) /\ Client.email c = email.
Proof.
  unfold findClientByEmail. intros H. apply find_some in H.
  now rewrite String.eqb_eq in H.
Qed.

(** A reset mail goes out to a registered address. *)
Lemma forgotPassword_runs db email client env :
  findClientByEmail (toLowerCase email) db = Some client ->
  findTokenRow (randomHex env) (passwordResetTokens db) = None ->
  forgotPassword email env db
  = (Ok (mkMessageResponse true
           "If an account with that email exists, a password reset link has been sent."),
     with_outbox
       (fun sent =>
          (sent ++ [Email.mk (Client.email client) (Client.firstName client) (randomHex env)
                      Email.PasswordReset])%list)
       (with_passwordResetTokens
          (fun rows =>
             (deleteManyByClient (Client.id client) rows
                ++ [TokenRow.mk (freshId env 0) (randomHex env) (Client.id client)
                      (now env + 60 * 60 * 1000)])%list)
          db)).
Proof.
  intros Hclient Hfresh. unfold forgotPassword. monad. rewrite Hclient.
  rewrite (createTokenRow_fresh passwordResetTokens with_passwordResetTokens)
    by (cbn; now apply findTokenRow_filter_none).
  unfold sendEmail. monad. destruct db; reflexivity.
Qed.

(** A stored, unexpired reset token of an existing client is consumed. *)
Lemma resetPassword_runs {R : Runtime} db token password row owner env :
  findTokenRow token (passwordResetTokens db) = Some row ->
  now env <= TokenRow.expiresAt row ->
  findClientById (TokenRow.clientId row) db = Some owner ->
  resetPassword token password env db
  = (Ok (mkMessageResponse true
           "Password reset successfully. Please log in with your new password."),
     with_refreshTokens (deleteManyByClient (TokenRow.clientId row))
       (with_passwordResetTokens (deleteManyByClient (TokenRow.clientId row))
          (with_clients
             (map (fun c => if String.eqb (Client.id c) (TokenRow.clientId row)
                            then setPasswordHash (hashPassword password (bcryptSalt env)) c
                            else c))
             db))).
Proof.
  intros Hrow Hlive Howner. unfold resetPassword, updateClientById. monad.
  rewrite Hrow.
  replace (TokenRow.expiresAt row <? now env) with false
    by (symmetry; apply Z.ltb_ge; lia).
  rewrite Howner. reflexivity.
Qed.

(** A login with the right password stores the refresh token it signs. *)
Lemma login_runs {R : Runtime} db email password client env :
  findClientByEmail (toLowerCase email) db = Some client ->
  comparePassword password (Client.passwordHash client) = true ->
  findTokenRow (generateRefreshToken (Client.id client) (Client.email client) (now env))
    (refreshTokens db) = None ->
  login email password env db
  = (Ok (mkLoginResponse (Client.id client) (Client.email client) (Client.firstName client)
           (Client.lastName client) (Client.companyName client) (Client.avatarUrl client)
           (mkTokens
              (generateAccessToken (Client.id client) (Client.email client) (now env))
              (generateRefreshToken (Client.id client) (Client.email client) (now env)))),
     with_refreshTokens
       (fun rows =>
          (rows ++ [TokenRow.mk (freshId env 0)
                      (generateRefreshToken (Client.id client) (Client.email client) (now env))
                      (Client.id client) (getRefreshTokenExpiry (now env))])%list)
       db).
Proof.
  intros Hclient Hpassword Hfresh. unfold login. monad.
  rewrite Hclient, Hpassword. cbn [negb].
  rewrite (createTokenRow_fresh refreshTokens with_refreshTokens) by exact Hfresh.
  reflexivity.
Qed.

(** X4.  The password-reset round trip: a forgot-password request for a
    registered address stores one reset token for the client and mails it;
    presenting that token within the hour sets the client's password hash
    to the hash of the new password and consumes the token, so a second
    reset with it is answered 400; and a login with the new password is then
    served (bcrypt accepting the password it hashed, and the refresh token
    signed at login being new). *)
Theorem password_reset_round_trip {R : Runtime} db email client env env2 newPassword :
  bcryptAccepts R ->
  findClientByEmail (toLowerCase email) db = Some client ->
  findTokenRow (randomHex env) (passwordResetTokens db) = None ->
  now env2 <= now env + 60 * 60 * 1000 ->
  let requested := forgotPassword email env db in
  let reset := resetPassword (randomHex env) newPassword env2 (snd requested) in
  succeeds requested
  /\ filter (ownedBy (Client.id client)) (passwordResetTokens (snd requested))
     = [TokenRow.mk (freshId env 0) (randomHex env) (Client.id client)
          (now env + 60 * 60 * 1000)]
  /\ succeeds reset
  /\ option_map Client.passwordHash (findClientByEmail (toLowerCase email) (snd reset))
     = Some (hashPassword newPassword (bcryptSalt env2))
  /\ (forall password env3, failsBadRequest (resetPassword (randomHex env) password env3
                                               (snd reset)))
  /\ (forall env4,
        findTokenRow (generateRefreshToken (Client.id client) (Client.email client)
                        (now env4)) (refreshTokens (snd reset)) = None ->
        exists response,
          fst (login email newPassword env4 (snd reset)) = Ok response
          /\ li_id response = Client.id client).
Proof.
  intros Hbcrypt Hclient Hfresh Hlive requested reset.
  destruct (findClientByEmail_in _ _ _ Hclient) as [Hin Hemail].
  destruct (in_findClientById _ _ Hin) as (owner & Howner).
  set (row := TokenRow.mk (freshId env 0) (randomHex env) (Client.id client)
                (now env + 60 * 60 * 1000)).
  assert (Hrequested : requested = _)
    by exact (forgotPassword_runs db email client env Hclient Hfresh).
  set (db1 := snd requested).
  assert (Hrows1 : passwordResetTokens db1
                   = (deleteManyByClient (Client.id client) (passwordResetTokens db)
                        ++ [row])%list)
    by (subst db1; rewrite Hrequested; reflexivity).
  assert (Hfound1 : findTokenRow (randomHex env) (passwordResetTokens db1) = Some row).
  { rewrite Hrows1, findTokenRow_append. unfold deleteManyByClient.
    rewrite (findTokenRow_filter_none _ _ _ Hfresh). cbn. now rewrite String.eqb_refl. }
  assert (Howner1 : findClientById (Client.id client) db1 = Some owner)
    by (subst db1; rewrite Hrequested; exact Howner).
  assert (Hreset : reset = _)
    by exact (resetPassword_runs db1 (randomHex env) newPassword row owner env2
                Hfound1 Hlive Howner1).
  cbn [TokenRow.clientId row] in Hreset.
  set (db2 := snd reset).
  set (client2 := setPasswordHash (hashPassword newPassword (bcryptSalt env2)) client).
  assert (Hclient2 : findClientByEmail (toLowerCase email) db2 = Some client2).
  { subst db2. rewrite Hreset. unfold findClientByEmail in *. cbn.
    assert (Hclient1 : find (fun c => String.eqb (Client.email c) (toLowerCase email))
                         (clients db1) = Some client)
      by (subst db1; rewrite Hrequested; exact Hclient).
    rewrite (find_update (fun c => String.eqb (Client.email c) (toLowerCase email))
               (fun c => String.eqb (Client.id c) (Client.id client))
               (setPasswordHash (hashPassword newPassword (bcryptSalt env2)))
               (fun _ => eq_refl) _ _ Hclient1).
    now rewrite String.eqb_refl. }
  split; [rewrite Hrequested; eexists; reflexivity |].
  split.
  { rewrite Hrows1, filter_app, filter_ownedBy_deleteManyByClient. cbn.
    unfold ownedBy. cbn. now rewrite String.eqb_refl. }
  split; [rewrite Hreset; eexists; reflexivity |].
  split; [now rewrite Hclient2 |].
  split.
  - intros password env3. unfold failsBadRequest, resetPassword. monad.
    assert (Hgone : findTokenRow (randomHex env) (passwordResetTokens db2) = None).
    { subst db2. rewrite Hreset. cbn [snd passwordResetTokens with_refreshTokens
        with_passwordResetTokens with_clients]. rewrite Hrows1.
      destruct (findTokenRow (randomHex env)
                  (deleteManyByClient (Client.id client)
                     (deleteManyByClient (Client.id client) (passwordResetTokens db)
                        ++ [row])))
        as [other |] eqn:Hother; [| reflexivity].
      apply findTokenRow_filter_some in Hother. destruct Hother as (Hother & Hkept & Htoken).
      apply in_app_or in Hother. destruct Hother as [Hother | [<- | []]].
      - apply filter_In in Hother. destruct Hother as [Hother _].
        unfold findTokenRow in Hfresh. apply (find_none _ _ Hfresh) in Hother.
        rewrite Htoken, String.eqb_refl in Hother. discriminate.
      - unfold ownedBy in Hkept. cbn in Hkept. rewrite String.eqb_refl in Hkept.
        discriminate. }
    rewrite Hgone. eexists. reflexivity.
  - intros env4 Hnew.
    rewrite (login_runs db2 email newPassword client2 env4 Hclient2).
    + eexists. split; reflexivity.
    + cbn. apply Hbcrypt.
    + exact Hnew.
Qed.

(** X5.  A reset request with a token that has no row is answered 400 and
    writes nothing; with an expired token it is answered 400 and only that
    token's row is deleted: the password and the refresh tokens stay. *)
Theorem resetPassword_refusals {R : Runtime} db token password env :
  (findTokenRow token (passwordResetTokens db) = None ->
   resetPassword token password env db
   = (Throw (errors.badRequest "Invalid or expired reset token"), db))
  /\ (forall row,
        findTokenRow token (passwordResetTokens db) = Some row ->
        TokenRow.expiresAt row < now env ->
        resetPassword token password env db
        = (Throw (errors.badRequest "Reset token has expired"),
           with_passwordResetTokens (deleteById (TokenRow.id row)) db)).
Proof.
  split.
  - intros Hnone. unfold resetPassword. monad. now rewrite Hnone.
  - intros row Hrow Hexpired. unfold resetPassword. monad. rewrite Hrow.
    replace (TokenRow.expiresAt row <? now env) with true
      by (symmetry; apply Z.ltb_lt; lia).
    reflexivity.
Qed.

(** X6.  Login answers an unknown address and a wrong password alike: 401
    with the same code and message, and nothing is written. *)
Theorem login_refusals {R : Runtime} db email password env :
  findClientByEmail (toLowerCase email) db = None
  \/ (exists client,
        findClientByEmail (toLowerCase email) db = Some client
        /\ comparePassword password (Client.passwordHash client) = false) ->
  login email password env db
  = (Throw (errors.unauthorized "Invalid email or password"), db).
Proof.
  intros [Hnone | (client & Hclient & Hwrong)]; unfold login; monad.
  - now rewrite Hnone.
  - now rewrite Hclient, Hwrong.
Qed.

(** X7.  An address is registered once, whatever its letter case: after a
    successful signup, a signup whose address has the same lower-case form is
    answered 409 CONFLICT and writes nothing. *)
Theorem signup_duplicate {R : Runtime} db email password firstName lastName env response db' :
  signup email password firstName lastName env db = (Ok response, db') ->
  forall email2 password2 firstName2 lastName2 env2,
    toLowerCase email2 = toLowerCase email ->
    signup email2 password2 firstName2 lastName2 env2 db'
    = (Throw (errors.conflict "Email already registered"), db').
Proof.
  intros Hsignup email2 password2 firstName2 lastName2 env2 Hsame.
  assert (Hnew : findClientByEmail (toLowerCase email) db = None).
  { unfold signup in Hsignup. revert Hsignup. monad.
    destruct (findClientByEmail (toLowerCase email) db); [discriminate | reflexivity]. }
  destruct (signup_clients db email password firstName lastName env)
    as [[_ Hfails] | (client & Hrows & Hemail & _)].
  { rewrite Hsignup in Hfails. exfalso. now apply (Hfails response). }
  rewrite Hsignup in Hrows. cbn [snd] in Hrows.
  unfold signup. monad. rewrite Hsame.
  assert (Hfound : findClientByEmail (toLowerCase email) db' = Some client).
  { unfold findClientByEmail in *. rewrite Hrows. apply find_append_new; [exact Hnew |].
    rewrite Hemail. apply String.eqb_refl. }
  now rewrite Hfound.
Qed.

(** X8.  Signup and login fit together: after a successful signup, a login
    with the same password and an address of the same lower-case form is
    served and names the client that signup created (bcrypt accepting the
    password it hashed, and the refresh token signed at login being new). *)
Theorem signup_then_login {R : Runtime} db email password firstName lastName env response db' :
  bcryptAccepts R ->
  signup email password firstName lastName env db = (Ok response, db') ->
  forall email2 env2,
    toLowerCase email2 = toLowerCase email ->
    findTokenRow (generateRefreshToken (su_id response) (su_email response) (now env2))
      (refreshTokens db') = None ->
    exists session,
      fst (login email2 password env2 db') = Ok session
      /\ li_id session = su_id response
      /\ li_email session = toLowerCase email
      /\ findTokenRow (refreshToken (li_tokens session))
           (refreshTokens (snd (login email2 password env2 db')))
         <> None.
Proof.
  intros Hbcrypt Hsignup email2 env2 Hsame Hfresh.
  assert (Hnew : findClientByEmail (toLowerCase email) db = None).
  { unfold signup in Hsignup. revert Hsignup. monad.
    destruct (findClientByEmail (toLowerCase email) db); [discriminate | reflexivity]. }
  set (client := Client.mk (freshId env 0) (toLowerCase email)
                   (hashPassword password (bcryptSalt env)) firstName lastName
                   None None None false Role.USER).
  assert (Hshape : clients db' = (clients db ++ [client])%list
                   /\ su_id response = freshId env 0
                   /\ su_email response = toLowerCase email).
  { unfold signup in Hsignup. revert Hsignup. monad. rewrite Hnew.
    createTokenRow_cases; [| discriminate].
    createTokenRow_cases; [| discriminate].
    unfold sendEmail. monad. intros [= <- <-]. repeat split. }
  destruct Hshape as (Hrows & Hid & Hmail). rewrite Hid, Hmail in Hfresh.
  assert (Hfound : findClientByEmail (toLowerCase email2) db' = Some client).
  { rewrite Hsame. unfold findClientByEmail in *. rewrite Hrows.
    apply find_append_new; [exact Hnew | apply String.eqb_refl]. }
  rewrite (login_runs db' email2 password client env2 Hfound (Hbcrypt _ _ _) Hfresh).
  eexists. split; [reflexivity |]. cbn [li_id li_email li_tokens refreshToken fst snd Client.id
    Client.email client]. repeat split; auto.
  cbn [refreshTokens with_refreshTokens]. rewrite findTokenRow_append.
  destruct (findTokenRow _ (refreshTokens db')); [discriminate |].
  cbn. rewrite String.eqb_refl. discriminate.
Qed.

(** ** Invariants: how a controller is shown to keep one *)

Section Preservation.
Variable inv : Db -> Prop.

Lemma preserves_ret {A} (a : A) : preserves inv (ret a).
Proof. intros db H. exact H. Qed.

Lemma preserves_throw {A} (e : Exn) : preserves inv (throw (A := A) e).
Proof. intros db H. exact H. Qed.

Lemma preserves_gets {A} (f : Db -> A) : preserves inv (gets f).
Proof. intros db H. exact H. Qed.

Lemma preserves_liftOutcome {A} (o : Outcome A) : preserves inv (liftOutcome o).
Proof. intros db H. exact H. Qed.

Lemma preserves_modify (f : Db -> Db) :
  (forall db, inv db -> inv (f db)) -> preserves inv (modify f).
Proof. intros Hf db H. now apply Hf. Qed.

Lemma preserves_bind {A B} (m : M A) (k : A -> M B) :
  preserves inv m -> (forall a, preserves inv (k a)) -> preserves inv (bind m k).
Proof.
  intros Hm Hk db H. unfold bind. specialize (Hm db H).
  destruct (m db) as [[a | e] db1]; cbn in *; [now apply Hk | exact Hm].
Qed.

Lemma preserves_when (b : bool) (m : M unit) :
  preserves inv m -> preserves inv (when_ b m).
Proof. intros Hm. destruct b; [exact Hm | apply preserves_ret]. Qed.

Lemma preserves_orThrow {A} (o : option A) (e : Exn) : preserves inv (orThrow o e).
Proof. destruct o; [apply preserves_ret | apply preserves_throw]. Qed.
End Preservation.

(** Breaks a controller into its steps; what is left are the writes. *)
Ltac preserve :=
  repeat match goal with
    | |- preserves _ (ret _) => apply preserves_ret
    | |- preserves _ (throw _) => apply preserves_throw
    | |- preserves _ (gets _) => apply preserves_gets
    | |- preserves _ (liftOutcome _) => apply preserves_liftOutcome
    | |- preserves _ (orThrow _ _) => apply preserves_orThrow
    | |- preserves _ (when_ _ _) => apply preserves_when
    | |- preserves _ (bind _ _) => apply preserves_bind; [| intros ?]
    | |- preserves _ (match ?x with _ => _ end) => destruct x
    end.

Lemma NoDup_map_filter {A B} (f : A -> B) (keep : A -> bool) (rows : list A) :
  NoDup (map f rows) -> NoDup (map f (filter keep rows)).
Proof.
  induction rows as [| r rows IH]; simpl; [auto |].
  intros Hnodup. inversion Hnodup as [| ? ? Hfresh Hrest]; subst.
  destruct (keep r); simpl; [| auto].
  constructor; [| auto].
  intros Hin. apply Hfresh. apply in_map_iff in Hin. destruct Hin as (x & Hx & Hin).
  apply filter_In in Hin. rewrite <- Hx. apply in_map. tauto.
Qed.

Lemma NoDup_tokens_append rows row :
  NoDup (map TokenRow.token rows) ->
  findTokenRow (TokenRow.token row) rows = None ->
  NoDup (map TokenRow.token (rows ++ [row])).
Proof.
  intros Hnodup Hfresh. rewrite map_app. cbn.
  apply NoDup_app; [exact Hnodup | repeat constructor; simpl; tauto |].
  intros token Hin [<- | []].
  apply in_map_iff in Hin. destruct Hin as (x & Hx & Hin).
  unfold findTokenRow in Hfresh. apply (find_none _ _ Hfresh) in Hin.
  rewrite Hx, String.eqb_refl in Hin. discriminate.
Qed.

Lemma uniqueTokens_createTokenRow_refresh row :
  preserves uniqueTokens (createTokenRow refreshTokens with_refreshTokens row).
Proof.
  intros db (Hr & Hp & Hv). unfold createTokenRow. monad.
  destruct (findTokenRow _ (refreshTokens db)) eqn:E; cbn; [repeat split; auto |].
  repeat split; auto. now apply NoDup_tokens_append.
Qed.

Lemma uniqueTokens_createTokenRow_reset row :
  preserves uniqueTokens (createTokenRow passwordResetTokens with_passwordResetTokens row).
Proof.
  intros db (Hr & Hp & Hv). unfold createTokenRow. monad.
  destruct (findTokenRow _ (passwordResetTokens db)) eqn:E; cbn; [repeat split; auto |].
  repeat split; auto. now apply NoDup_tokens_append.
Qed.

Lemma uniqueTokens_createTokenRow_verification row :
  preserves uniqueTokens
    (createTokenRow emailVerificationTokens with_emailVerificationTokens row).
Proof.
  intros db (Hr & Hp & Hv). unfold createTokenRow. monad.
  destruct (findTokenRow _ (emailVerificationTokens db)) eqn:E; cbn; [repeat split; auto |].
  repeat split; auto. now apply NoDup_tokens_append.
Qed.

Lemma uniqueTokens_filter keepR keepP keepV db :
  uniqueTokens db ->
  uniqueTokens
    (with_refreshTokens (filter keepR)
       (with_passwordResetTokens (filter keepP)
          (with_emailVerificationTokens (filter keepV) db))).
Proof.
  intros (Hr & Hp & Hv). repeat split; cbn; now apply NoDup_map_filter.
Qed.

(** Writes that leave the three token tables alone, or only delete rows. *)
Ltac uniqueTokens_writes :=
  match goal with
  | |- preserves uniqueTokens (createTokenRow refreshTokens _ _) =>
      apply uniqueTokens_createTokenRow_refresh
  | |- preserves uniqueTokens (createTokenRow passwordResetTokens _ _) =>
      apply uniqueTokens_createTokenRow_reset
  | |- preserves uniqueTokens (createTokenRow emailVerificationTokens _ _) =>
      apply uniqueTokens_createTokenRow_verification
  | |- preserves uniqueTokens (modify _) =>
      apply preserves_modify; intros [] (? & ? & ?); repeat split; cbn in *;
      unfold deleteManyByClient, deleteManyByToken, deleteById;
      auto using NoDup_map_filter
  | |- preserves uniqueTokens (updateClientById _ _) =>
      unfold updateClientById; preserve;
      apply preserves_modify; intros [] (? & ? & ?); repeat split; auto
  | |- preserves uniqueTokens (sendEmail _) =>
      unfold sendEmail; apply preserves_modify; intros [] (? & ? & ?); repeat split; auto
  end.

(** X9.  The unique index on the token columns is an invariant of the
    authentication controllers: whatever the request and whether it is
    served or refused, signup, login, refresh, logout, forgot-password,
    reset-password, send-verification and verify-email leave no two rows
    with the same token in any of the three token tables. *)
Theorem auth_keeps_unique_tokens {R : Runtime} :
  (forall email password firstName lastName env,
      preserves uniqueTokens (signup email password firstName lastName env))
  /\ (forall email password env, preserves uniqueTokens (login email password env))
  /\ (forall token env, preserves uniqueTokens (refresh token env))
  /\ (forall body client, preserves uniqueTokens (logout body client))
  /\ (forall email env, preserves uniqueTokens (forgotPassword email env))
  /\ (forall token password env, preserves uniqueTokens (resetPassword token password env))
  /\ (forall clientId env, preserves uniqueTokens (sendVerificationEmail clientId env))
  /\ (forall token env, preserves uniqueTokens (verifyEmail token env)).
Proof.
  repeat apply conj.
  - intros email password firstName lastName env.
    unfold signup. preserve; try uniqueTokens_writes.
  - intros email password env. unfold login. preserve; try uniqueTokens_writes.
  - intros token env. unfold refresh. preserve; try uniqueTokens_writes.
  - intros body client. unfold logout. preserve; try uniqueTokens_writes.
  - intros email env. unfold forgotPassword. preserve; try uniqueTokens_writes.
  - intros token password env. unfold resetPassword. preserve; try uniqueTokens_writes.
  - intros clientId env. unfold sendVerificationEmail. preserve; try uniqueTokens_writes.
  - intros token env. unfold verifyEmail. preserve; try uniqueTokens_writes.
Qed.

(** ** Authentication middleware *)

Lemma splitOn_no_separator sep s :
  (forall c, In c (list_ascii_of_string s) -> c <> sep) -> splitOn sep s = [s].
Proof.
  induction s as [| c s IH]; simpl; [reflexivity |].
  intros Hfree. destruct (Ascii.eqb c sep) eqn:E.
  - apply Ascii.eqb_eq in E. exfalso. apply (Hfree c); auto.
  - rewrite IH; [reflexivity |]. intros d Hd. apply Hfree. auto.
Qed.

(** What [authenticate] leaves and answers. *)
Lemma authenticate_cases {R : Runtime} authorization env db :
  snd (authenticate authorization env db) = db
  /\ ((exists header payload row,
          authorization = Some header
          /\ startsWith header "Bearer " = true
          /\ verifyAccessToken (bearerToken header) (now env) = Decoded payload
          /\ TokenPayload.type payload = "access"
          /\ findClientById (TokenPayload.clientId payload) db = Some row
          /\ fst (authenticate authorization env db) = Ok (asAuthClient row))
      \/ failsWith 401 (authenticate authorization env db)).
Proof.
  split.
  - unfold authenticate. destruct authorization as [header |]; [| reflexivity]. monad.
    destruct (startsWith header "Bearer "); [| reflexivity]. cbn [negb].
    destruct (verifyAccessToken _ _) as [payload | |]; try reflexivity.
    destruct (String.eqb (TokenPayload.type payload) "access"); [| reflexivity].
    cbn [negb]. destruct (findClientById _ db); reflexivity.
  - unfold authenticate, failsWith.
    destruct authorization as [header |]; [| right; intros ?; reflexivity]. monad.
    destruct (startsWith header "Bearer ") eqn:Hprefix; [| right; intros ?; reflexivity].
    cbn [negb].
    destruct (verifyAccessToken _ _) as [payload | |] eqn:Hverify;
      try (right; intros ?; reflexivity).
    destruct (String.eqb (TokenPayload.type payload) "access") eqn:Htype;
      [| right; intros ?; reflexivity].
    cbn [negb]. destruct (findClientById _ db) as [row |] eqn:Hrow;
      [| right; intros ?; reflexivity].
    left. exists header, payload, row. apply String.eqb_eq in Htype. auto 10.
Qed.

(** X10.  [authenticate] never writes, and it knows two outcomes only:
    either the header starts with ["Bearer "], its second word verifies as a
    token of type access and names a stored client, and that client's id,
    e-mail and current role are attached; or the request is answered 401
    (missing or malformed header, invalid or expired token, a token of
    another type such as a refresh token, a client that is gone).  The token
    read from ["Bearer " ++ t] is [t] when [t] has no space. *)
Theorem authenticate_outcomes {R : Runtime} authorization env db :
  snd (authenticate authorization env db) = db
  /\ ((exists header payload row,
          authorization = Some header
          /\ startsWith header "Bearer " = true
          /\ verifyAccessToken (bearerToken header) (now env) = Decoded payload
          /\ TokenPayload.type payload = "access"
          /\ findClientById (TokenPayload.clientId payload) db = Some row
          /\ fst (authenticate authorization env db) = Ok (asAuthClient row))
      \/ failsWith 401 (authenticate authorization env db))
  /\ (forall t, (forall c, In c (list_ascii_of_string t) -> c <> " "%char) ->
                bearerToken ("Bearer " ++ t) = t).
Proof.
  destruct (authenticate_cases authorization env db) as [Hsame Hcases].
  split; [exact Hsame |]. split; [exact Hcases |].
  intros t Hfree. unfold bearerToken. cbn.
  now rewrite (splitOn_no_separator " " t Hfree).
Qed.

(** X11.  The guard of the admin routes: the controller behind
    [authenticate] and [requireAdmin] runs exactly when the request
    authenticates as a client whose stored role is ADMIN, and then with that
    client's id; a client of role USER is answered 403 and a request that
    does not authenticate 401, and in both cases nothing is written. *)
Theorem adminRoute_guard {R : Runtime} {A} authorization env (controller : string -> M A) db :
  match fst (authenticate authorization env db) with
  | Ok client =>
      if isAdmin (ac_role client)
      then adminRoute authorization env controller db = controller (ac_id client) db
           /\ exists row, findClientById (ac_id client) db = Some row
                          /\ Client.role row = Role.ADMIN
      else failsWith 403 (adminRoute authorization env controller db)
           /\ snd (adminRoute authorization env controller db) = db
  | Throw _ =>
      failsWith 401 (adminRoute authorization env controller db)
      /\ snd (adminRoute authorization env controller db) = db
  end.
Proof.
  destruct (authenticate_cases authorization env db) as (Hsame & Hcases).
  unfold adminRoute, bind.
  destruct (authenticate authorization env db) as [[client | e] db1] eqn:Hauth;
    cbn [fst snd] in *; subst db1.
  - destruct Hcases as [(header & payload & row & _ & _ & _ & _ & Hrow & [= ->]) | []].
    unfold requireAdmin, when_. cbn [ac_role ac_id asAuthClient].
    destruct (Client.role row) eqn:Hrole; cbn.
    + split; [intros ?; reflexivity | reflexivity].
    + split; [reflexivity |]. exists row.
      rewrite (findClientById_id _ _ _ Hrow). auto.
  - destruct Hcases as [(? & ? & ? & _ & _ & _ & _ & _ & Hok) | H401]; [discriminate |].
    unfold failsWith in *. cbn in *. auto.
Qed.

(** X12.  [optionalAuth] is [authenticate] with every refusal turned into
    "no client": it never fails and never writes, and it attaches a client
    exactly when [authenticate] would, the same one. *)
Theorem optionalAuth_agrees {R : Runtime} authorization env db :
  optionalAuth authorization env db
  = (Ok match fst (authenticate authorization env db) with
        | Ok client => Some client
        | Throw _ => None
        end, db).
Proof.
  unfold optionalAuth, authenticate.
  destruct authorization as [header |]; [| reflexivity]. monad.
  destruct (startsWith header "Bearer "); [| reflexivity]. cbn [negb].
  destruct (verifyAccessToken _ _) as [payload | |]; try reflexivity.
  destruct (String.eqb (TokenPayload.type payload) "access"); [| reflexivity].
  cbn [negb]. destruct (findClientById _ db); reflexivity.
Qed.

(** ** Sorting *)


Section SortBy.
Context {A : Type}.
Variable key : A -> Z.


Lemma insertBy_perm (before : A -> A -> bool) x rows :
  Permutation (insertBy before x rows) (x :: rows).
Proof.
  induction rows as [| y rows IH]; simpl; [reflexivity |].
  destruct (before x y); [reflexivity |].
  rewrite IH. apply perm_swap.
Qed.

Lemma sortBy_perm (before : A -> A -> bool) rows : Permutation (sortBy before rows) rows.
Proof.
  induction rows as [| x rows IH]; simpl; [reflexivity |].
  unfold sortBy in *. simpl. rewrite insertBy_perm. now constructor.
Qed.

Lemma insertBy_sorted (before : A -> A -> bool) x rows :
  (forall a b, before a b = false -> before b a = true) ->
  (forall a b c, before a b = true -> before b c = true -> before a c = true) ->
  StronglySorted (fun a b => before a b = true) rows ->
  StronglySorted (fun a b => before a b = true) (insertBy before x rows).
Proof.
  intros Htotal Htrans. induction rows as [| y rows IH]; simpl; intros Hsorted.
  - repeat constructor.
  - inversion Hsorted as [| ? ? Hrest Hall]; subst.
    destruct (before x y) eqn:Hxy.
    + constructor; [exact Hsorted |]. constructor; [exact Hxy |].
      eapply Forall_impl; [| exact Hall]. intros z Hz. eapply Htrans; eauto.
    + constructor; [now apply IH |].
      eapply Permutation_Forall; [symmetry; apply insertBy_perm |].
      constructor; [now apply Htotal | exact Hall].
Qed.

Lemma sortBy_sorted (before : A -> A -> bool) rows :
  (forall a b, before a b = false -> before b a = true) ->
  (forall a b c, before a b = true -> before b c = true -> before a c = true) ->
  StronglySorted (fun a b => before a b = true) (sortBy before rows).
Proof.
  intros Htotal Htrans. induction rows as [| x rows IH]; simpl; [constructor |].
  now apply insertBy_sorted.
Qed.

Lemma StronglySorted_weaken (P Q : A -> A -> Prop) rows :
  (forall a b, P a b -> Q a b) -> StronglySorted P rows -> StronglySorted Q rows.
Proof.
  intros Himpl. induction 1 as [| x rows Hrest IH Hall]; constructor; [exact IH |].
  eapply Forall_impl; [| exact Hall]. intros b. apply Himpl.
Qed.

Lemma sortBy_ascending rows :
  StronglySorted (fun a b => key a <= key b) (sortBy (fun a b => key a <=? key b) rows).
Proof.
  eapply StronglySorted_weaken; [| apply sortBy_sorted].
  - intros a b H. now apply Z.leb_le.
  - intros a b H. apply Z.leb_gt in H. apply Z.leb_le. lia.
  - intros a b c H1 H2. apply Z.leb_le in H1, H2. apply Z.leb_le. lia.
Qed.

Lemma sortBy_descending rows :
  StronglySorted (fun a b => key b <= key a) (sortBy (fun a b => key b <=? key a) rows).
Proof.
  eapply StronglySorted_weaken; [| apply sortBy_sorted].
  - intros a b H. now apply Z.leb_le.
  - intros a b H. apply Z.leb_gt in H. apply Z.leb_le. lia.
  - intros a b c H1 H2. apply Z.leb_le in H1, H2. apply Z.leb_le. lia.
Qed.
End SortBy.

(** ** Onboarding tracker, continued *)

(** What a save request leaves, for a catalog step and a client with a
    progress row. *)
Lemma saveStepData_runs db clientId stepNumber data env step progress :
  findStepByNumber stepNumber db = Some step ->
  findProgressByClient clientId db = Some progress ->
  let row :=
    match findStepProgress (OnboardingProgress.id progress) (OnboardingStep.id step) db with
    | Some old =>
        StepProgress.mk (StepProgress.id old) (StepProgress.onboardingProgressId old)
          (StepProgress.onboardingStepId old) StepStatus.IN_PROGRESS
          (match data with Some d => Some d | None => StepProgress.data old end)
          (StepProgress.completedAt old)
    | None =>
        StepProgress.mk (freshId env 1) (OnboardingProgress.id progress)
          (OnboardingStep.id step) StepStatus.IN_PROGRESS data None
    end in
  exists db',
    saveStepData clientId stepNumber data env db = (Ok row, db')
    /\ findStepProgress (OnboardingProgress.id progress) (OnboardingStep.id step) db'
       = Some row
    /\ findProgressByClient clientId db'
       = Some (OnboardingProgress.mk (OnboardingProgress.id progress)
                 (OnboardingProgress.clientId progress)
                 (OnboardingProgress.currentStep progress)
                 (if isPendingOnboarding (OnboardingProgress.status progress)
                  then OnboardingStatus.IN_PROGRESS
                  else OnboardingProgress.status progress)
                 (OnboardingProgress.completedAt progress))
    /\ onboardingSteps db' = onboardingSteps db
    /\ clients db' = clients db.
Proof.
  intros Hstep Hprogress row.
  unfold saveStepData. monad. cbv zeta. rewrite Hstep, Hprogress.
  match goal with
  | |- context [upsertStepProgress ?p ?s ?u ?c db] =>
      destruct (upsertStepProgress_ok p s u c db) as (change & -> & Hsp)
  end.
  { intros sp. reflexivity. }
  { unfold stepProgressKey; simpl. now rewrite !String.eqb_refl. }
  fold row in Hsp.
  destruct (isPendingOnboarding (OnboardingProgress.status progress)) eqn:Hpending.
  - unfold updateProgressById. monad. eexists. split; [reflexivity |].
    split; [exact Hsp |]. split; [| split; reflexivity].
    unfold findProgressByClient in *. cbn.
    rewrite (find_update (fun p => String.eqb (OnboardingProgress.clientId p) clientId)
               (fun p => String.eqb (OnboardingProgress.id p) (OnboardingProgress.id progress))
               (fun p => OnboardingProgress.mk (OnboardingProgress.id p)
                           (OnboardingProgress.clientId p) (OnboardingProgress.currentStep p)
                           OnboardingStatus.IN_PROGRESS (OnboardingProgress.completedAt p))
               (fun _ => eq_refl) _ _ Hprogress).
    now rewrite String.eqb_refl.
  - eexists. split; [reflexivity |]. split; [exact Hsp |].
    split; [| split; reflexivity].
    unfold findProgressByClient in *. cbn. rewrite Hprogress. now destruct progress.
Qed.

(** X13.  Saving a step's data has no ordering check and never moves the
    pointer: for every catalog step, also one ahead of the pointer, the
    step's record becomes IN_PROGRESS with the payload sent (a record that
    was COMPLETED keeps its completion time but loses that status), the
    pointer and an IN_PROGRESS or COMPLETED overall status stay as they are,
    and a PENDING overall status becomes IN_PROGRESS. *)
Theorem saveStepData_effect db clientId stepNumber data env step progress :
  findStepByNumber stepNumber db = Some step ->
  findProgressByClient clientId db = Some progress ->
  let run := saveStepData clientId stepNumber data env db in
  let old := findStepProgress (OnboardingProgress.id progress) (OnboardingStep.id step) db in
  exists row after,
    fst run = Ok row
    /\ findStepProgress (OnboardingProgress.id progress) (OnboardingStep.id step) (snd run)
       = Some row
    /\ StepProgress.status row = StepStatus.IN_PROGRESS
    /\ StepProgress.data row
       = match data with
         | Some d => Some d
         | None => match old with Some o => StepProgress.data o | None => None end
         end
    /\ StepProgress.completedAt row
       = match old with Some o => StepProgress.completedAt o | None => None end
    /\ findProgressByClient clientId (snd run) = Some after
    /\ OnboardingProgress.currentStep after = OnboardingProgress.currentStep progress
    /\ OnboardingProgress.completedAt after = OnboardingProgress.completedAt progress
    /\ OnboardingProgress.status after
       = match OnboardingProgress.status progress with
         | OnboardingStatus.PENDING => OnboardingStatus.IN_PROGRESS
         | kept => kept
         end.
Proof.
  intros Hstep Hprogress run old.
  destruct (saveStepData_runs db clientId stepNumber data env step progress Hstep Hprogress)
    as (db' & Hrun & Hrow & Hafter & _).
  subst run. rewrite Hrun. cbn [fst snd].
  eexists. eexists. split; [reflexivity |]. split; [exact Hrow |].
  fold old. split; [destruct old; reflexivity |].
  split; [destruct old, data; reflexivity |].
  split; [destruct old; reflexivity |].
  split; [exact Hafter |]. cbn.
  repeat split. destruct (OnboardingProgress.status progress); reflexivity.
Qed.

(** X14.  A step number outside the catalog is answered 404 by both
    [saveStepData] and [completeStep], before anything is written: not even
    the progress row either would otherwise create. *)
Theorem unknown_step_not_found db clientId stepNumber data env :
  findStepByNumber stepNumber db = None ->
  saveStepData clientId stepNumber data env db
  = (Throw (errors.notFound "Onboarding step"), db)
  /\ completeStep clientId stepNumber data env db
     = (Throw (errors.notFound "Onboarding step"), db)
  /\ forall production,
       httpStatus (errorHandler production (errors.notFound "Onboarding step")) = 404.
Proof.
  intros Hnone. unfold saveStepData, completeStep. monad. rewrite Hnone.
  repeat split.
Qed.

Lemma find_stepProgressOf progressId stepId db :
  find (fun sp => String.eqb (StepProgress.onboardingStepId sp) stepId)
    (stepProgressOf progressId db)
  = findStepProgress progressId stepId db.
Proof.
  unfold stepProgressOf, findStepProgress, stepProgressKey.
  induction (stepProgress db) as [| sp rows IH]; simpl; [reflexivity |].
  destruct (String.eqb (StepProgress.onboardingProgressId sp) progressId); simpl;
    [| exact IH].
  destruct (String.eqb (StepProgress.onboardingStepId sp) stepId); [reflexivity | exact IH].
Qed.

(** The status view, for a client with a progress row: nothing is written. *)
Lemma getOnboardingStatus_existing db clientId env progress :
  findProgressByClient clientId db = Some progress ->
  getOnboardingStatus clientId env db
  = (Ok (mkOnboardingStatusResponse
           (OnboardingProgress.currentStep progress) (OnboardingProgress.status progress)
           (OnboardingProgress.completedAt progress)
           (map (withProgress (stepProgressOf (OnboardingProgress.id progress) db))
              (stepsInOrder db))),
     db).
Proof.
  intros Hprogress. unfold getOnboardingStatus. monad. now rewrite Hprogress.
Qed.

(** X15.  The status view is a get-or-create: it always answers; for a
    client without a progress row it creates one (pointer 1, PENDING) and
    otherwise writes nothing; asked again it writes nothing and gives the
    same answer. *)
Theorem getOnboardingStatus_get_or_create db clientId env env2 :
  (findProgressByClient clientId db = None -> stepProgressOf (freshId env 0) db = []) ->
  let first := getOnboardingStatus clientId env db in
  let second := getOnboardingStatus clientId env2 (snd first) in
  succeeds first
  /\ snd first
     = match findProgressByClient clientId db with
       | Some _ => db
       | None =>
           with_onboardingProgress
             (fun rows =>
                (rows ++ [OnboardingProgress.mk (freshId env 0) clientId 1
                            OnboardingStatus.PENDING None])%list) db
       end
  /\ second = first.
Proof.
  intros Hfresh first second.
  destruct (findProgressByClient clientId db) as [progress |] eqn:Hprogress.
  - assert (Hfirst : first = _) by exact (getOnboardingStatus_existing db clientId env _
                                            Hprogress).
    subst second. rewrite Hfirst. cbn [snd].
    split; [eexists; reflexivity |]. split; [reflexivity |].
    apply (getOnboardingStatus_existing db clientId env2 _ Hprogress).
  - specialize (Hfresh eq_refl).
    set (created := OnboardingProgress.mk (freshId env 0) clientId 1
                      OnboardingStatus.PENDING None).
    assert (Hfirst : first
                     = (Ok (mkOnboardingStatusResponse 1 OnboardingStatus.PENDING None
                              (map (withProgress []) (stepsInOrder db))),
                        with_onboardingProgress (fun rows => (rows ++ [created])%list) db)).
    { subst first. unfold getOnboardingStatus. monad. rewrite Hprogress. reflexivity. }
    subst second. rewrite Hfirst. cbn [snd].
    split; [eexists; reflexivity |]. split; [reflexivity |].
    rewrite (getOnboardingStatus_existing _ clientId env2 created).
    + cbn. unfold stepProgressOf in *. cbn. rewrite Hfresh. reflexivity.
    + unfold findProgressByClient in *. cbn. apply find_append_new; [exact Hprogress |].
      cbn. apply String.eqb_refl.
Qed.

(** X16.  The status view lists the catalog: one entry per catalog step, in
    ascending step number; an entry shows the status, data and completion
    time of the client's record for that step, and PENDING with no data and
    no time where the client has none. *)
Theorem getOnboardingStatus_lists_catalog db clientId env :
  exists response,
    fst (getOnboardingStatus clientId env db) = Ok response
    /\ Permutation (map sw_step (os_steps response)) (onboardingSteps db)
    /\ StronglySorted
         (fun a b => OnboardingStep.stepNumber a <= OnboardingStep.stepNumber b)
         (map sw_step (os_steps response))
    /\ (forall entry,
          In entry (os_steps response) ->
          match findProgressByClient clientId db with
          | Some progress =>
              match findStepProgress (OnboardingProgress.id progress)
                      (OnboardingStep.id (sw_step entry)) db with
              | Some record =>
                  sw_status entry = StepProgress.status record
                  /\ sw_data entry = StepProgress.data record
                  /\ sw_completedAt entry = StepProgress.completedAt record
              | None =>
                  sw_status entry = StepStatus.PENDING
                  /\ sw_data entry = None /\ sw_completedAt entry = None
              end
          | None =>
              sw_status entry = StepStatus.PENDING
              /\ sw_data entry = None /\ sw_completedAt entry = None
          end).
Proof.
  assert (Hsteps : forall rows,
             map sw_step (map (withProgress rows) (stepsInOrder db)) = stepsInOrder db).
  { intros rows. rewrite map_map. rewrite <- (map_id (stepsInOrder db)) at 2.
    apply map_ext. intros step. unfold withProgress. now destruct (find _ rows). }
  destruct (findProgressByClient clientId db) as [progress |] eqn:Hprogress.
  - rewrite (getOnboardingStatus_existing db clientId env _ Hprogress). cbn [fst].
    eexists. split; [reflexivity |]. cbn [os_steps]. rewrite Hsteps.
    split; [apply sortBy_perm |].
    split; [apply (sortBy_ascending OnboardingStep.stepNumber) |].
    intros entry Hentry. apply in_map_iff in Hentry. destruct Hentry as (step & <- & _).
    unfold withProgress. rewrite find_stepProgressOf.
    destruct (findStepProgress (OnboardingProgress.id progress) (OnboardingStep.id step) db)
      eqn:Hrecord; cbn; rewrite Hrecord; auto.
  - unfold getOnboardingStatus. monad. rewrite Hprogress. cbn [fst].
    eexists. split; [reflexivity |]. cbn [os_steps snd]. rewrite Hsteps.
    split; [apply sortBy_perm |].
    split; [apply (sortBy_ascending OnboardingStep.stepNumber) |].
    intros entry Hentry. apply in_map_iff in Hentry. destruct Hentry as (step & <- & _).
    cbn. auto.
Qed.

Lemma findStepByNumber_in_catalog n db step :
  findStepByNumber n db = Some step -> In step (onboardingSteps db).
Proof.
  unfold findStepByNumber. intros H. now apply find_some in H.
Qed.

(** X17.  The status view shows what [completeStep] did: after a served
    completion of a step, the view reports the pointer, status and completion
    time that [completeStep] answered with, lists that step as COMPLETED at
    the time of the completion, and writes nothing. *)
Theorem completeStep_then_status db clientId stepNumber data env step progress client env2 :
  findStepByNumber stepNumber db = Some step ->
  findProgressByClient clientId db = Some progress ->
  stepNumber <= OnboardingProgress.currentStep progress ->
  findClientById clientId db = Some client ->
  (stepNumber = 1 -> profileFieldsValid data = true) ->
  let done := completeStep clientId stepNumber data env db in
  let view := getOnboardingStatus clientId env2 (snd done) in
  exists completed status entry,
    fst done = Ok completed
    /\ fst view = Ok status
    /\ snd view = snd done
    /\ os_currentStep status = cs_currentStep completed
    /\ os_status status = cs_status completed
    /\ os_completedAt status = cs_completedAt completed
    /\ In entry (os_steps status)
    /\ sw_step entry = step
    /\ sw_status entry = StepStatus.COMPLETED
    /\ sw_completedAt entry = Some (now env).
Proof.
  intros Hstep Hprogress Hle Hclient Hvalid done view.
  destruct (completeStep_runs db clientId stepNumber data env step progress client
              Hstep Hprogress Hle Hclient Hvalid)
    as (db' & text & Hrun & Hsteps & Hfound & _ & record & Hrecord & Hstatus & Hat & _).
  subst view done. rewrite Hrun. cbn [fst snd].
  rewrite (getOnboardingStatus_existing db' clientId env2 _ Hfound). cbn [fst snd].
  eexists. eexists. exists (withProgress (stepProgressOf (OnboardingProgress.id progress) db')
                              step).
  split; [reflexivity |]. split; [reflexivity |]. split; [reflexivity |].
  cbn [os_currentStep os_status os_completedAt os_steps cs_currentStep cs_status
         cs_completedAt OnboardingProgress.currentStep OnboardingProgress.status
         OnboardingProgress.completedAt OnboardingProgress.id].
  do 3 (split; [reflexivity |]).
  split.
  { apply in_map. apply (Permutation_in (l := onboardingSteps db')).
    - symmetry. apply sortBy_perm.
    - rewrite Hsteps. eapply findStepByNumber_in_catalog; eauto. }
  unfold withProgress. rewrite find_stepProgressOf, Hrecord. cbn. auto.
Qed.


Lemma preserves_gets_bind {A B} (inv : Db -> Prop) (f : Db -> A) (k : A -> M B) :
  (forall db, inv db -> preserves inv (k (f db))) -> preserves inv (bind (gets f) k).
Proof. intros Hk db H. exact (Hk db H db H). Qed.

Section Tracker.
Variable catalog : list OnboardingStep.t.
Hypothesis positive : Forall (fun n => 1 <= n) (map OnboardingStep.stepNumber catalog).

Let total := Z.of_nat (List.length catalog).

Lemma trackerOver_upsertStepProgress progressId stepId update create :
  preserves (trackerOver catalog) (upsertStepProgress progressId stepId update create).
Proof.
  unfold upsertStepProgress. apply preserves_bind; [apply preserves_gets |].
  intros [existing |]; apply preserves_modify; intros [] H; exact H.
Qed.

Lemma trackerOver_syncClientProfile clientId stepNumber data :
  preserves (trackerOver catalog) (syncClientProfile clientId stepNumber data).
Proof.
  unfold syncClientProfile, updateClientById.
  destruct data as [d |]; [| apply preserves_ret].
  apply preserves_when.
  repeat (apply preserves_bind; [apply preserves_liftOutcome | intros ?]).
  preserve. all: try (apply preserves_modify; intros [] H; exact H).
Qed.

Lemma trackerOver_updateProgressById id update :
  (forall p, pointerInRange total p -> pointerInRange total (update p)) ->
  preserves (trackerOver catalog) (updateProgressById id update).
Proof.
  intros Hupdate. apply preserves_modify. intros [] [Hsteps Hrows]. split; [exact Hsteps |].
  cbn in *. apply Forall_map. eapply Forall_impl; [| exact Hrows].
  intros p Hp. destruct (String.eqb (OnboardingProgress.id p) id); auto.
Qed.

Lemma trackerOver_create id clientId status :
  preserves (trackerOver catalog)
    (modify (with_onboardingProgress
               (fun rows =>
                  (rows ++ [OnboardingProgress.mk id clientId 1 status None])%list))).
Proof.
  apply preserves_modify. intros [] [Hsteps Hrows]. split; [exact Hsteps |].
  cbn in *. apply Forall_app. split; [exact Hrows |].
  repeat constructor; cbn; lia.
Qed.

Lemma trackerOver_completeStep clientId stepNumber data env :
  preserves (trackerOver catalog) (completeStep clientId stepNumber data env).
Proof.
  unfold completeStep. apply preserves_gets_bind. intros db0 [Hsteps0 _].
  destruct (findStepByNumber stepNumber db0) as [step |] eqn:Hstep;
    [| intros db H; exact H].
  assert (Hs : 1 <= stepNumber).
  { pose proof (findStepByNumber_in _ _ _ Hstep) as Hin. unfold stepNumbers in Hin.
    rewrite Hsteps0 in Hin. rewrite Forall_forall in positive. now apply positive. }
  assert (Htotal : 1 <= total).
  { apply findStepByNumber_in_catalog in Hstep. rewrite Hsteps0 in Hstep. subst total.
    destruct catalog; [contradiction | cbn; lia]. }
  apply preserves_bind; [apply preserves_ret | intros step'].
  apply preserves_bind; [apply preserves_gets | intros existing].
  apply preserves_bind.
  { destruct existing; [apply preserves_ret |].
    apply preserves_bind; [apply trackerOver_create | intros; apply preserves_ret]. }
  intros progress.
  apply preserves_bind; [apply preserves_when, preserves_throw | intros _].
  apply preserves_bind; [apply trackerOver_upsertStepProgress | intros _].
  apply preserves_gets_bind. intros db1 [Hsteps1 _]. rewrite Hsteps1. fold total. cbv zeta.
  apply preserves_bind.
  { apply trackerOver_updateProgressById. intros p _. unfold pointerInRange. cbn.
    destruct (stepNumber =? total) eqn:E; [apply Z.eqb_eq in E |]; lia. }
  intros _.
  apply preserves_bind; [apply trackerOver_syncClientProfile | intros _].
  apply preserves_bind; [apply preserves_gets | intros updated].
  apply preserves_bind; [apply preserves_orThrow | intros; apply preserves_ret].
Qed.

Lemma trackerOver_saveStepData clientId stepNumber data env :
  preserves (trackerOver catalog) (saveStepData clientId stepNumber data env).
Proof.
  unfold saveStepData.
  apply preserves_bind; [apply preserves_gets | intros found].
  apply preserves_bind; [apply preserves_orThrow | intros step].
  apply preserves_bind; [apply preserves_gets | intros existing].
  apply preserves_bind.
  { destruct existing; [apply preserves_ret |].
    apply preserves_bind; [apply trackerOver_create | intros; apply preserves_ret]. }
  intros progress. cbv zeta.
  apply preserves_bind; [apply preserves_gets | intros stored].
  apply preserves_bind; [apply trackerOver_upsertStepProgress | intros _].
  apply preserves_bind; [| intros; apply preserves_ret].
  apply preserves_when. apply trackerOver_updateProgressById. intros p Hp. exact Hp.
Qed.

Lemma trackerOver_getOnboardingStatus clientId env :
  preserves (trackerOver catalog) (getOnboardingStatus clientId env).
Proof.
  unfold getOnboardingStatus.
  apply preserves_bind; [apply preserves_gets | intros existing].
  apply preserves_bind.
  { destruct existing.
    - apply preserves_bind; [apply preserves_gets | intros; apply preserves_ret].
    - apply preserves_bind; [apply trackerOver_create | intros; apply preserves_ret]. }
  intros loaded.
  apply preserves_bind; [apply preserves_gets | intros; apply preserves_ret].
Qed.

Lemma trackerOver_serveOnboarding rq db :
  trackerOver catalog db -> trackerOver catalog (serveOnboarding rq db).
Proof.
  destruct rq as [clientId [stepNumber data env | stepNumber data env | env]];
    cbn [serveOnboarding].
  - apply trackerOver_completeStep.
  - apply trackerOver_saveStepData.
  - apply trackerOver_getOnboardingStatus.
Qed.

Lemma trackerOver_serveOnboardingAll requests db :
  trackerOver catalog db -> trackerOver catalog (serveOnboardingAll requests db).
Proof.
  unfold serveOnboardingAll. revert db.
  induction requests as [| rq rest IH]; intros db H; cbn [fold_left]; [exact H |].
  apply IH. now apply trackerOver_serveOnboarding.
Qed.
End Tracker.

(** X18.  In a catalog whose step numbers are positive, no series of
    tracker requests (complete, save, status; any clients, any payloads,
    served or refused) takes a pointer out of the catalog's range: every
    progress row keeps [1 <= currentStep <= N], and the catalog itself is
    never written. *)
Theorem pointer_stays_in_range requests db :
  Forall (fun n => 1 <= n) (stepNumbers db) ->
  pointersInRange db ->
  onboardingSteps (serveOnboardingAll requests db) = onboardingSteps db
  /\ pointersInRange (serveOnboardingAll requests db).
Proof.
  intros Hpositive Hrange.
  destruct (trackerOver_serveOnboardingAll (onboardingSteps db) Hpositive requests db)
    as [Hsteps Hrows].
  - split; [reflexivity | exact Hrange].
  - split; [exact Hsteps |]. unfold pointersInRange. now rewrite Hsteps.
Qed.

(** ** Admin views *)

Lemma filter_update_none {A} (selected : A -> bool) (update : A -> A) (rows : list A) :
  (forall a, selected (update a) = false) ->
  filter selected (map (fun a => if selected a then update a else a) rows) = [].
Proof.
  intros Hupdate. induction rows as [| a rows IH]; cbn; [reflexivity |].
  destruct (selected a) eqn:E; [rewrite Hupdate | rewrite E]; exact IH.
Qed.

Lemma filter_update_others {A} (selected others : A -> bool) (update : A -> A)
  (rows : list A) :
  (forall a, selected a = true -> others a = false) ->
  (forall a, others (update a) = others a) ->
  filter others (map (fun a => if selected a then update a else a) rows)
  = filter others rows.
Proof.
  intros Hdisjoint Hupdate. induction rows as [| a rows IH]; cbn; [reflexivity |].
  destruct (selected a) eqn:E.
  - rewrite Hupdate, (Hdisjoint a E). exact IH.
  - destruct (others a); now rewrite IH.
Qed.

Lemma count_nonneg {A} (selected : A -> bool) (rows : list A) :
  0 <= count selected rows <= Z.of_nat (List.length rows).
Proof.
  unfold count. pose proof (filter_length_le selected rows). lia.
Qed.

(** The three statuses split the documents. *)
Lemma count_statuses rows :
  count (hasStatus DocumentVerificationStatus.PENDING) rows
  + count (hasStatus DocumentVerificationStatus.APPROVED) rows
  + count (hasStatus DocumentVerificationStatus.REJECTED) rows
  = Z.of_nat (List.length rows).
Proof.
  unfold count, hasStatus. induction rows as [| d rows IH]; cbn [filter List.length];
    [reflexivity |].
  destruct (Document.verificationStatus d); cbn [DocumentVerificationStatus.eqb List.length];
    lia.
Qed.

(** Approving a selection of pending documents moves them from one count to
    the other. *)
Lemma count_approved selected at_ rows :
  (forall d, selected d = true -> isPending d = true) ->
  let rows' := map (fun d => if selected d then approveDocument at_ d else d) rows in
  count (hasStatus DocumentVerificationStatus.PENDING) rows'
  = count (hasStatus DocumentVerificationStatus.PENDING) rows - count selected rows
  /\ count (hasStatus DocumentVerificationStatus.APPROVED) rows'
     = count (hasStatus DocumentVerificationStatus.APPROVED) rows + count selected rows
  /\ count (hasStatus DocumentVerificationStatus.REJECTED) rows'
     = count (hasStatus DocumentVerificationStatus.REJECTED) rows.
Proof.
  intros Hpending. unfold count, hasStatus.
  induction rows as [| d rows IH]; cbn [map filter List.length]; [repeat split; lia |].
  destruct IH as (IH1 & IH2 & IH3).
  destruct (selected d) eqn:E.
  - specialize (Hpending d E). unfold isPending in Hpending.
    cbn [approveDocument Document.verificationStatus DocumentVerificationStatus.eqb].
    destruct (Document.verificationStatus d); try discriminate.
    cbn [DocumentVerificationStatus.eqb List.length]. repeat split; lia.
  - destruct (Document.verificationStatus d);
      cbn [DocumentVerificationStatus.eqb List.length]; repeat split; lia.
Qed.

Lemma approveAllForClient_runs db clientId adminId env client :
  findClientById clientId db = Some client ->
  filter (fun d => ownsDocument clientId d && isPending d) (documents db) <> [] ->
  exists response db',
    approveAllForClient clientId adminId env db = (Ok response, db')
    /\ ba_approvedCount response
       = count (fun d => ownsDocument clientId d && isPending d) (documents db)
    /\ documents db'
       = map (fun d => if ownsDocument clientId d && isPending d
                       then approveDocument (now env) d else d) (documents db)
    /\ clients db' = clients db
    /\ onboardingProgress db' = onboardingProgress db
    /\ List.length (adminActivityLogs db') = S (List.length (adminActivityLogs db)).
Proof.
  intros Hclient Hsome.
  unfold approveAllForClient, updateDocumentsWhere, logAdminActivity. monad.
  rewrite Hclient.
  destruct (filter _ (documents db)) eqn:E; [contradiction |].
  eexists. eexists. split; [reflexivity |].
  unfold count. rewrite E. destruct db; cbn. rewrite length_app. cbn.
  repeat split; lia.
Qed.

Lemma approveAllForClient_none_pending db clientId adminId env client :
  findClientById clientId db = Some client ->
  filter (fun d => ownsDocument clientId d && isPending d) (documents db) = [] ->
  approveAllForClient clientId adminId env db
  = (Throw (errors.badRequest "No pending documents found for this client"), db).
Proof.
  intros Hclient Hempty. unfold approveAllForClient. monad.
  now rewrite Hclient, Hempty.
Qed.

(** Approve-all for a client with pending documents. *)
Lemma approveAllForClient_served db clientId adminId env client adminId2 env2 :
  findClientById clientId db = Some client ->
  filter (fun d => ownsDocument clientId d && isPending d) (documents db) <> [] ->
  let run := approveAllForClient clientId adminId env db in
  let again := approveAllForClient clientId adminId2 env2 (snd run) in
  (exists response,
      fst run = Ok response
      /\ ba_approvedCount response
         = count (fun d => ownsDocument clientId d && isPending d) (documents db))
  /\ filter (fun d => ownsDocument clientId d && isPending d) (documents (snd run)) = []
  /\ filter (fun d => negb (ownsDocument clientId d)) (documents (snd run))
     = filter (fun d => negb (ownsDocument clientId d)) (documents db)
  /\ map Document.id (documents (snd run)) = map Document.id (documents db)
  /\ List.length (adminActivityLogs (snd run)) = S (List.length (adminActivityLogs db))
  /\ fst again = Throw (errors.badRequest "No pending documents found for this client")
  /\ snd again = snd run.
Proof.
  intros Hclient Hsome run again.
  destruct (approveAllForClient_runs db clientId adminId env client Hclient Hsome)
    as (response & db' & Hrun & Hcount & Hdocs & Hclients & _ & Hlogs).
  subst again run. rewrite Hrun. cbn [fst snd].
  assert (Hnone : filter (fun d => ownsDocument clientId d && isPending d) (documents db')
                  = []).
  { rewrite Hdocs.
    apply (filter_update_none (fun d => ownsDocument clientId d && isPending d)).
    intros d. unfold isPending. cbn. apply andb_false_r. }
  split; [exists response; auto |].
  split; [exact Hnone |].
  split.
  { rewrite Hdocs.
    apply (filter_update_others (fun d => ownsDocument clientId d && isPending d)
             (fun d => negb (ownsDocument clientId d))).
    - intros d H. apply andb_prop in H. now rewrite (proj1 H).
    - intros d. reflexivity. }
  split.
  { rewrite Hdocs, map_map. apply map_ext. intros d.
    now destruct (ownsDocument clientId d && isPending d). }
  split; [exact Hlogs |].
  rewrite (approveAllForClient_none_pending db' clientId adminId2 env2 client); auto.
  unfold findClientById in *. now rewrite Hclients.
Qed.

(** The refusals of approve-all. *)
Lemma approveAllForClient_refused db clientId adminId env :
  (findClientById clientId db = None ->
   approveAllForClient clientId adminId env db = (Throw (errors.notFound "Client"), db))
  /\ (forall client,
         findClientById clientId db = Some client ->
         (forall d, In d (documents db) -> Document.clientId d = clientId ->
                    Document.verificationStatus d <> DocumentVerificationStatus.PENDING) ->
         approveAllForClient clientId adminId env db
         = (Throw (errors.badRequest "No pending documents found for this client"), db)).
Proof.
  split.
  - intros Hnone. unfold approveAllForClient. monad. now rewrite Hnone.
  - intros client Hclient Hreviewed.
    apply (approveAllForClient_none_pending _ _ _ _ client Hclient).
    assert (Hempty : filter (fun d => ownsDocument clientId d && isPending d) (documents db)
                     = []).
    { induction (documents db) as [| d rows IH]; [reflexivity |]. cbn.
      destruct (ownsDocument clientId d && isPending d) eqn:E.
      - exfalso. apply andb_prop in E. destruct E as [Howns Hpending].
        apply String.eqb_eq in Howns.
        apply (Hreviewed d (or_introl eq_refl) Howns).
        unfold isPending in Hpending. now destruct (Document.verificationStatus d).
      - apply IH. intros d' Hin. apply Hreviewed. now right. }
    exact Hempty.
Qed.

(** X19.  Approve-all for a client: it is refused with 404 for an unknown
    client and with 400 when none of the client's documents is pending, and
    then nothing is written; otherwise the answer counts exactly that client's
    pending documents, afterwards none of them is pending, every document of
    another client is as it was, one activity row is logged, and asking again
    is refused with 400. *)
Theorem approveAllForClient_outcomes db clientId adminId env :
  (findClientById clientId db = None ->
   approveAllForClient clientId adminId env db = (Throw (errors.notFound "Client"), db))
  /\ (forall client,
         findClientById clientId db = Some client ->
         (forall d, In d (documents db) -> Document.clientId d = clientId ->
                    Document.verificationStatus d <> DocumentVerificationStatus.PENDING) ->
         approveAllForClient clientId adminId env db
         = (Throw (errors.badRequest "No pending documents found for this client"), db))
  /\ (forall client adminId2 env2,
         findClientById clientId db = Some client ->
         filter (fun d => ownsDocument clientId d && isPending d) (documents db) <> [] ->
         let run := approveAllForClient clientId adminId env db in
         let again := approveAllForClient clientId adminId2 env2 (snd run) in
         (exists response,
             fst run = Ok response
             /\ ba_approvedCount response
                = count (fun d => ownsDocument clientId d && isPending d) (documents db))
         /\ filter (fun d => ownsDocument clientId d && isPending d) (documents (snd run))
            = []
         /\ filter (fun d => negb (ownsDocument clientId d)) (documents (snd run))
            = filter (fun d => negb (ownsDocument clientId d)) (documents db)
         /\ map Document.id (documents (snd run)) = map Document.id (documents db)
         /\ List.length (adminActivityLogs (snd run))
            = S (List.length (adminActivityLogs db))
         /\ fst again
            = Throw (errors.badRequest "No pending documents found for this client")
         /\ snd again = snd run).
Proof.
  destruct (approveAllForClient_refused db clientId adminId env) as [H404 H400].
  split; [exact H404 |]. split; [exact H400 |].
  intros client adminId2 env2. apply approveAllForClient_served.
Qed.

(** X20.  The dashboard's three document counts always add up to the number
    of documents, and a served approve-all moves exactly the answered count
    from pending to approved, leaving the rejected count, the client count and
    the completed-onboarding count as they were. *)
Theorem getStats_after_approveAll db clientId adminId env client :
  findClientById clientId db = Some client ->
  filter (fun d => ownsDocument clientId d && isPending d) (documents db) <> [] ->
  let run := approveAllForClient clientId adminId env db in
  exists response before after,
    fst run = Ok response
    /\ getStats db = (Ok before, db)
    /\ getStats (snd run) = (Ok after, snd run)
    /\ pendingDocuments before + approvedDocuments before + rejectedDocuments before
       = Z.of_nat (List.length (documents db))
    /\ pendingDocuments after = pendingDocuments before - ba_approvedCount response
    /\ approvedDocuments after = approvedDocuments before + ba_approvedCount response
    /\ rejectedDocuments after = rejectedDocuments before
    /\ totalClients after = totalClients before
    /\ completedOnboarding after = completedOnboarding before
    /\ 0 < ba_approvedCount response.
Proof.
  intros Hclient Hsome run.
  destruct (approveAllForClient_runs db clientId adminId env client Hclient Hsome)
    as (response & db' & Hrun & Hcount & Hdocs & Hclients & Hprogress & _).
  subst run. rewrite Hrun. cbn [fst snd].
  exists response. eexists. eexists.
  split; [reflexivity |]. split; [reflexivity |]. split; [reflexivity |].
  cbn [pendingDocuments approvedDocuments rejectedDocuments totalClients completedOnboarding].
  destruct (count_approved (fun d => ownsDocument clientId d && isPending d) (now env)
              (documents db)) as (Hp & Ha & Hr).
  { intros d H. now apply andb_prop in H. }
  rewrite Hdocs, Hclients, Hprogress, Hcount.
  split; [apply count_statuses |].
  repeat split; try assumption.
  unfold count. destruct (filter _ (documents db)); [contradiction | cbn; lia].
Qed.

(** ** Paging *)

Lemma leadingDigits_acc d p :
  leadingDigits (NilEmpty.string_of_uint d) (Some (Z.pos p))
  = Some (Z.pos (Pos.of_uint_acc d p)).
Proof.
  revert p. induction d; intros p; cbn [NilEmpty.string_of_uint leadingDigits Pos.of_uint_acc];
    [reflexivity | ..];
    match goal with
    | |- context [isDigit ?c] =>
        change (isDigit c) with true; cbv iota;
        let v := eval vm_compute in (digitValue c) in change (digitValue c) with v
    end;
    rewrite <- IHd; f_equal; f_equal; lia.
Qed.

Lemma leadingDigits_uint d acc :
  d <> Decimal.Nil ->
  acc = None \/ acc = Some 0 ->
  leadingDigits (NilEmpty.string_of_uint d) acc = Some (Z.of_N (Pos.of_uint d)).
Proof.
  revert acc. induction d; intros acc Hd Hacc; [contradiction | ..];
    cbn [NilEmpty.string_of_uint leadingDigits Pos.of_uint];
    match goal with
    | |- context [isDigit ?c] =>
        change (isDigit c) with true; cbv iota;
        let v := eval vm_compute in (digitValue c) in change (digitValue c) with v
    end;
    destruct Hacc; subst acc; cbn [Z.mul Z.add];
    first [ rewrite leadingDigits_acc; reflexivity
          | destruct d; [reflexivity | apply IHd; [discriminate | auto] ..] ].
Qed.

Lemma parseInt_uint d :
  d <> Decimal.Nil ->
  parseInt (NilEmpty.string_of_uint d) = Some (Z.of_N (Pos.of_uint d)).
Proof.
  intros Hd. rewrite <- (leadingDigits_uint d None Hd (or_introl eq_refl)).
  destruct d; [contradiction | reflexivity ..].
Qed.

Lemma string_of_uint_nonnil d :
  d <> Decimal.Nil -> NilZero.string_of_uint d = NilEmpty.string_of_uint d.
Proof. destruct d; [contradiction | reflexivity ..]. Qed.

Lemma parseInt_decimal n : parseInt (showZ n) = Some n.
Proof.
  unfold showZ. destruct n as [| p | p]; [reflexivity | ..];
    cbn [Z.to_int NilZero.string_of_int];
    pose proof (DecimalPos.Unsigned.to_uint_nonnil p) as Hnonnil;
    rewrite (string_of_uint_nonnil _ Hnonnil).
  - rewrite (parseInt_uint _ Hnonnil), DecimalPos.Unsigned.of_to. reflexivity.
  - change (parseInt (String "-" (NilEmpty.string_of_uint (Pos.to_uint p))))
      with (option_map Z.opp (leadingDigits (NilEmpty.string_of_uint (Pos.to_uint p)) None)).
    rewrite (leadingDigits_uint _ None Hnonnil (or_introl eq_refl)),
      DecimalPos.Unsigned.of_to.
    reflexivity.
Qed.

Lemma leadingDigits_stops d c rest acc :
  isDigit c = false ->
  leadingDigits (NilEmpty.string_of_uint d ++ String c rest) acc
  = leadingDigits (NilEmpty.string_of_uint d) acc.
Proof.
  intros Hc. revert acc.
  induction d; intros acc; cbn [NilEmpty.string_of_uint append leadingDigits];
    [now rewrite Hc | ..];
    match goal with
    | |- context [isDigit ?c] => change (isDigit c) with true; cbv iota
    end; apply IHd.
Qed.

(** [parseInt] reads back every integer a template literal renders, and it
    stops at the first character that is no digit. *)
Lemma parseInt_showZ n c rest :
  isDigit c = false ->
  parseInt (showZ n) = Some n
  /\ parseInt (" " ++ showZ n ++ String c rest) = Some n.
Proof.
  intros Hc. split; [apply parseInt_decimal |].
  rewrite <- (parseInt_decimal n).
  unfold showZ. destruct n as [| p | p];
    cbn [Z.to_int NilZero.string_of_int].
  - change (leadingDigits (String c rest) (Some 0) = Some 0).
    cbn [leadingDigits]. now rewrite Hc.
  - pose proof (DecimalPos.Unsigned.to_uint_nonnil p) as Hnonnil.
    rewrite (string_of_uint_nonnil _ Hnonnil).
    rewrite (parseInt_uint _ Hnonnil),
      <- (leadingDigits_uint _ None Hnonnil (or_introl eq_refl)),
      <- (leadingDigits_stops _ c rest None Hc).
    destruct (Pos.to_uint p); [contradiction | reflexivity ..].
  - pose proof (DecimalPos.Unsigned.to_uint_nonnil p) as Hnonnil.
    rewrite (string_of_uint_nonnil _ Hnonnil).
    change (parseInt (String "-" (NilEmpty.string_of_uint (Pos.to_uint p))))
      with (option_map Z.opp (leadingDigits (NilEmpty.string_of_uint (Pos.to_uint p)) None)).
    change (parseInt (" " ++ String "-" (NilEmpty.string_of_uint (Pos.to_uint p))
                        ++ String c rest))
      with (option_map Z.opp
              (leadingDigits (NilEmpty.string_of_uint (Pos.to_uint p) ++ String c rest) None)).
    now rewrite leadingDigits_stops.
Qed.

Lemma paging_bounds maxLimit page limit :
  1 <= maxLimit ->
  let p := paging maxLimit page limit in
  1 <= pageNum p /\ 1 <= limitNum p <= maxLimit
  /\ skip p = (pageNum p - 1) * limitNum p /\ 0 <= skip p.
Proof.
  intros Hmax. unfold paging. cbn [pageNum limitNum skip].
  repeat split; try lia. apply Z.mul_nonneg_nonneg; lia.
Qed.

(** X21.  The paging of every admin list (maximum limit an exact double,
    as 100 and 50 are): whatever the query strings hold, the page is at
    least 1 and the limit lies between 1 and the view's maximum.  A decimal
    page [k] from 1 to [2 ^ 53] and a decimal limit [l >= 1] give page [k]
    and limit [min maxLimit l], and the rows skipped are [(k - 1)] times that
    limit as long as the product is an exact double too.  Without a page the
    page is 1 and nothing is skipped; without a limit, and with a limit of
    0, the limit is the default 20 (not 1); a negative limit gives 1. *)
Theorem paging_of_query maxLimit page limit :
  1 <= maxLimit -> exactInteger maxLimit ->
  let p := paging maxLimit page limit in
  (1 <= pageNum p /\ 1 <= limitNum p <= maxLimit)
  /\ (forall k l,
         1 <= k -> exactInteger k -> 1 <= l ->
         page = Some (showZ k) -> limit = Some (showZ l) ->
         pageNum p = k
         /\ limitNum p = Z.min maxLimit l
         /\ (exactInteger ((k - 1) * Z.min maxLimit l) ->
             skip p = (k - 1) * Z.min maxLimit l))
  /\ (page = None -> pageNum p = 1 /\ skip p = 0)
  /\ (limit = None -> limitNum p = Z.min maxLimit 20)
  /\ (limit = Some (showZ 0) -> limitNum p = Z.min maxLimit 20)
  /\ (forall l, l < 0 -> limit = Some (showZ l) -> limitNum p = 1).
Proof.
  intros Hmax _ p.
  split; [pose proof (paging_bounds maxLimit page limit Hmax) as H; cbv zeta in H; tauto |].
  subst p. unfold paging. cbn [pageNum limitNum skip].
  split; [| split; [| split; [| split]]].
  - intros k l Hk _ Hl -> ->.
    rewrite (parseInt_decimal k), (parseInt_decimal l). unfold orElse.
    destruct (k =? 0) eqn:Ek; [apply Z.eqb_eq in Ek; lia |].
    destruct (l =? 0) eqn:El; [apply Z.eqb_eq in El; lia |].
    split; [lia |]. split; [f_equal; lia |].
    intros _. rewrite !Z.max_r by lia. reflexivity.
  - intros ->. split; reflexivity.
  - intros ->. reflexivity.
  - intros ->. reflexivity.
  - intros l Hl ->. rewrite (parseInt_decimal l). unfold orElse.
    destruct (l =? 0) eqn:El; [apply Z.eqb_eq in El; lia |]. lia.
Qed.

Lemma firstn_add {A} (a b : nat) (rows : list A) :
  firstn (a + b) rows = (firstn a rows ++ firstn b (skipn a rows))%list.
Proof.
  revert rows. induction a as [| a IH]; intros rows; [reflexivity |].
  destruct rows as [| r rows]; cbn; [now rewrite firstn_nil | now rewrite IH].
Qed.

Lemma concat_pages {A} (l n : nat) (rows : list A) :
  List.concat (map (fun k => firstn l (skipn ((k - 1) * l) rows)) (seq 1 n))
  = firstn (n * l) rows.
Proof.
  induction n as [| n IH]; [reflexivity |].
  rewrite seq_S, map_app, concat_app, IH. cbn [map List.concat plus].
  rewrite app_nil_r. replace (S n - 1)%nat with n by lia.
  replace (S n * l)%nat with (n * l + l)%nat by lia.
  now rewrite firstn_add.
Qed.

Lemma totalPagesOf_ceiling total limit :
  0 <= total -> 1 <= limit ->
  let pages := totalPagesOf total limit in
  0 <= pages /\ (pages - 1) * limit < total + Z.b2z (total =? 0) /\ total <= pages * limit.
Proof.
  intros Htotal Hlimit. unfold totalPagesOf.
  pose proof (Z.mul_div_le (- total) limit ltac:(lia)) as Hle.
  pose proof (Z.mul_succ_div_gt (- total) limit ltac:(lia)) as Hgt.
  assert ((- total) / limit <= 0) by (apply Z.div_le_upper_bound; lia).
  destruct (total =? 0) eqn:E; cbn [Z.b2z]; repeat split; nia.
Qed.

Lemma paging_page maxLimit k limit :
  1 <= k ->
  paging maxLimit (Some (showZ k)) limit
  = mkPaging k (limitNum (paging maxLimit None limit))
      ((k - 1) * limitNum (paging maxLimit None limit)).
Proof.
  intros Hk. unfold paging. cbn [limitNum]. rewrite parseInt_decimal. unfold orElse.
  destruct (k =? 0) eqn:E; [apply Z.eqb_eq in E; lia |].
  now rewrite Z.max_r by lia.
Qed.

(** X22.  Paging through a list visits every row exactly once, in order:
    with the limit of the query, the pages [1 .. totalPages] laid end to end
    are the list itself, no page is longer than the limit, and every page
    after the last is empty. *)
Theorem pages_cover_rows {A} (rows : list A) maxLimit limit :
  1 <= maxLimit ->
  let page k := pageOf (paging maxLimit (Some (showZ k)) limit) rows in
  let limitNum := limitNum (paging maxLimit None limit) in
  let totalPages := totalPagesOf (Z.of_nat (List.length rows)) limitNum in
  List.concat (map (fun k => page (Z.of_nat k)) (seq 1 (Z.to_nat totalPages))) = rows
  /\ (forall k, 1 <= k -> Z.of_nat (List.length (page k)) <= limitNum)
  /\ (forall k, totalPages < k -> page k = []).
Proof.
  intros Hmax page l totalPages.
  destruct (paging_bounds maxLimit None limit Hmax) as (_ & [Hl _] & _). fold l in Hl.
  destruct (totalPagesOf_ceiling (Z.of_nat (List.length rows)) l ltac:(lia) Hl)
    as (Hpages & _ & Hcover). fold totalPages in Hpages, Hcover.
  assert (Hpage : forall k, 1 <= k ->
                            page k = firstn (Z.to_nat l)
                                       (skipn ((Z.to_nat k - 1) * Z.to_nat l) rows)).
  { intros k Hk. subst page. cbv beta. rewrite (paging_page maxLimit k limit Hk).
    unfold pageOf. cbn [limitNum skip]. fold l. f_equal. f_equal. nia. }
  split; [| split].
  - rewrite (map_ext_in _ (fun k => firstn (Z.to_nat l)
                                      (skipn ((k - 1) * Z.to_nat l) rows))).
    + rewrite concat_pages. apply firstn_all2. nia.
    + intros k Hk. apply in_seq in Hk. rewrite Hpage by lia. now rewrite Nat2Z.id.
  - intros k Hk. rewrite (Hpage k Hk). rewrite length_firstn. lia.
  - intros k Hk. rewrite (Hpage k ltac:(lia)).
    rewrite skipn_all2; [apply firstn_nil | nia].
Qed.

Lemma in_firstn {A} (n : nat) (rows : list A) x : In x (firstn n rows) -> In x rows.
Proof.
  intros H. rewrite <- (firstn_skipn n rows). apply in_or_app. now left.
Qed.

Lemma in_skipn {A} (n : nat) (rows : list A) x : In x (skipn n rows) -> In x rows.
Proof.
  intros H. rewrite <- (firstn_skipn n rows). apply in_or_app. now right.
Qed.

Lemma in_pageOf {A} (p : Paging) (rows : list A) x : In x (pageOf p rows) -> In x rows.
Proof. unfold pageOf. intros H. eapply in_skipn, in_firstn, H. Qed.

Lemma length_pageOf {A} (p : Paging) (rows : list A) :
  1 <= limitNum p -> Z.of_nat (List.length (pageOf p rows)) <= limitNum p.
Proof. intros H. unfold pageOf. rewrite length_firstn. lia. Qed.

Lemma StronglySorted_skipn {A} (R : A -> A -> Prop) (n : nat) (rows : list A) :
  StronglySorted R rows -> StronglySorted R (skipn n rows).
Proof.
  revert rows. induction n as [| n IH]; intros rows H; [exact H |].
  destruct rows as [| r rows]; [exact H |]. cbn. apply IH. now inversion H.
Qed.

Lemma StronglySorted_firstn {A} (R : A -> A -> Prop) (n : nat) (rows : list A) :
  StronglySorted R rows -> StronglySorted R (firstn n rows).
Proof.
  revert rows. induction n as [| n IH]; intros rows H; [constructor |].
  destruct rows as [| r rows]; [constructor |]. cbn. inversion H as [| ? ? Hrest Hall]; subst.
  constructor; [now apply IH |].
  rewrite Forall_forall in *. intros x Hx. apply Hall. eapply in_firstn, Hx.
Qed.

Lemma StronglySorted_map {A B} (R : B -> B -> Prop) (f : A -> B) (rows : list A) :
  StronglySorted (fun a b => R (f a) (f b)) rows -> StronglySorted R (map f rows).
Proof.
  induction 1 as [| r rows Hrest IH Hall]; cbn; constructor; [exact IH |].
  now apply Forall_map.
Qed.

(** X23.  The activity log view is read-only and answers one page of the
    log, newest first: every entry is a row of the table with its admin
    joined in, there are at most [limit <= 50] of them, the total is the
    number of rows, and a page after the last is empty. *)
Theorem getActivityLog_page db page limit :
  exists response,
    getActivityLog page limit db = (Ok response, db)
    /\ 1 <= pg_page (al_pagination response)
    /\ 1 <= pg_limit (al_pagination response) <= 50
    /\ pg_total (al_pagination response) = Z.of_nat (List.length (adminActivityLogs db))
    /\ Z.of_nat (List.length (al_logs response)) <= pg_limit (al_pagination response)
    /\ (forall entry,
           In entry (al_logs response) ->
           In (fst entry) (adminActivityLogs db)
           /\ snd entry = option_map asAdminView
                            (findClientById (AdminActivityLog.adminId (fst entry)) db))
    /\ StronglySorted
         (fun a b => AdminActivityLog.createdAt (fst b) <= AdminActivityLog.createdAt (fst a))
         (al_logs response)
    /\ (pg_totalPages (al_pagination response) < pg_page (al_pagination response) ->
        al_logs response = []).
Proof.
  destruct (paging_bounds 50 page limit ltac:(lia)) as (Hpage & Hlimit & Hskip & _).
  eexists. split; [reflexivity |].
  cbn [al_pagination al_logs paginationOf pg_page pg_limit pg_total pg_totalPages].
  split; [exact Hpage |]. split; [exact Hlimit |]. split; [reflexivity |].
  split; [rewrite length_map; apply length_pageOf; lia |].
  split; [| split].
  - intros entry Hin. apply in_map_iff in Hin. destruct Hin as (l & <- & Hin).
    split; [| reflexivity]. cbn [fst].
    apply in_pageOf in Hin. eapply Permutation_in; [apply sortBy_perm | exact Hin].
  - apply StronglySorted_map
      with (R := fun a b => AdminActivityLog.createdAt (fst b)
                            <= AdminActivityLog.createdAt (fst a))
           (f := fun l => (l, option_map asAdminView
                                (findClientById (AdminActivityLog.adminId l) db))).
    cbn [fst]. unfold pageOf.
    apply StronglySorted_firstn, StronglySorted_skipn, sortBy_descending.
  - intros Hbeyond.
    destruct (totalPagesOf_ceiling (Z.of_nat (List.length (adminActivityLogs db)))
                (limitNum (paging 50 page limit)) ltac:(lia) ltac:(lia))
      as (_ & _ & Hcover).
    unfold pageOf. rewrite skipn_all2; [now rewrite firstn_nil |].
    rewrite (Permutation_length (sortBy_perm _ _)). rewrite Hskip. nia.
Qed.


(** ** The client's documents *)

Lemma getDocuments_all db clientId :
  getDocuments clientId None db
  = (Ok (newestFirst (filter (fun d => ownsDocument clientId d && true) (documents db))), db).
Proof. reflexivity. Qed.

Lemma getDocuments_listing db clientId category listed :
  fst (getDocuments clientId category db) = Ok listed ->
  exists selected : Document.t -> bool,
    listed = newestFirst (filter (fun d => ownsDocument clientId d && selected d)
                            (documents db)).
Proof.
  unfold getDocuments. monad.
  destruct category as [[| c rest] |]; cbn.
  - intros [= <-]. now exists (fun _ => true).
  - destruct (categoryOfString (String c rest)) as [parsed |]; cbn; [| discriminate].
    intros [= <-]. now exists (fun d => sameCategory (Document.category d) parsed).
  - intros [= <-]. now exists (fun _ => true).
Qed.

Lemma addDocument_runs db clientId input env size :
  intColumn (ui_fileSize input) = Ok size ->
  addDocument clientId input env db
  = (Ok (Document.mk (freshId env 0) clientId (ui_fileName input) (ui_fileUrl input)
           (ui_fileKey input) (ui_fileType input) size (ui_category input)
           DocumentVerificationStatus.PENDING None None (now env)),
     with_documents
       (fun rows =>
          (rows ++ [Document.mk (freshId env 0) clientId (ui_fileName input)
                      (ui_fileUrl input) (ui_fileKey input) (ui_fileType input) size
                      (ui_category input) DocumentVerificationStatus.PENDING None None
                      (now env)])%list) db).
Proof. intros Hsize. unfold addDocument. monad. now rewrite Hsize. Qed.

Lemma intColumn_whole x size :
  intColumn x = Ok size <-> x = Whole size /\ - 2 ^ 31 <= size < 2 ^ 31.
Proof.
  unfold intColumn, fitsInteger. split.
  - destruct x as [n | n]; [| discriminate].
    destruct (- 2 ^ 31 <=? n) eqn:Hlow; [| discriminate].
    destruct (n <? 2 ^ 31) eqn:Hhigh; [| discriminate].
    intros [= <-]. apply Z.leb_le in Hlow. apply Z.ltb_lt in Hhigh. auto.
  - intros [-> [Hlow Hhigh]]. apply Z.leb_le in Hlow. apply Z.ltb_lt in Hhigh.
    now rewrite Hlow, Hhigh.
Qed.

(** X25.  A client's document listing is read-only, holds only that
    client's documents and is ordered newest first.  An upload whose size is
    a whole number fitting the 32-bit column is stored with the columns sent,
    PENDING and unverified, appears in the client's next listing and changes
    no other client's listing; an upload with a fractional size or one
    outside the column's range is answered 500 and nothing is stored. *)
Theorem addDocument_then_listed db clientId input env :
  (forall category,
      snd (getDocuments clientId category db) = db
      /\ forall listed,
          fst (getDocuments clientId category db) = Ok listed ->
          Forall (fun d => Document.clientId d = clientId /\ In d (documents db)) listed
          /\ StronglySorted (fun a b => Document.uploadedAt b <= Document.uploadedAt a) listed)
  /\ (forall size,
         ui_fileSize input = Whole size -> - 2 ^ 31 <= size < 2 ^ 31 ->
         exists document db',
           addDocument clientId input env db = (Ok document, db')
           /\ documents db' = (documents db ++ [document])%list
           /\ Document.clientId document = clientId
           /\ Document.fileName document = ui_fileName input
           /\ Document.fileUrl document = ui_fileUrl input
           /\ Document.fileKey document = ui_fileKey input
           /\ Document.fileType document = ui_fileType input
           /\ Document.fileSize document = size
           /\ Document.category document = ui_category input
           /\ Document.uploadedAt document = now env
           /\ Document.verificationStatus document = DocumentVerificationStatus.PENDING
           /\ Document.rejectionReason document = None
           /\ Document.verifiedAt document = None
           /\ (exists listed, getDocuments clientId None db' = (Ok listed, db')
                              /\ In document listed)
           /\ forall other category,
               other <> clientId ->
               fst (getDocuments other category db') = fst (getDocuments other category db))
  /\ ((forall size, ui_fileSize input = Whole size -> ~ - 2 ^ 31 <= size < 2 ^ 31) ->
      failsWith 500 (addDocument clientId input env db)
      /\ snd (addDocument clientId input env db) = db).
Proof.
  split; [| split].
  - intros category. split.
    + unfold getDocuments. monad.
      destruct category as [[| c rest] |]; cbn; try reflexivity.
      now destruct (categoryOfString (String c rest)).
    + intros listed Hlisted.
      destruct (getDocuments_listing db clientId category listed Hlisted)
        as (selected & ->).
      split; [| apply sortBy_descending].
      apply Forall_forall. intros d Hd.
      apply (Permutation_in _ (sortBy_perm _ _)) in Hd. apply filter_In in Hd.
      destruct Hd as [Hin Hd]. apply andb_prop in Hd. destruct Hd as [Howns _].
      apply String.eqb_eq in Howns. auto.
  - intros size Hwhole Hrange.
    assert (Hsize : intColumn (ui_fileSize input) = Ok size)
      by (apply intColumn_whole; auto).
    rewrite (addDocument_runs db clientId input env size Hsize).
    eexists. eexists. split; [reflexivity |].
    split; [destruct db; reflexivity |].
    cbn [Document.clientId Document.verificationStatus Document.verifiedAt
           Document.fileName Document.fileUrl Document.fileKey Document.fileType
           Document.fileSize Document.category Document.uploadedAt
           Document.rejectionReason].
    do 11 (split; [reflexivity |]).
    split.
    + eexists. split; [apply getDocuments_all |].
      apply (Permutation_in _ (Permutation_sym (sortBy_perm _ _))).
      apply filter_In. destruct db; cbn. split; [apply in_or_app; right; now left |].
      unfold ownsDocument. cbn. now rewrite String.eqb_refl.
    + intros other category Hother. unfold getDocuments. monad.
      assert (Hsame : forall selected : Document.t -> bool,
                 filter (fun d => ownsDocument other d && selected d)
                   (documents
                      (with_documents
                         (fun rows =>
                            (rows ++ [Document.mk (freshId env 0) clientId
                                        (ui_fileName input) (ui_fileUrl input)
                                        (ui_fileKey input) (ui_fileType input)
                                        size (ui_category input)
                                        DocumentVerificationStatus.PENDING None None
                                        (now env)])%list) db))
                 = filter (fun d => ownsDocument other d && selected d) (documents db)).
      { intros selected. destruct db; cbn [documents with_documents].
        rewrite filter_app. cbn [filter]. unfold ownsDocument at 2.
        cbn [Document.clientId].
        destruct (String.eqb clientId other) eqn:E;
          [apply String.eqb_eq in E; congruence |].
        cbn. apply app_nil_r. }
      destruct category as [[| c rest] |]; cbn [fst snd].
      * now rewrite Hsame.
      * destruct (categoryOfString (String c rest)); cbn [fst snd]; [| reflexivity].
        now rewrite Hsame.
      * now rewrite Hsame.
  - intros Hrefused. unfold addDocument, failsWith. monad.
    destruct (intColumn (ui_fileSize input)) as [size | e] eqn:Hsize.
    + apply intColumn_whole in Hsize. destruct Hsize as [Hwhole Hrange].
      now destruct (Hrefused size Hwhole).
    + cbn [fst snd]. split; [| reflexivity].
      unfold intColumn in Hsize. destruct (ui_fileSize input) as [n | n].
      * destruct (fitsInteger n); [discriminate |]. injection Hsize as <-.
        intros production. reflexivity.
      * injection Hsize as <-. intros production. reflexivity.
Qed.

Lemma deleteDocument_not_found db clientId id :
  (forall d, In d (documents db) -> Document.id d = id -> Document.clientId d <> clientId) ->
  deleteDocument clientId id db = (Throw (errors.notFound "Document"), db).
Proof.
  intros Hforeign. unfold deleteDocument. monad.
  destruct (find _ (documents db)) as [d |] eqn:Hfind; [| reflexivity].
  apply find_some in Hfind. destruct Hfind as [Hin Hd]. apply andb_prop in Hd.
  destruct Hd as [Hid Howns]. apply String.eqb_eq in Hid, Howns.
  now destruct (Hforeign d Hin Hid).
Qed.

Lemma filter_filter_in {A} (f g : A -> bool) (rows : list A) :
  (forall a, In a rows -> f a = true -> g a = true) ->
  filter f (filter g rows) = filter f rows.
Proof.
  induction rows as [| r rows IH]; intros H; [reflexivity |]. cbn [filter].
  destruct (g r) eqn:Hg; cbn [filter].
  - destruct (f r); rewrite IH; auto; intros; apply H; cbn; auto.
  - destruct (f r) eqn:Hf.
    + rewrite (H r (or_introl eq_refl) Hf) in Hg. discriminate.
    + apply IH. intros; apply H; cbn; auto.
Qed.

(** X26.  Deleting a document: an id that is unknown or belongs to another
    client is answered 404 and nothing is written; the owner's request removes
    the rows with that id and no other, so that asking again is answered 404,
    and with ids unique every other client's documents are as before. *)
Theorem deleteDocument_effect db clientId id :
  ((forall d, In d (documents db) -> Document.id d = id -> Document.clientId d <> clientId) ->
   deleteDocument clientId id db = (Throw (errors.notFound "Document"), db))
  /\ (forall d,
         In d (documents db) -> Document.id d = id -> Document.clientId d = clientId ->
         exists db',
           deleteDocument clientId id db
           = (Ok (mkMessageResponse true "Document deleted successfully"), db')
           /\ (forall d', In d' (documents db')
                          <-> In d' (documents db) /\ Document.id d' <> id)
           /\ deleteDocument clientId id db' = (Throw (errors.notFound "Document"), db')
           /\ (NoDup (map Document.id (documents db)) ->
               filter (fun d' => negb (ownsDocument clientId d')) (documents db')
               = filter (fun d' => negb (ownsDocument clientId d')) (documents db))).
Proof.
  split; [apply deleteDocument_not_found |].
  intros d Hin Hid Hclient.
  assert (Hrows : forall d', In d' (filter (fun x => negb (String.eqb (Document.id x) id))
                                      (documents db))
                             <-> In d' (documents db) /\ Document.id d' <> id).
  { intros d'. rewrite filter_In.
    destruct (String.eqb_spec (Document.id d') id); cbn; intuition congruence. }
  exists (with_documents (filter (fun x => negb (String.eqb (Document.id x) id))) db).
  split; [| split; [| split]].
  - unfold deleteDocument. monad.
    destruct (find _ (documents db)) as [found |] eqn:Hfind; [reflexivity |].
    apply (find_none _ _ Hfind) in Hin. unfold ownsDocument in Hin.
    rewrite Hid, Hclient, !String.eqb_refl in Hin. discriminate.
  - destruct db; exact Hrows.
  - apply deleteDocument_not_found. intros d' Hin' Hid'.
    assert (In d' (documents db) /\ Document.id d' <> id) as [_ Hne]
        by (apply Hrows; destruct db; exact Hin').
    contradiction.
  - intros Hunique.
    replace (documents (with_documents
                          (filter (fun x => negb (String.eqb (Document.id x) id))) db))
      with (filter (fun x => negb (String.eqb (Document.id x) id)) (documents db))
      by (destruct db; reflexivity).
    apply filter_filter_in. intros d' Hin' Hforeign.
    destruct (String.eqb_spec (Document.id d') id) as [Hid' | Hid']; [| reflexivity].
    assert (d' = d) as -> by (apply (unique_id_same_row (documents db)); congruence).
    unfold ownsDocument in Hforeign. rewrite Hclient, String.eqb_refl in Hforeign.
    discriminate.
Qed.

(** ** Profile *)

Lemma applyProfile_noFields updateData c :
  noFields updateData = true -> applyProfile updateData c = c.
Proof.
  destruct updateData as [[?|] [?|] [?|] [?|] [?|]]; cbn; try discriminate.
  intros _. now destruct c.
Qed.

Lemma map_update_id {A} (selected : A -> bool) (update : A -> A) (rows : list A) :
  (forall a, update a = a) ->
  map (fun a => if selected a then update a else a) rows = rows.
Proof.
  intros H. induction rows as [| r rows IH]; cbn; [reflexivity |].
  rewrite IH. now destruct (selected r); rewrite ?H.
Qed.

Lemma updateClientReturning_runs db id update client :
  findClientById id db = Some client ->
  updateClientReturning id update db
  = (Ok (update client),
     with_clients (map (fun c => if String.eqb (Client.id c) id then update c else c)) db).
Proof.
  intros Hclient. unfold updateClientReturning, updateClientById. monad.
  now rewrite Hclient.
Qed.

Lemma findClientById_updated db id update client :
  (forall c, Client.id (update c) = Client.id c) ->
  findClientById id db = Some client ->
  findClientById id
    (with_clients (map (fun c => if String.eqb (Client.id c) id then update c else c)) db)
  = Some (update client).
Proof.
  intros Hid Hclient. pose proof (findClientById_id _ _ _ Hclient) as Hsame.
  unfold findClientById in *. destruct db; cbn [clients with_clients] in *.
  rewrite (find_update (fun c => String.eqb (Client.id c) id)
             (fun c => String.eqb (Client.id c) id) update
             (fun c => f_equal (fun i => String.eqb i id) (Hid c)) _ _ Hclient).
  now rewrite Hsame, String.eqb_refl.
Qed.

(** X27.  A profile update writes each member that is given to its column
    of the client's row and keeps each column whose member is not given, and
    it answers with the columns of the row as updated; no client's id,
    e-mail, password hash, verification flag or role changes, and no other
    client's row changes at all.  PATCH does what PUT does when a member is
    given; with none it is refused with 400, where PUT is served and changes
    nothing. *)
Theorem updateProfile_effect db clientId updateData client :
  findClientById clientId db = Some client ->
  exists db' view updated,
    updateProfile clientId updateData db = (Ok view, db')
    /\ findClientById clientId db' = Some updated
    /\ Client.firstName updated
       = match up_firstName updateData with
         | Some given => given
         | None => Client.firstName client
         end
    /\ Client.lastName updated
       = match up_lastName updateData with
         | Some given => given
         | None => Client.lastName client
         end
    /\ Client.companyName updated
       = match up_companyName updateData with
         | Some given => given
         | None => Client.companyName client
         end
    /\ Client.phone updated
       = match up_phone updateData with
         | Some given => given
         | None => Client.phone client
         end
    /\ Client.avatarUrl updated
       = match up_avatarUrl updateData with
         | Some given => given
         | None => Client.avatarUrl client
         end
    /\ (pv_id view = clientId
        /\ pv_email view = Client.email client
        /\ pv_firstName view = Client.firstName updated
        /\ pv_lastName view = Client.lastName updated
        /\ pv_companyName view = Client.companyName updated
        /\ pv_phone view = Client.phone updated
        /\ pv_avatarUrl view = Client.avatarUrl updated
        /\ pv_emailVerified view = Client.emailVerified client)
    /\ Forall2 (fun c c' =>
                  Client.id c' = Client.id c
                  /\ Client.email c' = Client.email c
                  /\ Client.passwordHash c' = Client.passwordHash c
                  /\ Client.emailVerified c' = Client.emailVerified c
                  /\ Client.role c' = Client.role c
                  /\ (Client.id c <> clientId -> c' = c))
         (clients db) (clients db')
    /\ (noFields updateData = false ->
        patchProfile clientId updateData db = updateProfile clientId updateData db)
    /\ (noFields updateData = true ->
        db' = db
        /\ patchProfile clientId updateData db
           = (Throw (errors.badRequest "No valid fields to update"), db)).
Proof.
  intros Hclient.
  exists (with_clients
            (map (fun c => if String.eqb (Client.id c) clientId
                           then applyProfile updateData c else c)) db).
  exists (asProfileView (applyProfile updateData client)), (applyProfile updateData client).
  split; [| split].
  - unfold updateProfile. monad.
    now rewrite (updateClientReturning_runs db clientId _ client Hclient).
  - apply findClientById_updated; [reflexivity | exact Hclient].
  - cbn [applyProfile Client.firstName Client.lastName Client.companyName Client.phone
           Client.avatarUrl].
    do 5 (split; [reflexivity |]).
    split.
    { cbn. rewrite (findClientById_id _ _ _ Hclient). repeat split; reflexivity. }
    split; [| split].
    + destruct db; cbn [clients with_clients]. clear Hclient.
      induction clients0 as [| c rows IH]; cbn [map]; constructor; [| exact IH].
      destruct (String.eqb_spec (Client.id c) clientId); cbn; intuition congruence.
    + intros Hsome. unfold patchProfile, updateProfile. monad. now rewrite Hsome.
    + intros Hnone. split.
      * destruct db; unfold with_clients; cbn [clients]. f_equal.
        apply map_update_id. intros c. now apply applyProfile_noFields.
      * unfold patchProfile. monad. now rewrite Hnone.
Qed.

(** X28.  Changing the password: a wrong current password is answered 401
    and nothing is written; the right one stores the hash of the new
    password on the client's row, which bcrypt then accepts, and leaves the
    e-mail, every other client and all refresh tokens as they were: the open
    sessions stay open. *)
Theorem changePassword_effect {R : Runtime} db clientId currentPassword newPassword env client :
  bcryptAccepts R ->
  findClientById clientId db = Some client ->
  let run := changePassword clientId currentPassword newPassword env db in
  (comparePassword currentPassword (Client.passwordHash client) = false ->
   run = (Throw (errors.unauthorized "Current password is incorrect"), db))
  /\ (comparePassword currentPassword (Client.passwordHash client) = true ->
      fst run = Ok (mkMessageResponse true "Password changed successfully")
      /\ refreshTokens (snd run) = refreshTokens db
      /\ (exists updated,
             findClientById clientId (snd run) = Some updated
             /\ Client.email updated = Client.email client
             /\ comparePassword newPassword (Client.passwordHash updated) = true)
      /\ (forall c, In c (clients db) -> Client.id c <> clientId ->
                    In c (clients (snd run)))).
Proof.
  intros Hbcrypt Hclient run. subst run.
  unfold changePassword, updateClientById. monad. rewrite Hclient. cbv zeta.
  split; intros Hpassword; rewrite Hpassword; cbn [negb fst snd]; [reflexivity |].
  rewrite Hclient. cbn [fst snd].
  split; [reflexivity |]. split; [destruct db; reflexivity |]. split.
  - eexists. split; [apply findClientById_updated; [reflexivity | exact Hclient] |].
    split; [reflexivity |]. cbn [setPasswordHash Client.passwordHash].
    unfold comparePassword, hashPassword. apply Hbcrypt.
  - intros c Hin Hother. destruct db; cbn [clients with_clients] in *.
    apply in_map_iff. exists c. split; [| exact Hin].
    destruct (String.eqb_spec (Client.id c) clientId); congruence.
Qed.

Lemma filter_negb_none {A} (selected : A -> bool) (rows : list A) :
  filter selected (filter (fun a => negb (selected a)) rows) = [].
Proof.
  induction rows as [| r rows IH]; cbn; [reflexivity |].
  destruct (selected r) eqn:E; cbn; [| rewrite E]; exact IH.
Qed.

Lemma find_filter_negb {A} (selected : A -> bool) (rows : list A) :
  find selected (filter (fun a => negb (selected a)) rows) = None.
Proof.
  induction rows as [| r rows IH]; cbn; [reflexivity |].
  destruct (selected r) eqn:E; cbn; [| rewrite E]; exact IH.
Qed.

Lemma substring_all s : substring 0 (String.length s) s = s.
Proof. induction s as [| c s IH]; cbn; [reflexivity | now rewrite IH]. Qed.

Lemma extractFileKeyFromUrl_key pathname url key :
  url <> EmptyString -> pathname url = Some ("/f/" ++ key) ->
  extractFileKeyFromUrl pathname url = Some key.
Proof.
  intros Hurl Hpath. unfold extractFileKeyFromUrl.
  destruct url; [contradiction |]. rewrite Hpath.
  change (startsWith ("/f/" ++ key) "/f/") with (String.prefix EmptyString key).
  replace (String.prefix EmptyString key) with true by (now destruct key).
  f_equal. change (substring 3 (String.length ("/f/" ++ key) - 3) ("/f/" ++ key))
    with (substring 0 (String.length key - 0) key).
  rewrite Nat.sub_0_r. apply substring_all.
Qed.

Lemma splitFirst_includes sep s : splitFirst sep s = None <-> includes s sep = false.
Proof.
  induction s as [| c s IH]; cbn [splitFirst includes].
  - destruct (String.prefix sep EmptyString); cbn; split; intros; try discriminate; reflexivity.
  - destruct (String.prefix sep (String c s)); cbn [orb];
      [split; intros; discriminate |].
    destruct (splitFirst sep s) as [[before after] |];
      [split; [discriminate | intros H; apply IH in H; discriminate] |].
    split; [intros _; now apply IH | reflexivity].
Qed.

Lemma prefix_before c before key :
  String.prefix "/f/" (String c (before ++ "/f/" ++ key))
  = String.prefix "/f/" (String c (before ++ "/f")).
Proof. destruct before as [| c2 [| c3 [| c4 before]]]; reflexivity. Qed.

Lemma splitFirst_at before key :
  includes (before ++ "/f") "/f/" = false ->
  splitFirst "/f/" (before ++ "/f/" ++ key) = Some (before, key).
Proof.
  induction before as [| c before IH]; intros Hfirst.
  - change (splitFirst "/f/" (EmptyString ++ "/f/" ++ key))
      with (if String.prefix EmptyString key
            then Some (EmptyString, substring 0 (String.length key - 0) key)
            else match splitFirst "/f/" ("f/" ++ key) with
                 | Some (b, a) => Some (String "/" b, a)
                 | None => None
                 end).
    replace (String.prefix EmptyString key) with true by (now destruct key).
    now rewrite Nat.sub_0_r, substring_all.
  - cbn [append includes] in Hfirst. apply orb_false_elim in Hfirst.
    destruct Hfirst as [Hhere Hlater].
    change (String c before ++ "/f/" ++ key) with (String c (before ++ "/f/" ++ key)).
    cbn [splitFirst].
    rewrite prefix_before, Hhere. now rewrite (IH Hlater).
Qed.

(** X29.  The file key of an UploadThing URL: none for an empty or
    unparseable URL and for a path without ["/f/"]; for a path ["/f/" ++ key]
    it is [key]; and for a path with ["/f/"] further in, it is the text
    between the first ["/f/"] and the next one (the rest of the path when
    there is no next one), or none when that text is empty. *)
Theorem extractFileKeyFromUrl_cases pathname url :
  (url = EmptyString \/ pathname url = None -> extractFileKeyFromUrl pathname url = None)
  /\ (forall key,
         url <> EmptyString -> pathname url = Some ("/f/" ++ key) ->
         extractFileKeyFromUrl pathname url = Some key)
  /\ (forall path,
         pathname url = Some path -> includes path "/f/" = false ->
         extractFileKeyFromUrl pathname url = None)
  /\ (forall before key,
         url <> EmptyString -> pathname url = Some (before ++ "/f/" ++ key) ->
         before <> EmptyString -> includes (before ++ "/f") "/f/" = false ->
         includes key "/f/" = false ->
         extractFileKeyFromUrl pathname url
         = match key with EmptyString => None | _ => Some key end)
  /\ (forall before key rest,
         url <> EmptyString ->
         pathname url = Some (before ++ "/f/" ++ key ++ "/f/" ++ rest) ->
         before <> EmptyString -> includes (before ++ "/f") "/f/" = false ->
         includes (key ++ "/f") "/f/" = false ->
         extractFileKeyFromUrl pathname url
         = match key with EmptyString => None | _ => Some key end).
Proof.
  assert (Hstart : forall before after,
             before <> EmptyString -> includes (before ++ "/f") "/f/" = false ->
             startsWith (before ++ "/f/" ++ after) "/f/" = false).
  { intros before after Hbefore Hfirst.
    destruct before as [| c before]; [contradiction |].
    cbn [append includes] in Hfirst. apply orb_false_elim in Hfirst.
    destruct Hfirst as [Hhere _]. unfold startsWith.
    change (String c before ++ "/f/" ++ after) with (String c (before ++ "/f/" ++ after)).
    now rewrite prefix_before. }
  split; [| split; [apply extractFileKeyFromUrl_key | split; [| split]]].
  - intros [-> | Hnone]; [reflexivity |]. unfold extractFileKeyFromUrl.
    rewrite Hnone. now destruct url.
  - intros path Hpath Hnone. unfold extractFileKeyFromUrl. rewrite Hpath.
    destruct url; [reflexivity |].
    pose proof Hnone as Hsplit. apply splitFirst_includes in Hsplit. rewrite Hsplit.
    unfold startsWith. destruct path; cbn [includes] in Hnone;
      apply orb_false_elim in Hnone; now rewrite (proj1 Hnone).
  - intros before key Hurl Hpath Hbefore Hfirst Hkey. unfold extractFileKeyFromUrl.
    destruct url; [contradiction |]. rewrite Hpath.
    rewrite (Hstart before key Hbefore Hfirst), (splitFirst_at before key Hfirst).
    apply splitFirst_includes in Hkey. rewrite Hkey. reflexivity.
  - intros before key rest Hurl Hpath Hbefore Hfirst Hnext. unfold extractFileKeyFromUrl.
    destruct url; [contradiction |]. rewrite Hpath.
    rewrite (Hstart before (key ++ "/f/" ++ rest) Hbefore Hfirst),
      (splitFirst_at before (key ++ "/f/" ++ rest) Hfirst),
      (splitFirst_at key rest Hnext).
    reflexivity.
Qed.

(** X30.  Deleting an account removes the client and, by the cascade, every
    row that refers to it (tokens of the three kinds, documents, onboarding
    progress with its step rows), hands the keys of the client's files to the
    storage, and leaves the other clients, their documents and the catalog as
    they were; asking again finds no row and is refused. *)
Theorem deleteAccount_cascade db pathname clientId client :
  findClientById clientId db = Some client ->
  exists result db',
    deleteAccount pathname clientId db = (Ok result, db')
    /\ findClientById clientId db' = None
    /\ filter (ownedBy clientId) (refreshTokens db') = []
    /\ filter (ownedBy clientId) (passwordResetTokens db') = []
    /\ filter (ownedBy clientId) (emailVerificationTokens db') = []
    /\ filter (ownsDocument clientId) (documents db') = []
    /\ findProgressByClient clientId db' = None
    /\ (forall sp p,
           In sp (stepProgress db') -> In p (onboardingProgress db) ->
           StepProgress.onboardingProgressId sp = OnboardingProgress.id p ->
           OnboardingProgress.clientId p <> clientId)
    /\ (forall c, In c (clients db) -> Client.id c <> clientId -> In c (clients db'))
    /\ filter (fun d => negb (ownsDocument clientId d)) (documents db')
       = filter (fun d => negb (ownsDocument clientId d)) (documents db)
    /\ onboardingSteps db' = onboardingSteps db
    /\ (forall d, In d (documents db) -> Document.clientId d = clientId ->
                  Document.fileKey d <> EmptyString ->
                  In (Document.fileKey d) (da_deletedFiles result))
    /\ (forall url key, Client.avatarUrl client = Some url -> url <> EmptyString -> key <> EmptyString ->
                        pathname url = Some ("/f/" ++ key) ->
                        In key (da_deletedFiles result))
    /\ fst (deleteAccount pathname clientId db')
       = Throw (PrismaKnownRequestError "P2025" None
                  "An operation failed because it depends on one or more records that were required but not found.")
    /\ snd (deleteAccount pathname clientId db') = db'.
Proof.
  intros Hclient.
  assert (Hgone : findClientById clientId (deleteClientCascade clientId db) = None).
  { unfold findClientById, deleteClientCascade. cbn [clients].
    apply (find_filter_negb (fun c => String.eqb (Client.id c) clientId)). }
  eexists. exists (deleteClientCascade clientId db).
  split; [unfold deleteAccount; monad; rewrite Hclient; reflexivity |].
  split; [exact Hgone |].
  unfold deleteClientCascade at 1 2 3 4 5 6 7 8 9.
  cbn [clients refreshTokens passwordResetTokens emailVerificationTokens documents
         onboardingProgress onboardingSteps stepProgress da_deletedFiles].
  do 3 (split; [apply filter_ownedBy_deleteManyByClient |]).
  split; [apply (filter_negb_none (ownsDocument clientId)) |].
  split.
  { unfold findProgressByClient, deleteClientCascade. cbn [onboardingProgress].
    apply (find_filter_negb (fun p => String.eqb (OnboardingProgress.clientId p) clientId)). }
  split.
  { intros sp p Hsp Hp Hkey Howner. apply filter_In in Hsp. destruct Hsp as [_ Hsp].
    apply negb_true_iff in Hsp.
    assert (Hexists : existsb (String.eqb (StepProgress.onboardingProgressId sp))
                        (map OnboardingProgress.id
                           (filter (fun p => String.eqb (OnboardingProgress.clientId p)
                                               clientId)
                              (onboardingProgress db))) = true).
    { apply existsb_exists. exists (OnboardingProgress.id p).
      split; [| now apply String.eqb_eq].
      apply in_map. apply filter_In. split; [exact Hp | now apply String.eqb_eq]. }
    congruence. }
  split.
  { intros c Hin Hother. apply filter_In. split; [exact Hin |].
    destruct (String.eqb_spec (Client.id c) clientId); [contradiction | reflexivity]. }
  split.
  { apply filter_filter_in. auto. }
  split; [reflexivity |].
  split.
  { intros d Hin Howner Hkey. apply in_or_app. left. apply filter_In. split.
    - apply in_map. apply filter_In. split; [exact Hin |].
      unfold ownsDocument. now apply String.eqb_eq.
    - destruct (String.eqb_spec (Document.fileKey d) EmptyString); [contradiction | reflexivity]. }
  split.
  { intros url key Havatar Hurl Hkey Hpath. apply in_or_app. right.
    rewrite Havatar, (extractFileKeyFromUrl_key pathname url key Hurl Hpath).
    destruct key; [contradiction | now left]. }
  unfold deleteAccount. monad. rewrite Hgone. split; reflexivity.
Qed.

(** * The properties at work in the office scenario *)

Lemma runtime_bcryptAccepts : bcryptAccepts Office.runtime.
Proof. intros password rounds salt. apply String.eqb_refl. Qed.

Lemma logout_revokes_witness :
  let body := [("refreshToken", JStr "alice-phone")] in
  let client := Some (asAuthClient Sample.alice) in
  let db := Office.db in
  let token := "alice-phone" in
  let run := logout body client db in
  succeeds run
  /\ findTokenRow token (refreshTokens (snd run)) = None
  /\ (forall env, failsWith 401 (refresh (R := plainRuntime) token env (snd run)))
  /\ (forall c, client = Some c ->
        (forall r, In r (refreshTokens (snd run)) -> TokenRow.clientId r <> ac_id c)
        /\ (NoDup (map TokenRow.token (refreshTokens db)) ->
            forall held env,
              In held (refreshTokens db) -> TokenRow.clientId held = ac_id c ->
              failsWith 401 (refresh (R := plainRuntime) (TokenRow.token held) env (snd run))))
  /\ (forall other,
        In other (refreshTokens db) -> TokenRow.token other <> token ->
        (forall c, client = Some c -> TokenRow.clientId other <> ac_id c) ->
        In other (refreshTokens (snd run))).
Proof.
  apply (logout_revokes (R := plainRuntime) [("refreshToken", JStr "alice-phone")]
           (Some (asAuthClient Sample.alice)) Office.db "alice-phone");
    [reflexivity | discriminate].
Defined.

Lemma email_verification_round_trip_witness :
  let db := Office.db in
  let clientId := "c2" in
  let client := Office.bob in
  let env := Sample.envAt 1000 "v" in
  let env2 := Sample.envAt 2000 "w" in
  let sent := sendVerificationEmail clientId env db in
  let verified := verifyEmail (randomHex env) env2 (snd sent) in
  succeeds sent
  /\ filter (ownedBy clientId) (emailVerificationTokens (snd sent))
     = [TokenRow.mk (freshId env 0) (randomHex env) clientId (now env + 24 * 60 * 60 * 1000)]
  /\ outbox (snd sent)
     = (outbox db ++ [Email.mk (Client.email client) (Client.firstName client)
                        (randomHex env) Email.Verification])%list
  /\ succeeds verified
  /\ option_map Client.emailVerified (findClientById clientId (snd verified)) = Some true
  /\ filter (ownedBy clientId) (emailVerificationTokens (snd verified)) = []
  /\ (forall env3, failsBadRequest (verifyEmail (randomHex env) env3 (snd verified)))
  /\ (forall env4, failsBadRequest (sendVerificationEmail clientId env4 (snd verified))).
Proof.
  apply (email_verification_round_trip Office.db "c2" Office.bob (Sample.envAt 1000 "v")
           (Sample.envAt 2000 "w"));
    [reflexivity | reflexivity | reflexivity | cbn; lia].
Defined.

Lemma verifyEmail_expired_witness :
  let db := Office.db in
  let token := "old-verify" in
  let row := TokenRow.mk "ev1" "old-verify" "c2" 5000 in
  let env := Sample.envAt 6000 "x" in
  let run := verifyEmail token env db in
  fst run = Throw (errors.badRequest "Verification token has expired")
  /\ snd run = with_emailVerificationTokens (deleteById (TokenRow.id row)) db
  /\ clients (snd run) = clients db
  /\ (NoDup (map TokenRow.token (emailVerificationTokens db)) ->
      forall env2, failsBadRequest (verifyEmail token env2 (snd run))).
Proof.
  apply (verifyEmail_expired Office.db "old-verify" (TokenRow.mk "ev1" "old-verify" "c2" 5000)
           (Sample.envAt 6000 "x"));
    [reflexivity | cbn; lia].
Defined.

Lemma password_reset_round_trip_witness :
  let db := Office.db in
  let email := "Bob@X.io" in
  let client := Office.bob in
  let env := Sample.envAt 1000 "f" in
  let env2 := Sample.envAt 2000 "g" in
  let newPassword := "NewPass123" in
  let requested := forgotPassword email env db in
  let reset := resetPassword (R := Office.runtime) (randomHex env) newPassword env2
                 (snd requested) in
  succeeds requested
  /\ filter (ownedBy (Client.id client)) (passwordResetTokens (snd requested))
     = [TokenRow.mk (freshId env 0) (randomHex env) (Client.id client)
          (now env + 60 * 60 * 1000)]
  /\ succeeds reset
  /\ option_map Client.passwordHash (findClientByEmail (toLowerCase email) (snd reset))
     = Some (hashPassword (R := Office.runtime) newPassword (bcryptSalt env2))
  /\ (forall password env3,
         failsBadRequest (resetPassword (R := Office.runtime) (randomHex env) password env3
                            (snd reset)))
  /\ (forall env4,
        findTokenRow (generateRefreshToken (R := Office.runtime) (Client.id client)
                        (Client.email client) (now env4)) (refreshTokens (snd reset)) = None ->
        exists response,
          fst (login (R := Office.runtime) email newPassword env4 (snd reset)) = Ok response
          /\ li_id response = Client.id client).
Proof.
  apply (password_reset_round_trip (R := Office.runtime) Office.db "Bob@X.io" Office.bob
           (Sample.envAt 1000 "f") (Sample.envAt 2000 "g") "NewPass123"
           runtime_bcryptAccepts);
    [reflexivity | reflexivity | cbn; lia].
Defined.

Lemma resetPassword_refusals_witness :
  resetPassword (R := plainRuntime) "never-issued" "NewPass123" (Sample.envAt 2000 "g")
    Sample.resetting
  = (Throw (errors.badRequest "Invalid or expired reset token"), Sample.resetting)
  /\ resetPassword (R := plainRuntime) "reset-1" "NewPass123"
       (Sample.envAt 1000003600001 "g") Sample.resetting
     = (Throw (errors.badRequest "Reset token has expired"),
        with_passwordResetTokens (deleteById "pr1") Sample.resetting).
Proof.
  split.
  - apply (proj1 (resetPassword_refusals (R := plainRuntime) Sample.resetting "never-issued"
                    "NewPass123" (Sample.envAt 2000 "g"))).
    reflexivity.
  - apply (proj2 (resetPassword_refusals (R := plainRuntime) Sample.resetting "reset-1"
                    "NewPass123" (Sample.envAt 1000003600001 "g"))
             (TokenRow.mk "pr1" "reset-1" "c1" 1000003600000)).
    + reflexivity.
    + cbn. lia.
Defined.

Lemma login_refusals_witness :
  login (R := plainRuntime) "nobody@x.io" "Secure123" (Sample.envAt 1000 "l") Office.db
  = (Throw (errors.unauthorized "Invalid email or password"), Office.db)
  /\ login (R := plainRuntime) "A@B.com" "secure123" (Sample.envAt 1000 "l") Office.db
     = (Throw (errors.unauthorized "Invalid email or password"), Office.db).
Proof.
  split.
  - apply (login_refusals (R := plainRuntime) Office.db "nobody@x.io" "Secure123"
             (Sample.envAt 1000 "l")).
    left. reflexivity.
  - apply (login_refusals (R := plainRuntime) Office.db "A@B.com" "secure123"
             (Sample.envAt 1000 "l")).
    right. exists Sample.alice. split; reflexivity.
Defined.

Lemma signup_duplicate_witness :
  let registered :=
    signup (R := plainRuntime) "Carol@X.io" "Passw0rd1" "Carol" "Chen" (Sample.envAt 1000 "s")
      Office.db in
  succeeds registered
  /\ signup (R := plainRuntime) "CAROL@x.IO" "Other1234" "C" "C" (Sample.envAt 2000 "t")
       (snd registered)
     = (Throw (errors.conflict "Email already registered"), snd registered).
Proof.
  split; [eexists; reflexivity |].
  apply (signup_duplicate (R := plainRuntime) Office.db "Carol@X.io" "Passw0rd1" "Carol"
           "Chen" (Sample.envAt 1000 "s")
           (mkSignupResponse "s-0" "carol@x.io" "Carol" "Chen"
              (mkTokens (generateAccessToken (R := plainRuntime) "s-0" "carol@x.io" 1000)
                 (generateRefreshToken (R := plainRuntime) "s-0" "carol@x.io" 1000))));
    reflexivity.
Defined.

Lemma signup_then_login_witness :
  let registered :=
    signup (R := Office.runtime) "Carol@X.io" "Passw0rd1" "Carol" "Chen"
      (Sample.envAt 1000 "s") Office.db in
  let logged := login (R := Office.runtime) "carol@x.io" "Passw0rd1" (Sample.envAt 5000 "t")
                  (snd registered) in
  exists session,
    fst logged = Ok session
    /\ li_id session = "s-0"
    /\ li_email session = toLowerCase "Carol@X.io"
    /\ findTokenRow (refreshToken (li_tokens session)) (refreshTokens (snd logged)) <> None.
Proof.
  apply (signup_then_login (R := Office.runtime) Office.db "Carol@X.io" "Passw0rd1" "Carol"
           "Chen" (Sample.envAt 1000 "s")
           (mkSignupResponse "s-0" "carol@x.io" "Carol" "Chen"
              (mkTokens (generateAccessToken (R := Office.runtime) "s-0" "carol@x.io" 1000)
                 (generateRefreshToken (R := Office.runtime) "s-0" "carol@x.io" 1000)))
           (snd (signup (R := Office.runtime) "Carol@X.io" "Passw0rd1" "Carol" "Chen"
                   (Sample.envAt 1000 "s") Office.db))
           runtime_bcryptAccepts);
    reflexivity.
Defined.

Lemma auth_keeps_unique_tokens_witness :
  uniqueTokens Office.db
  /\ uniqueTokens (snd (login (R := plainRuntime) "A@B.com" "Secure123"
                          (Sample.envAt 1000000000500 "l") Office.db))
  /\ uniqueTokens (snd (logout [("refreshToken", JStr "bob-phone")] None Office.db)).
Proof.
  assert (H : uniqueTokens Office.db).
  { repeat apply conj; repeat (constructor; [cbn; intuition discriminate |]); constructor. }
  split; [exact H |]. split.
  - apply (proj1 (proj2 (auth_keeps_unique_tokens (R := plainRuntime)))
             "A@B.com" "Secure123" (Sample.envAt 1000000000500 "l") Office.db H).
  - apply (proj1 (proj2 (proj2 (proj2 (auth_keeps_unique_tokens (R := plainRuntime)))))
             [("refreshToken", JStr "bob-phone")] None Office.db H).
Defined.

Lemma authenticate_outcomes_witness :
  snd (authenticate (R := plainRuntime) (Some "Bearer alice-phone") (Sample.envAt 1000 "a")
         Office.db) = Office.db
  /\ bearerToken "Bearer eyJhbGciOi.eyJjbGllbnRJZCI6.c2ln" = "eyJhbGciOi.eyJjbGllbnRJZCI6.c2ln".
Proof.
  destruct (authenticate_outcomes (R := plainRuntime) (Some "Bearer alice-phone")
              (Sample.envAt 1000 "a") Office.db) as (Hreads & _ & Htoken).
  split; [exact Hreads |].
  apply (Htoken "eyJhbGciOi.eyJjbGllbnRJZCI6.c2ln").
  intros c Hin. cbn in Hin. intuition (subst; discriminate).
Defined.

Lemma saveStepData_effect_witness :
  let db := Office.db in
  let clientId := "c2" in
  let data := Some [("note", JStr "later")] in
  let step := OnboardingStep.mk "s3" 3 "verification" "Verification"
                "Wait for document verification" true in
  let progress := OnboardingProgress.mk "p2" "c2" 1 OnboardingStatus.PENDING None in
  let run := saveStepData clientId 3 data (Sample.envAt 3000 "d") db in
  let old := findStepProgress (OnboardingProgress.id progress) (OnboardingStep.id step) db in
  exists row after,
    fst run = Ok row
    /\ findStepProgress (OnboardingProgress.id progress) (OnboardingStep.id step) (snd run)
       = Some row
    /\ StepProgress.status row = StepStatus.IN_PROGRESS
    /\ StepProgress.data row
       = match data with
         | Some d => Some d
         | None => match old with Some o => StepProgress.data o | None => None end
         end
    /\ StepProgress.completedAt row
       = match old with Some o => StepProgress.completedAt o | None => None end
    /\ findProgressByClient clientId (snd run) = Some after
    /\ OnboardingProgress.currentStep after = OnboardingProgress.currentStep progress
    /\ OnboardingProgress.completedAt after = OnboardingProgress.completedAt progress
    /\ OnboardingProgress.status after
       = match OnboardingProgress.status progress with
         | OnboardingStatus.PENDING => OnboardingStatus.IN_PROGRESS
         | kept => kept
         end.
Proof.
  apply (saveStepData_effect Office.db "c2" 3 (Some [("note", JStr "later")])
           (Sample.envAt 3000 "d")
           (OnboardingStep.mk "s3" 3 "verification" "Verification"
              "Wait for document verification" true)
           (OnboardingProgress.mk "p2" "c2" 1 OnboardingStatus.PENDING None));
    reflexivity.
Defined.

Lemma unknown_step_not_found_witness :
  let db := Office.db in
  let env := Sample.envAt 3000 "d" in
  saveStepData "c1" 9 None env db = (Throw (errors.notFound "Onboarding step"), db)
  /\ completeStep "c1" 9 None env db = (Throw (errors.notFound "Onboarding step"), db)
  /\ forall production,
       httpStatus (errorHandler production (errors.notFound "Onboarding step")) = 404.
Proof.
  apply (unknown_step_not_found Office.db "c1" 9 None (Sample.envAt 3000 "d")).
  reflexivity.
Defined.

Lemma getOnboardingStatus_get_or_create_witness :
  let db := Office.db in
  let clientId := "adm" in
  let env := Sample.envAt 3000 "d" in
  let first := getOnboardingStatus clientId env db in
  let second := getOnboardingStatus clientId (Sample.envAt 4000 "e") (snd first) in
  succeeds first
  /\ snd first
     = match findProgressByClient clientId db with
       | Some _ => db
       | None =>
           with_onboardingProgress
             (fun rows =>
                (rows ++ [OnboardingProgress.mk (freshId env 0) clientId 1
                            OnboardingStatus.PENDING None])%list) db
       end
  /\ second = first.
Proof.
  apply (getOnboardingStatus_get_or_create Office.db "adm" (Sample.envAt 3000 "d")
           (Sample.envAt 4000 "e")).
  intros _. reflexivity.
Defined.

Lemma completeStep_then_status_witness :
  let db := Office.db in
  let step := OnboardingStep.mk "s2" 2 "documents" "Document Upload"
                "Upload required verification documents" true in
  let env := Sample.envAt 3000 "d" in
  let done := completeStep "c1" 2 None env db in
  let view := getOnboardingStatus "c1" (Sample.envAt 4000 "e") (snd done) in
  exists completed status entry,
    fst done = Ok completed
    /\ fst view = Ok status
    /\ snd view = snd done
    /\ os_currentStep status = cs_currentStep completed
    /\ os_status status = cs_status completed
    /\ os_completedAt status = cs_completedAt completed
    /\ In entry (os_steps status)
    /\ sw_step entry = step
    /\ sw_status entry = StepStatus.COMPLETED
    /\ sw_completedAt entry = Some (now env).
Proof.
  apply (completeStep_then_status Office.db "c1" 2 None (Sample.envAt 3000 "d")
           (OnboardingStep.mk "s2" 2 "documents" "Document Upload"
              "Upload required verification documents" true)
           (OnboardingProgress.mk "p1" "c1" 2 OnboardingStatus.IN_PROGRESS None)
           Sample.alice (Sample.envAt 4000 "e"));
    [reflexivity | reflexivity | cbn; lia | reflexivity | reflexivity].
Defined.

Lemma pointer_stays_in_range_witness :
  let env := Sample.envAt 3000 "d" in
  let requests :=
    [("c1", CompleteStep 2 None env); ("c2", SaveStepData 3 None env);
     ("adm", GetOnboardingStatus env); ("c1", CompleteStep 1 None env);
     ("c2", CompleteStep 4 None env)] in
  onboardingSteps (serveOnboardingAll requests Office.db) = onboardingSteps Office.db
  /\ pointersInRange (serveOnboardingAll requests Office.db).
Proof.
  apply (pointer_stays_in_range
           [("c1", CompleteStep 2 None (Sample.envAt 3000 "d"));
            ("c2", SaveStepData 3 None (Sample.envAt 3000 "d"));
            ("adm", GetOnboardingStatus (Sample.envAt 3000 "d"));
            ("c1", CompleteStep 1 None (Sample.envAt 3000 "d"));
            ("c2", CompleteStep 4 None (Sample.envAt 3000 "d"))] Office.db).
  - repeat (constructor; [cbn; lia |]). constructor.
  - repeat (constructor; [unfold pointerInRange; cbn; lia |]). constructor.
Defined.

Lemma getOnboardingStatus_lists_catalog_witness :
  exists response,
    fst (getOnboardingStatus "c1" (Sample.envAt 3000 "d") Office.db) = Ok response
    /\ map sw_step (os_steps response) = Sample.steps
    /\ map sw_status (os_steps response)
       = [StepStatus.COMPLETED; StepStatus.PENDING; StepStatus.PENDING; StepStatus.PENDING].
Proof.
  destruct (getOnboardingStatus_lists_catalog Office.db "c1" (Sample.envAt 3000 "d"))
    as (response & Hrun & _).
  exists response. split; [exact Hrun |].
  cbn in Hrun. injection Hrun as <-. split; reflexivity.
Defined.

Lemma approveAllForClient_outcomes_witness :
  let env := Sample.envAt 3000 "d" in
  let run := approveAllForClient "c2" "adm" env Office.db in
  let again := approveAllForClient "c2" "adm" (Sample.envAt 4000 "e") (snd run) in
  approveAllForClient "nobody" "adm" env Office.db
  = (Throw (errors.notFound "Client"), Office.db)
  /\ approveAllForClient "adm" "adm" env Office.db
     = (Throw (errors.badRequest "No pending documents found for this client"), Office.db)
  /\ (exists response,
         fst run = Ok response
         /\ ba_approvedCount response
            = count (fun d => ownsDocument "c2" d && isPending d) (documents Office.db))
  /\ filter (fun d => ownsDocument "c2" d && isPending d) (documents (snd run)) = []
  /\ filter (fun d => negb (ownsDocument "c2" d)) (documents (snd run))
     = filter (fun d => negb (ownsDocument "c2" d)) (documents Office.db)
  /\ map Document.id (documents (snd run)) = map Document.id (documents Office.db)
  /\ List.length (adminActivityLogs (snd run))
     = S (List.length (adminActivityLogs Office.db))
  /\ fst again = Throw (errors.badRequest "No pending documents found for this client")
  /\ snd again = snd run.
Proof.
  split; [| split].
  - apply (proj1 (approveAllForClient_outcomes Office.db "nobody" "adm"
                    (Sample.envAt 3000 "d"))).
    reflexivity.
  - apply (proj1 (proj2 (approveAllForClient_outcomes Office.db "adm" "adm"
                           (Sample.envAt 3000 "d"))) Sample.admin).
    + reflexivity.
    + intros d [<- | [<- | [<- | [<- | []]]]]; cbn; congruence.
  - apply (proj2 (proj2 (approveAllForClient_outcomes Office.db "c2" "adm"
                           (Sample.envAt 3000 "d")))
             Office.bob "adm" (Sample.envAt 4000 "e")).
    + reflexivity.
    + vm_compute. discriminate.
Defined.

Lemma getStats_after_approveAll_witness :
  let run := approveAllForClient "c2" "adm" (Sample.envAt 3000 "d") Office.db in
  exists response before after,
    fst run = Ok response
    /\ getStats Office.db = (Ok before, Office.db)
    /\ getStats (snd run) = (Ok after, snd run)
    /\ pendingDocuments before + approvedDocuments before + rejectedDocuments before
       = Z.of_nat (List.length (documents Office.db))
    /\ pendingDocuments after = pendingDocuments before - ba_approvedCount response
    /\ approvedDocuments after = approvedDocuments before + ba_approvedCount response
    /\ rejectedDocuments after = rejectedDocuments before
    /\ totalClients after = totalClients before
    /\ completedOnboarding after = completedOnboarding before
    /\ 0 < ba_approvedCount response.
Proof.
  apply (getStats_after_approveAll Office.db "c2" "adm" (Sample.envAt 3000 "d") Office.bob).
  - reflexivity.
  - vm_compute. discriminate.
Defined.

Lemma paging_of_query_witness :
  let p := paging 50 (Some "3") (Some "200") in
  (1 <= pageNum p /\ 1 <= limitNum p <= 50)
  /\ pageNum p = 3 /\ limitNum p = Z.min 50 200 /\ skip p = (3 - 1) * Z.min 50 200
  /\ (pageNum (paging 100 None None) = 1 /\ skip (paging 100 None None) = 0)
  /\ limitNum (paging 100 None None) = Z.min 100 20
  /\ limitNum (paging 100 None (Some "0")) = Z.min 100 20
  /\ limitNum (paging 100 None (Some "-5")) = 1.
Proof.
  assert (Hfifty : exactInteger 50) by (unfold exactInteger; cbn; lia).
  assert (Hhundred : exactInteger 100) by (unfold exactInteger; cbn; lia).
  destruct (paging_of_query 50 (Some "3") (Some "200") ltac:(lia) Hfifty)
    as (Hbounds & Hquery & _).
  split; [exact Hbounds |].
  destruct (Hquery 3 200 ltac:(lia) ltac:(unfold exactInteger; cbn; lia) ltac:(lia)
              eq_refl eq_refl) as (Hpage & Hlimit & Hskip).
  split; [exact Hpage |]. split; [exact Hlimit |].
  split; [apply Hskip; unfold exactInteger; cbn; lia |].
  destruct (paging_of_query 100 None None ltac:(lia) Hhundred)
    as (_ & _ & Hnopage & Hnolimit & _).
  split; [apply Hnopage; reflexivity |]. split; [apply Hnolimit; reflexivity |].
  split.
  - apply (proj1 (proj2 (proj2 (proj2 (proj2
             (paging_of_query 100 None (Some "0") ltac:(lia) Hhundred)))))).
    reflexivity.
  - apply (proj2 (proj2 (proj2 (proj2 (proj2
             (paging_of_query 100 None (Some "-5") ltac:(lia) Hhundred))))) (-5)).
    + lia.
    + reflexivity.
Defined.

Lemma pages_cover_rows_witness :
  let rows := ["A"; "B"; "C"; "D"; "E"] in
  let page k := pageOf (paging 50 (Some (showZ k)) (Some "2")) rows in
  let limitNum := limitNum (paging 50 None (Some "2")) in
  let totalPages := totalPagesOf (Z.of_nat (List.length rows)) limitNum in
  List.concat (map (fun k => page (Z.of_nat k)) (seq 1 (Z.to_nat totalPages))) = rows
  /\ (forall k, 1 <= k -> Z.of_nat (List.length (page k)) <= limitNum)
  /\ (forall k, totalPages < k -> page k = []).
Proof.
  apply (pages_cover_rows ["A"; "B"; "C"; "D"; "E"] 50 (Some "2")). lia.
Defined.

Lemma getActivityLog_page_witness :
  exists response,
    getActivityLog (Some "1") (Some "1") Office.db = (Ok response, Office.db)
    /\ map (fun entry => AdminActivityLog.id (fst entry)) (al_logs response) = ["l2"]
    /\ pg_total (al_pagination response) = 2
    /\ pg_totalPages (al_pagination response) = 2
    /\ al_logs (match fst (getActivityLog (Some "3") (Some "1") Office.db) with
                | Ok beyond => beyond
                | Throw _ => response
                end) = [].
Proof.
  destruct (getActivityLog_page Office.db (Some "1") (Some "1"))
    as (response & Hrun & _).
  destruct (getActivityLog_page Office.db (Some "3") (Some "1"))
    as (beyond & Hbeyond & _ & _ & _ & _ & _ & _ & Hempty).
  exists response. split; [exact Hrun |].
  rewrite Hbeyond. cbn [fst].
  split; [| split; [| split]].
  - cbn in Hrun. injection Hrun as <-. reflexivity.
  - cbn in Hrun. injection Hrun as <-. reflexivity.
  - cbn in Hrun. injection Hrun as <-. reflexivity.
  - apply Hempty. cbn in Hbeyond. injection Hbeyond as <-. vm_compute. reflexivity.
Defined.


Lemma addDocument_then_listed_witness :
  let input := mkUploadDocumentInput "licence.pdf" "https://utfs.io/f/F" "F" "application/pdf"
                 (Whole 4096) DocumentCategory.BUSINESS_LICENSE in
  let huge := mkUploadDocumentInput "film.mkv" "https://utfs.io/f/G" "G" "video/x-matroska"
                (Whole 3000000000) DocumentCategory.OTHER in
  let added := addDocument "c2" input (Sample.envAt 3000 "d") Office.db in
  (exists listed,
      fst (getDocuments "c2" (Some "TAX_DOCUMENT") Office.db) = Ok listed
      /\ Forall (fun d => Document.clientId d = "c2" /\ In d (documents Office.db)) listed
      /\ StronglySorted (fun a b => Document.uploadedAt b <= Document.uploadedAt a) listed)
  /\ (exists document,
         fst added = Ok document
         /\ documents (snd added) = (documents Office.db ++ [document])%list
         /\ Document.fileName document = "licence.pdf"
         /\ Document.fileSize document = 4096
         /\ Document.verificationStatus document = DocumentVerificationStatus.PENDING
         /\ Document.verifiedAt document = None)
  /\ (exists listed,
         fst (getDocuments "c2" None (snd added)) = Ok listed
         /\ map Document.id listed = ["d-0"; "D"; "E"])
  /\ fst (getDocuments "c1" None (snd added)) = fst (getDocuments "c1" None Office.db)
  /\ failsWith 500 (addDocument "c2" huge (Sample.envAt 3000 "d") Office.db)
  /\ snd (addDocument "c2" huge (Sample.envAt 3000 "d") Office.db) = Office.db.
Proof.
  destruct (addDocument_then_listed Office.db "c2"
              (mkUploadDocumentInput "licence.pdf" "https://utfs.io/f/F" "F"
                 "application/pdf" (Whole 4096) DocumentCategory.BUSINESS_LICENSE)
              (Sample.envAt 3000 "d"))
    as (Hlisting & Hstored & _).
  destruct (Hstored 4096 eq_refl ltac:(lia))
    as (document & db' & Hadded & Hrows & _ & Hname & _ & _ & _ & Hsize & _ & _ & Hstatus
        & _ & Hverified & _ & Hothers).
  split; [| split; [| split; [| split]]].
  - eexists. split; [reflexivity |].
    apply (proj2 (Hlisting (Some "TAX_DOCUMENT"))). reflexivity.
  - exists document. rewrite Hadded. cbn [fst snd]. auto 10.
  - eexists. split; reflexivity.
  - rewrite Hadded. cbn [snd]. apply (Hothers "c1" None). discriminate.
  - apply (proj2 (proj2 (addDocument_then_listed Office.db "c2"
                           (mkUploadDocumentInput "film.mkv" "https://utfs.io/f/G" "G"
                              "video/x-matroska" (Whole 3000000000) DocumentCategory.OTHER)
                           (Sample.envAt 3000 "d")))).
    intros size [= <-]. lia.
Defined.

Lemma deleteDocument_effect_witness :
  deleteDocument "c1" "D" Office.db = (Throw (errors.notFound "Document"), Office.db)
  /\ exists db',
      deleteDocument "c2" "D" Office.db
      = (Ok (mkMessageResponse true "Document deleted successfully"), db')
      /\ (forall d', In d' (documents db')
                     <-> In d' (documents Office.db) /\ Document.id d' <> "D")
      /\ deleteDocument "c2" "D" db' = (Throw (errors.notFound "Document"), db')
      /\ (NoDup (map Document.id (documents Office.db)) ->
          filter (fun d' => negb (ownsDocument "c2" d')) (documents db')
          = filter (fun d' => negb (ownsDocument "c2" d')) (documents Office.db)).
Proof.
  split.
  - apply (proj1 (deleteDocument_effect Office.db "c1" "D")).
    intros d [<- | [<- | [<- | [<- | []]]]]; cbn; congruence.
  - apply (proj2 (deleteDocument_effect Office.db "c2" "D")
             (Office.bobDocument "D" DocumentVerificationStatus.PENDING 800)).
    + cbn. tauto.
    + reflexivity.
    + reflexivity.
Defined.

Lemma updateProfile_effect_witness :
  let updateData :=
    mkUpdateProfileInput (Some "Robert") None None (Some (Some "555-0100")) (Some None) in
  exists db' view updated,
    updateProfile "c2" updateData Office.db = (Ok view, db')
    /\ findClientById "c2" db' = Some updated
    /\ view = mkProfileView "c2" "bob@x.io" "Robert" "Builder" (Some "Bricks Ltd")
                (Some "555-0100") None false
    /\ (Client.firstName updated = "Robert"
        /\ Client.lastName updated = "Builder"
        /\ Client.companyName updated = Some "Bricks Ltd"
        /\ Client.phone updated = Some "555-0100"
        /\ Client.avatarUrl updated = None)
    /\ patchProfile "c2" updateData Office.db = updateProfile "c2" updateData Office.db.
Proof.
  destruct (updateProfile_effect Office.db "c2"
              (mkUpdateProfileInput (Some "Robert") None None (Some (Some "555-0100"))
                 (Some None))
              Office.bob eq_refl)
    as (db' & view & updated & Hrun & Hfound & Hfirst & Hlast & Hcompany & Hphone & Havatar
        & (Hid & Hemail & Hv1 & Hv2 & Hv3 & Hv4 & Hv5 & Hverified) & _ & Hpatch & _).
  exists db', view, updated.
  split; [exact Hrun |]. split; [exact Hfound |].
  split.
  { destruct view. cbn in *. rewrite Hfirst, Hlast, Hcompany, Hphone, Havatar in *.
    congruence. }
  split; [auto |].
  apply Hpatch. reflexivity.
Defined.

Lemma changePassword_effect_witness :
  let env := Sample.envAt 3000 "d" in
  let run := changePassword (R := Office.runtime) "c2" "Hunter2000" "NewPass123" env
               Office.db in
  changePassword (R := Office.runtime) "c2" "hunter2" "NewPass123" env Office.db
  = (Throw (errors.unauthorized "Current password is incorrect"), Office.db)
  /\ fst run = Ok (mkMessageResponse true "Password changed successfully")
  /\ refreshTokens (snd run) = refreshTokens Office.db
  /\ (exists updated,
         findClientById "c2" (snd run) = Some updated
         /\ Client.email updated = Client.email Office.bob
         /\ comparePassword (R := Office.runtime) "NewPass123" (Client.passwordHash updated)
            = true)
  /\ (forall c, In c (clients Office.db) -> Client.id c <> "c2" -> In c (clients (snd run))).
Proof.
  split.
  - apply (proj1 (changePassword_effect (R := Office.runtime) Office.db "c2" "hunter2"
                    "NewPass123" (Sample.envAt 3000 "d") Office.bob runtime_bcryptAccepts
                    eq_refl)).
    reflexivity.
  - apply (proj2 (changePassword_effect (R := Office.runtime) Office.db "c2" "Hunter2000"
                    "NewPass123" (Sample.envAt 3000 "d") Office.bob runtime_bcryptAccepts
                    eq_refl)).
    reflexivity.
Defined.

Lemma deleteAccount_cascade_witness :
  exists result db',
    deleteAccount Office.pathname "c2" Office.db = (Ok result, db')
    /\ da_deletedFiles result = ["D"; "E"; "bob-avatar"]
    /\ map Client.id (clients db') = ["c1"; "adm"]
    /\ map TokenRow.token (refreshTokens db') = ["alice-phone"; "alice-laptop"]
    /\ emailVerificationTokens db' = []
    /\ map Document.id (documents db') = ["A"; "B"]
    /\ map StepProgress.id (stepProgress db') = ["sp1"]
    /\ fst (deleteAccount Office.pathname "c2" db')
       = Throw (PrismaKnownRequestError "P2025" None
                  "An operation failed because it depends on one or more records that were required but not found.").
Proof.
  destruct (deleteAccount_cascade Office.db Office.pathname "c2" Office.bob eq_refl)
    as (result & db' & Hrun & _ & _ & _ & _ & _ & _ & _ & _ & _ & _ & _ & _ & Hagain & _).
  exists result, db'. split; [exact Hrun |].
  cbn in Hrun. injection Hrun as <- <-.
  repeat (split; [reflexivity |]). exact Hagain.
Defined.

Lemma extractFileKeyFromUrl_cases_witness :
  extractFileKeyFromUrl Office.pathname "not a url" = None
  /\ extractFileKeyFromUrl Office.pathname "https://utfs.io/f/bob-avatar" = Some "bob-avatar"
  /\ extractFileKeyFromUrl Office.pathname "https://files.example/A" = None
  /\ extractFileKeyFromUrl Office.pathname "https://app1.ufs.sh/a/app1/f/key9" = Some "key9"
  /\ extractFileKeyFromUrl Office.pathname "https://app1.ufs.sh/a/f/x/f/y" = Some "x"
  /\ extractFileKeyFromUrl Office.pathname "https://app1.ufs.sh/a/f//f/y" = None.
Proof.
  split; [| split; [| split; [| split; [| split]]]].
  - apply (proj1 (extractFileKeyFromUrl_cases Office.pathname "not a url")).
    right. reflexivity.
  - apply (proj1 (proj2 (extractFileKeyFromUrl_cases Office.pathname
                           "https://utfs.io/f/bob-avatar")) "bob-avatar").
    + discriminate.
    + reflexivity.
  - apply (proj1 (proj2 (proj2 (extractFileKeyFromUrl_cases Office.pathname
                                  "https://files.example/A"))) "/A").
    + reflexivity.
    + reflexivity.
  - apply (proj1 (proj2 (proj2 (proj2 (extractFileKeyFromUrl_cases Office.pathname
                                         "https://app1.ufs.sh/a/app1/f/key9"))))
             "/a/app1" "key9").
    + discriminate.
    + reflexivity.
    + discriminate.
    + reflexivity.
    + reflexivity.
  - apply (proj2 (proj2 (proj2 (proj2 (extractFileKeyFromUrl_cases Office.pathname
                                         "https://app1.ufs.sh/a/f/x/f/y"))))
             "/a" "x" "y").
    + discriminate.
    + reflexivity.
    + discriminate.
    + reflexivity.
    + reflexivity.
  - apply (proj2 (proj2 (proj2 (proj2 (extractFileKeyFromUrl_cases Office.pathname
                                         "https://app1.ufs.sh/a/f//f/y"))))
             "/a" EmptyString "y").
    + discriminate.
    + reflexivity.
    + discriminate.
    + reflexivity.
    + reflexivity.
Defined.
